(** * FeedSieve: the feed-reader client, its filter, sort, index and read state

    The repository holds five copies of one class [FeedSieve] at successive
    stages of growth.  Each copy is embedded in a module of its own:

    - [AppJs]          : src/js/app.js
    - [SiteApp]        : src/site/js/app.js, first document (type filter only)
    - [Part000]        : src/unnamed/part_000 (today/week, source index)
    - [SiteAppCat]     : src/site/js/app.js, second document (categories,
                         one storage key per read item)
    - [App1766840000]  : src/js/app.1766840000.js (categories, read set)

    What the browser provides (date parsing, the local time zone, JSON, the
    string primitives beyond the ASCII range, the printing of integers
    beyond the safe range, the order of a sort under an inconsistent
    comparator) is a parameter of the development, the class [Host];
    [RefHost] is one executable instance.  The DOM side ([render], event
    wiring) is not modelled: the functions below return the data the DOM
    code is given. *)

From Stdlib Require Import ZArith Ascii String List Bool Lia Permutation Sorted.
From stdpp Require Import base option list gmap strings pretty.

Set Warnings "-register-all".
Local Open Scope Z_scope.

(** ** JavaScript values and string primitives

    A string is held as the bytes of its UTF-8 form. On a string of the
    ASCII range a byte is a UTF-16 code unit, and the string primitives are
    computed here. What a primitive makes of any other string, what
    [String(n)] prints for an integer beyond the safe range, and how [sort]
    orders a list under an inconsistent comparator, is left to the engine:
    these are fields of the class [Host] below, of which nothing is assumed
    but that a sort rearranges. *)

Module JS.

Fixpoint isASCII (s : string) : bool :=
  match s with
  | EmptyString => true
  | String c s' => (N_of_ascii c <? 128)%N && isASCII s'
  end.

(** [String.prototype.toLowerCase] on the ASCII range: A-Z are lowered, the
    other code units are left as they are. *)
Definition toLowerChar (c : ascii) : ascii :=
  let n := N_of_ascii c in
  if ((65 <=? n) && (n <=? 90))%N then ascii_of_N (n + 32) else c.

Fixpoint toLowerASCII (s : string) : string :=
  match s with
  | EmptyString => EmptyString
  | String c s' => String (toLowerChar c) (toLowerASCII s')
  end.

(** White space as [trim] and [parseInt] see it, on the ASCII range: the
    tab, the line feed, the vertical tab, the form feed, the carriage return
    and the space. *)
Definition isSpace (c : ascii) : bool :=
  let n := N_of_ascii c in
  ((n =? 32) || ((9 <=? n) && (n <=? 13)))%N.

Fixpoint trimStartASCII (s : string) : string :=
  match s with
  | String c s' => if isSpace c then trimStartASCII s' else s
  | EmptyString => EmptyString
  end.

Fixpoint trimEndASCII (s : string) : string :=
  match s with
  | String c s' =>
      match trimEndASCII s' with
      | EmptyString => if isSpace c then EmptyString else String c EmptyString
      | t => String c t
      end
  | EmptyString => EmptyString
  end.

Definition trimASCII (s : string) : string := trimEndASCII (trimStartASCII s).

(** The first [n] code units of a string of the ASCII range. *)
Fixpoint substring0ASCII (n : nat) (s : string) : string :=
  match n, s with
  | S n', String c s' => String c (substring0ASCII n' s')
  | _, _ => EmptyString
  end.

Fixpoint startsWith (s p : string) {struct p} : bool :=
  match p, s with
  | EmptyString, _ => true
  | String _ _, EmptyString => false
  | String c p', String d s' => if Ascii.eqb c d then startsWith s' p' else false
  end.

(** [String.prototype.includes]: [p] occurs in [s] at some position. *)
Fixpoint includes (s p : string) : bool :=
  startsWith s p ||
  match s with
  | EmptyString => false
  | String _ s' => includes s' p
  end.

(** ToBoolean of a string: the empty string is falsy. *)
Definition nonEmpty (s : string) : bool :=
  match s with EmptyString => false | String _ _ => true end.

(** ToBoolean of a property that is a string or absent ([undefined]). *)
Definition truthy (v : option string) : bool :=
  match v with Some s => nonEmpty s | None => false end.

(** [a || b] on such properties. *)
Definition or (a b : option string) : option string :=
  if truthy a then a else b.

(** ToString of such a property, as a template literal [${v}] computes it. *)
Definition template (v : option string) : string :=
  match v with Some s => s | None => "undefined" end.

(** The code points of a string, each as the string of its bytes: what the
    iteration of a string yields. A byte from 128 to 191 continues the code
    point of the byte before it. *)
Definition continues (c : ascii) : bool :=
  let n := N_of_ascii c in ((128 <=? n) && (n <? 192))%N.

Fixpoint codePoints (s : string) : list string :=
  match s with
  | EmptyString => []
  | String c s' =>
      let rest := codePoints s' in
      if match s' with String d _ => continues d | EmptyString => false end
      then match rest with
           | p :: ps => String c p :: ps
           | [] => [String c EmptyString]
           end
      else String c EmptyString :: rest
  end.

(** The names of the properties every object inherits from
    [Object.prototype], as the engine makes it: each holds a function, but
    [__proto__], an accessor that gives the prototype itself. A plain object
    used as a map reads them as entries it was never given. *)
Definition inheritedNames : list string :=
  ["constructor"; "__defineGetter__"; "__defineSetter__"; "hasOwnProperty";
   "__lookupGetter__"; "__lookupSetter__"; "isPrototypeOf";
   "propertyIsEnumerable"; "toString"; "valueOf"; "__proto__"; "toLocaleString"].

Definition inherited (key : string) : bool :=
  existsb (String.eqb key) inheritedNames.

(** JSON values, what [JSON.parse] returns. Numbers are the integers. *)
Inductive json : Type :=
| JNull
| JBool (b : bool)
| JNumber (n : Z)
| JString (s : string)
| JArray (l : list json)
| JObject (l : list (string * json)).

(** Identifiers: a number or a string. *)
Inductive ident : Type :=
| IdNum (n : Z)
| IdStr (s : string).

Definition json_of_ident (i : ident) : json :=
  match i with IdNum n => JNumber n | IdStr s => JString s end.

(** The integers every engine holds exactly and prints in decimal. *)
Definition isSafeInteger (n : Z) : bool := Z.abs n <? 2 ^ 53.

(** SameValueZero. Arrays and objects are compared by reference, and every
    array or object met here is a fresh one out of [JSON.parse]: it is the
    same value as nothing else. *)
Definition sameValueZero (x y : json) : bool :=
  match x, y with
  | JNull, JNull => true
  | JBool a, JBool b => Bool.eqb a b
  | JNumber n, JNumber m => n =? m
  | JString s, JString t => String.eqb s t
  | _, _ => false
  end.

(** A [Set], in insertion order. *)
Definition Set_has (s : list json) (x : json) : bool :=
  existsb (sameValueZero x) s.

Definition Set_add (s : list json) (x : json) : list json :=
  if Set_has s x then s else s ++ [x].

Definition Set_delete (s : list json) (x : json) : list json :=
  List.filter (fun y => negb (sameValueZero x y)) s.

(** Completion of a call: a value, or the exception it throws. *)
Inductive exn : Type := SyntaxError | TypeError.

Inductive completion (A : Type) : Type :=
| Normal (a : A)
| Throw (e : exn).
Arguments Normal {A} a.
Arguments Throw {A} e.

(** [new Set(iterable)]: null gives the empty set, an array its elements, a
    string its code points; a number, a boolean or an object is not
    iterable. *)
Definition newSet (j : json) : completion (list json) :=
  match j with
  | JNull => Normal []
  | JArray l => Normal (foldl Set_add [] l)
  | JString s => Normal (foldl Set_add [] (map JString (codePoints s)))
  | JBool _ | JNumber _ | JObject _ => Throw TypeError
  end.

(** The comparator of a sort returns a number, [None] standing for NaN,
    which the sort reads as +0. *)
Section ArraySort.
Context {A : Type} (comparefn : A -> A -> option Z).

Definition sortCompare (x y : A) : Z :=
  match comparefn x y with Some v => v | None => 0 end.

(** The comparator is consistent on the elements of [l]: being equal under
    it is reflexive, symmetric and transitive, and so are being less and
    being greater. *)
Definition consistent (l : list A) : bool :=
  forallb (fun a =>
    (sortCompare a a =? 0) &&
    forallb (fun b =>
      implb (sortCompare a b =? 0) (sortCompare b a =? 0) &&
      forallb (fun c =>
        implb ((sortCompare a b =? 0) && (sortCompare b c =? 0)) (sortCompare a c =? 0) &&
        implb ((sortCompare a b <? 0) && (sortCompare b c <? 0)) (sortCompare a c <? 0) &&
        implb ((sortCompare a b >? 0) && (sortCompare b c >? 0)) (sortCompare a c >? 0))
        l) l) l.

Fixpoint sortInsert (x : A) (l : list A) : list A :=
  match l with
  | [] => [x]
  | y :: l' => if sortCompare x y <=? 0 then x :: y :: l' else y :: sortInsert x l'
  end.

(** A stable sort, by insertion from the right. For a consistent comparator
    the result of a stable sort does not depend on the algorithm
    ([stable_descending_unique] below). *)
Definition stableSort (l : list A) : list A := foldr sortInsert [] l.

(** [comparefn] orders the elements of [l] by descending [key]: on them it
    returns the difference of the keys. *)
Definition by_key (key : A -> Z) (l : list A) : Prop :=
  forall x y, In x l -> In y l -> sortCompare x y = key y - key x.

End ArraySort.

(** A sort by insertion rearranges. *)
Lemma sortInsert_Permutation {A : Type} (comparefn : A -> A -> option Z)
    (x : A) (l : list A) :
  Permutation (sortInsert comparefn x l) (x :: l).
Proof.
  induction l as [|y l IH]; simpl.
  - apply Permutation_refl.
  - destruct (sortCompare comparefn x y <=? 0).
    + apply Permutation_refl.
    + eapply perm_trans; [apply perm_skip, IH | apply perm_swap].
Qed.

Lemma stableSort_Permutation {A : Type} (comparefn : A -> A -> option Z)
    (l : list A) :
  Permutation (stableSort comparefn l) l.
Proof.
  induction l as [|x l IH]; simpl.
  - apply perm_nil.
  - eapply perm_trans; [apply sortInsert_Permutation | apply perm_skip, IH].
Qed.

(** *** The host: what the browser computes *)

Class Host : Type := {
  (** [new Date(s).getTime()], [None] for an Invalid Date *)
  Date_parse : string -> option Z;
  (** local time minus UTC, in milliseconds, at an instant *)
  tzOffset : Z -> Z;
  (** [JSON.parse], [None] when it throws a SyntaxError *)
  JSON_parse : string -> option json;
  (** [JSON.stringify] of an array *)
  JSON_stringify : list json -> string;
  (** [toLowerCase], [length], [substring(0, n)], [trim] and the removal of
      leading white space, for a string beyond the ASCII range *)
  String_toLowerCase : string -> string;
  String_length : string -> nat;
  String_substring0 : nat -> string -> string;
  String_trim : string -> string;
  String_trimStart : string -> string;
  (** [String(n)] for an integer beyond the safe range *)
  Number_toString : Z -> string;
  (** the Number an integer beyond the safe range is read as *)
  Number_ofInteger : Z -> Z;
  (** [sort] under a comparator that is not consistent: the order is the
      implementation's own, of the same elements *)
  Array_sort_unspecified : forall A : Type, (A -> A -> Z) -> list A -> list A;
  Array_sort_unspecified_Permutation :
    forall (A : Type) (compare : A -> A -> Z) (l : list A),
      Permutation (Array_sort_unspecified A compare l) l
}.

Section Primitives.
Context `{Host}.

(** [String.prototype.toLowerCase] *)
Definition toLowerCase (s : string) : string :=
  if isASCII s then toLowerASCII s else String_toLowerCase s.

(** [str.length], in UTF-16 code units *)
Definition strLength (s : string) : nat :=
  if isASCII s then String.length s else String_length s.

(** [str.substring(0, n)] *)
Definition substring0 (n : nat) (s : string) : string :=
  if isASCII s then substring0ASCII n s else String_substring0 n s.

(** [str.trim()] *)
Definition trim (s : string) : string :=
  if isASCII s then trimASCII s else String_trim s.

(** The removal of leading white space that [parseInt] starts with. *)
Definition trimStart (s : string) : string :=
  if isASCII s then trimStartASCII s else String_trimStart s.

(** ToString of a number that is an integer: decimal digits within the safe
    range. *)
Definition Number_String (n : Z) : string :=
  if isSafeInteger n then pretty n else Number_toString n.

(** The Number a run of digits denotes. *)
Definition toNumber (v : Z) : Z :=
  if isSafeInteger v then v else Number_ofInteger v.

(** ToString of an identifier, and of one that may be absent. *)
Definition ident_toString (i : ident) : string :=
  match i with IdNum n => Number_String n | IdStr s => s end.

Definition String_ (v : option ident) : string :=
  match v with Some i => ident_toString i | None => "undefined" end.

(** [Array.prototype.sort(comparefn)]. The sort is stable (ECMAScript 2019
    and later), which fixes its result under a consistent comparator; under
    any other the order is implementation-defined. *)
Definition Array_sort {A : Type} (comparefn : A -> A -> option Z) (l : list A)
    : list A :=
  if consistent comparefn l then stableSort comparefn l
  else Array_sort_unspecified A (sortCompare comparefn) l.

End Primitives.

End JS.

Import JS.

(** ** Articles

    A property of an article holds a value of its type or is missing
    ([undefined], here [None]); ratings are integers. *)

Record Article : Type := {
  id : ident;
  title : option string;
  summary : option string;
  source_type : option string;
  source_id : option ident;
  source_name : option string;
  published_at : option string;
  processed_at : option string;
  rating : option Z;
  labels : option (list string)
}.

(** ** Dates *)

Section Dates.
Context `{Host}.

Definition msPerDay : Z := 24 * 60 * 60 * 1000.

(** The local calendar day an instant falls on, counted from the epoch. *)
Definition localDay (t : Z) : Z := (t + tzOffset t) / msPerDay.

(** [Date.prototype.toDateString] prints the weekday, month, day and year
    of the local calendar day, or "Invalid Date"; two results are the same
    string exactly when they print the same day. *)
Inductive DateString : Type :=
| InvalidDateString
| LocalDate (day : Z).

Definition DateString_eqb (a b : DateString) : bool :=
  match a, b with
  | InvalidDateString, InvalidDateString => true
  | LocalDate d, LocalDate e => d =? e
  | _, _ => false
  end.

Definition toDateString (d : option Z) : DateString :=
  match d with
  | Some t => LocalDate (localDay t)
  | None => InvalidDateString
  end.

(** [new Date(v)] for [v] a string, the number 0, or undefined. *)
Inductive dateArg : Type :=
| DStr (s : string)
| DNum (n : Z)
| DUndefined.

Definition newDate (v : dateArg) : option Z :=
  match v with
  | DStr s => Date_parse s
  | DNum n => Some n
  | DUndefined => None
  end.

(** [isToday(dateStr)], with [now] the reading of [new Date()]. *)
Definition isToday (now : Z) (dateStr : option string) : bool :=
  match dateStr with
  | Some s =>
      if negb (nonEmpty s) then false
      else
        let date := newDate (DStr s) in
        let today := Some now in
        DateString_eqb (toDateString date) (toDateString today)
  | None => false
  end.

(** [isThisWeek(dateStr)]: [date >= weekAgo] is false for an Invalid Date. *)
Definition isThisWeek (now : Z) (dateStr : option string) : bool :=
  match dateStr with
  | Some s =>
      if negb (nonEmpty s) then false
      else
        let date := newDate (DStr s) in
        let weekAgo := now - 7 * 24 * 60 * 60 * 1000 in
        match date with
        | Some t => weekAgo <=? t
        | None => false
        end
  | None => false
  end.

End Dates.

(** ** The state of a [FeedSieve] object

    The fields the modelled methods read or write. The earlier copies of the
    class have a subset of them; their methods do not touch the others. *)

(** [{ id: sourceId, type: sourceType }], both read from [dataset]. *)
Record SourceRef : Type := { ref_id : string; ref_type : string }.

(** [{ count, icon }] *)
Record CategoryEntry : Type := { count : Z; icon : string }.

Record FeedSieve : Type := {
  items : list Article;
  filteredItems : list Article;
  currentFilter : string;
  currentSource : option SourceRef;
  currentCategory : option string;
  searchQuery : string;
  sortBy : string;
  readItems : list json
}.

Definition set_filteredItems (l : list Article) (this : FeedSieve) : FeedSieve :=
  {| items := items this; filteredItems := l;
     currentFilter := currentFilter this; currentSource := currentSource this;
     currentCategory := currentCategory this; searchQuery := searchQuery this;
     sortBy := sortBy this; readItems := readItems this |}.

Definition set_readItems (r : list json) (this : FeedSieve) : FeedSieve :=
  {| items := items this; filteredItems := filteredItems this;
     currentFilter := currentFilter this; currentSource := currentSource this;
     currentCategory := currentCategory this; searchQuery := searchQuery this;
     sortBy := sortBy this; readItems := r |}.

Definition set_searchQuery (q : string) (this : FeedSieve) : FeedSieve :=
  {| items := items this; filteredItems := filteredItems this;
     currentFilter := currentFilter this; currentSource := currentSource this;
     currentCategory := currentCategory this; searchQuery := q;
     sortBy := sortBy this; readItems := readItems this |}.

Definition set_currentFilter (f : string) (this : FeedSieve) : FeedSieve :=
  {| items := items this; filteredItems := filteredItems this;
     currentFilter := f; currentSource := currentSource this;
     currentCategory := currentCategory this; searchQuery := searchQuery this;
     sortBy := sortBy this; readItems := readItems this |}.

Definition set_currentSource (src : option SourceRef) (this : FeedSieve) : FeedSieve :=
  {| items := items this; filteredItems := filteredItems this;
     currentFilter := currentFilter this; currentSource := src;
     currentCategory := currentCategory this; searchQuery := searchQuery this;
     sortBy := sortBy this; readItems := readItems this |}.

Definition set_currentCategory (c : option string) (this : FeedSieve) : FeedSieve :=
  {| items := items this; filteredItems := filteredItems this;
     currentFilter := currentFilter this; currentSource := currentSource this;
     currentCategory := c; searchQuery := searchQuery this;
     sortBy := sortBy this; readItems := readItems this |}.

(** [this.items.filter(callback)], where the callback reads the clock:
    [clock i] is what [new Date()] returns while item [i] is examined. *)
Fixpoint filterFrom (callback : Z -> Article -> bool) (clock : nat -> Z)
    (i : nat) (l : list Article) : list Article :=
  match l with
  | [] => []
  | a :: l' =>
      if callback (clock i) a
      then a :: filterFrom callback clock (S i) l'
      else filterFrom callback clock (S i) l'
  end.

(** [array.includes(x)] on an array of strings. *)
Definition Array_includes (l : list string) (x : string) : bool :=
  existsb (String.eqb x) l.

(** [a - b] on numbers that may be NaN. *)
Definition numSub (a b : option Z) : option Z :=
  match a, b with
  | Some x, Some y => Some (x - y)
  | _, _ => None
  end.

(** [r || 0] on a rating that is a number or absent. *)
Definition ratingOr0 (r : option Z) : Z :=
  match r with
  | Some n => if n =? 0 then 0 else n
  | None => 0
  end.

(** [v || []] on labels. *)
Definition labelsOrEmpty (v : option (list string)) : list string :=
  match v with Some l => l | None => [] end.

(** ** Code the copies share word for word *)

Module Common.
Section WithHost.
Context `{Host}.

(** The [input] handler of the search box (all copies). *)
Definition handleSearchInput (value : string) (this : FeedSieve) : FeedSieve :=
  set_searchQuery (toLowerCase value) this.

(** The state changes of the click handlers of the navigation (the copies
    with sources and categories); [filter], [sourceId], [sourceType] and
    [category] are the strings read from the button's [dataset]. *)
Definition handleFilterClick (filter : string) (this : FeedSieve) : FeedSieve :=
  set_currentCategory None (set_currentSource None (set_currentFilter filter this)).

Definition handleSourceClick (sourceId sourceType : string) (this : FeedSieve)
    : FeedSieve :=
  set_currentCategory None
    (set_currentSource (Some {| ref_id := sourceId; ref_type := sourceType |})
       (set_currentFilter "source" this)).

Definition handleCategoryClick (category : string) (this : FeedSieve) : FeedSieve :=
  set_currentSource None
    (set_currentCategory (Some category) (set_currentFilter "category" this)).

(** [const itemDate = item.published_at || item.processed_at] *)
Definition itemDate (item : Article) : option string :=
  JS.or (published_at item) (processed_at item).

(** "Time-based filters" *)
Definition temporalStage (this : FeedSieve) (now : Z) (item : Article) : bool :=
  if String.eqb (currentFilter this) "today" then isToday now (itemDate item)
  else if String.eqb (currentFilter this) "week" then isThisWeek now (itemDate item)
  else true.

(** "Type filter", for the list of types the copy tests against. *)
Definition typeStage (types : list string) (this : FeedSieve) (item : Article) : bool :=
  if Array_includes types (currentFilter this) then
    let itemType := template (JS.or (source_type item) (Some "rss")) in
    String.eqb itemType (currentFilter this)
  else true.

(** "Source filter": [this.currentSource] is an object, which is truthy, or
    null, and then the stage does not apply; its [id] is a string already. *)
Definition sourceStage (this : FeedSieve) (item : Article) : bool :=
  if String.eqb (currentFilter this) "source" then
    match currentSource this with
    | Some src => String.eqb (String_ (source_id item)) (ref_id src)
    | None => true
    end
  else true.

(** "Category filter" *)
Definition categoryStage (this : FeedSieve) (item : Article) : bool :=
  if String.eqb (currentFilter this) "category" && truthy (currentCategory this) then
    let labels := labelsOrEmpty (labels item) in
    Array_includes labels (template (currentCategory this))
  else true.

(** "Search filter" *)
Definition searchIn (item : Article) : string :=
  toLowerCase (template (title item) +:+ " " +:+ template (summary item) +:+ " "
               +:+ template (JS.or (source_name item) (Some ""))).

Definition searchStage (this : FeedSieve) (item : Article) : bool :=
  if nonEmpty (searchQuery this) then includes (searchIn item) (searchQuery this)
  else true.

(** [a.published_at || a.processed_at || 0], the argument of [new Date]. *)
Definition sortDateArg (item : Article) : dateArg :=
  if truthy (published_at item) then DStr (template (published_at item))
  else if truthy (processed_at item) then DStr (template (processed_at item))
  else DNum 0.

(** The comparator of [sortItems]. *)
Definition compareItems (this : FeedSieve) (a b : Article) : option Z :=
  if String.eqb (sortBy this) "rating" then
    Some (ratingOr0 (rating b) - ratingOr0 (rating a))
  else
    let dateA := newDate (sortDateArg a) in
    let dateB := newDate (sortDateArg b) in
    numSub dateB dateA.

Definition sortItems (this : FeedSieve) : FeedSieve :=
  set_filteredItems (Array_sort (compareItems this) (filteredItems this)) this.

End WithHost.
End Common.

(** ** src/js/app.js *)

Module AppJs.
Section WithHost.
Context `{Host}.

Definition initial : FeedSieve :=
  {| items := []; filteredItems := []; currentFilter := "all";
     currentSource := None; currentCategory := None; searchQuery := "";
     sortBy := "date"; readItems := [] |}.

(** [item.source_type !== this.currentFilter], the property possibly absent. *)
Definition typeStage (this : FeedSieve) (item : Article) : bool :=
  if negb (String.eqb (currentFilter this) "all")
     && negb (match source_type item with
              | Some t => String.eqb t (currentFilter this)
              | None => false
              end)
  then false else true.

Definition searchIn (item : Article) : string :=
  toLowerCase (template (title item) +:+ " " +:+ template (summary item) +:+ " "
               +:+ template (source_name item)).

Definition searchStage (this : FeedSieve) (item : Article) : bool :=
  if nonEmpty (searchQuery this) then includes (searchIn item) (searchQuery this)
  else true.

Definition filterCallback (this : FeedSieve) (item : Article) : bool :=
  typeStage this item && searchStage this item.

(** [a.processed_at || a.published_at], the argument of [new Date]. *)
Definition sortDateArg (item : Article) : dateArg :=
  if truthy (processed_at item) then DStr (template (processed_at item))
  else match published_at item with
       | Some s => DStr s
       | None => DUndefined
       end.

(** [b.rating - a.rating] is NaN when a rating is absent. *)
Definition compareItems (this : FeedSieve) (a b : Article) : option Z :=
  if String.eqb (sortBy this) "rating" then
    numSub (rating b) (rating a)
  else
    let dateA := newDate (sortDateArg a) in
    let dateB := newDate (sortDateArg b) in
    numSub dateB dateA.

Definition sortItems (this : FeedSieve) : FeedSieve :=
  set_filteredItems (Array_sort (compareItems this) (filteredItems this)) this.

Definition filtered (this : FeedSieve) : list Article :=
  List.filter (filterCallback this) (items this).

(** [applyFilters], up to the call of [render]. *)
Definition applyFilters (this : FeedSieve) : FeedSieve :=
  sortItems (set_filteredItems (filtered this) this).

End WithHost.
End AppJs.

(** ** src/site/js/app.js, first document *)

Module SiteApp.
Section WithHost.
Context `{Host}.

Definition initial : FeedSieve := AppJs.initial.

Definition typeStage (this : FeedSieve) (item : Article) : bool :=
  if negb (String.eqb (currentFilter this) "all") then
    let itemType := template (JS.or (source_type item) (Some "rss")) in
    String.eqb itemType (currentFilter this)
  else true.

Definition filterCallback (this : FeedSieve) (item : Article) : bool :=
  typeStage this item && Common.searchStage this item.

Definition sortItems : FeedSieve -> FeedSieve := Common.sortItems.

Definition filtered (this : FeedSieve) : list Article :=
  List.filter (filterCallback this) (items this).

Definition applyFilters (this : FeedSieve) : FeedSieve :=
  sortItems (set_filteredItems (filtered this) this).

End WithHost.
End SiteApp.

(** ** src/unnamed/part_000 *)

Module Part000.
Section WithHost.
Context `{Host}.

Definition initial : FeedSieve :=
  {| items := []; filteredItems := []; currentFilter := "today";
     currentSource := None; currentCategory := None; searchQuery := "";
     sortBy := "date"; readItems := [] |}.

Definition knownTypes : list string := ["rss"; "youtube"; "blog"; "nitter"].

Definition filterCallback (this : FeedSieve) (now : Z) (item : Article) : bool :=
  Common.temporalStage this now item && Common.typeStage knownTypes this item
  && Common.sourceStage this item && Common.searchStage this item.

Definition sortItems : FeedSieve -> FeedSieve := Common.sortItems.

Definition filtered (this : FeedSieve) (clock : nat -> Z) : list Article :=
  filterFrom (filterCallback this) clock 0 (items this).

Definition applyFilters (this : FeedSieve) (clock : nat -> Z) : FeedSieve :=
  sortItems (set_filteredItems (filtered this clock) this).

End WithHost.
End Part000.

(** ** src/site/js/app.js, second document *)

Module SiteAppCat.
Section WithHost.
Context `{Host}.

Definition initial : FeedSieve := Part000.initial.

Definition knownTypes : list string := ["rss"; "youtube"; "newsletter"; "nitter"].

Definition filterCallback (this : FeedSieve) (now : Z) (item : Article) : bool :=
  Common.temporalStage this now item && Common.typeStage knownTypes this item
  && Common.sourceStage this item && Common.categoryStage this item
  && Common.searchStage this item.

Definition sortItems : FeedSieve -> FeedSieve := Common.sortItems.

Definition filtered (this : FeedSieve) (clock : nat -> Z) : list Article :=
  filterFrom (filterCallback this) clock 0 (items this).

Definition applyFilters (this : FeedSieve) (clock : nat -> Z) : FeedSieve :=
  sortItems (set_filteredItems (filtered this clock) this).

(** The body of [labels.forEach]:

      if (!this.categories[label]) this.categories[label] = 0;
      this.categories[label]++;

    [this.categories] is a plain object and its values are numbers, [None]
    standing for NaN; 0 and NaN are falsy. Under a name every object
    inherits the read gives a function, which is truthy and which [++] turns
    into NaN, stored as a property of the object itself; [__proto__] is an
    accessor whose setter ignores a number. [Object.prototype] is taken as
    the engine makes it. *)
Definition countLabel (categories : gmap string (option Z)) (label : string)
    : gmap string (option Z) :=
  let falsy :=
    match categories !! label with
    | Some (Some n) => n =? 0
    | Some None => true
    | None => negb (inherited label)
    end in
  let categories' := if falsy then <[label := Some 0]> categories else categories in
  match categories' !! label with
  | Some (Some n) => <[label := Some (n + 1)]> categories'
  | Some None => categories'
  | None =>
      if String.eqb label "__proto__" then categories'
      else <[label := None]> categories'
  end.

Definition buildCategoryIndex (its : list Article) : gmap string (option Z) :=
  foldl (fun categories item => foldl countLabel categories (labelsOrEmpty (labels item)))
        ∅ its.

(** The read state: one key of [localStorage] per item. *)
Definition isRead (itemId : ident) (localStorage : gmap string string) : bool :=
  bool_decide (localStorage !! ("read_" +:+ ident_toString itemId) = Some "true").

Definition markAsRead (itemId : ident) (localStorage : gmap string string)
    : gmap string string :=
  <["read_" +:+ ident_toString itemId := "true"]> localStorage.

Definition markAsUnread (itemId : ident) (localStorage : gmap string string)
    : gmap string string :=
  delete ("read_" +:+ ident_toString itemId) localStorage.

End WithHost.
End SiteAppCat.

(** ** src/js/app.1766840000.js *)

Module App1766840000.
Section WithHost.
Context `{Host}.

(** The object the constructor builds around the read set. *)
Definition initial (r : list json) : FeedSieve :=
  {| items := []; filteredItems := []; currentFilter := "today";
     currentSource := None; currentCategory := None; searchQuery := "";
     sortBy := "date"; readItems := r |}.

(** [new Set(JSON.parse(localStorage.getItem('readItems') || '[]'))] and the
    rest of the constructor. Nothing catches what the parse or the
    construction of the set throws. *)
Definition constructor (localStorage : gmap string string) : completion FeedSieve :=
  let payload := JS.or (localStorage !! "readItems") (Some "[]") in
  match JSON_parse (template payload) with
  | None => Throw SyntaxError
  | Some j =>
      match newSet j with
      | Normal r => Normal (initial r)
      | Throw e => Throw e
      end
  end.

Definition markAsRead (itemId : ident) (w : FeedSieve * gmap string string)
    : FeedSieve * gmap string string :=
  let (this, localStorage) := w in
  let r := Set_add (readItems this) (json_of_ident itemId) in
  (set_readItems r this, <["readItems" := JSON_stringify r]> localStorage).

Definition markAsUnread (itemId : ident) (w : FeedSieve * gmap string string)
    : FeedSieve * gmap string string :=
  let (this, localStorage) := w in
  let r := Set_delete (readItems this) (json_of_ident itemId) in
  (set_readItems r this, <["readItems" := JSON_stringify r]> localStorage).

Definition isRead (itemId : ident) (this : FeedSieve) : bool :=
  Set_has (readItems this) (json_of_ident itemId).

(** The icon table of [buildCategoryIndex]. *)
Definition categoryIcons (label : string) : option string :=
  if String.eqb label "CyberSecurity" then Some "🔒"
  else if String.eqb label "AI" then Some "🤖"
  else if String.eqb label "Productivity" then Some "⚡"
  else if String.eqb label "Tech" then Some "💻"
  else if String.eqb label "Sysadmin" then Some "🖥️"
  else if String.eqb label "Philosophy" then Some "🤔"
  else None.

(** The body of [labels.forEach]: create the entry if there is none, then
    count. An entry is an object, hence truthy; so is what the read gives
    under a name every object inherits, and then no entry is created and
    [count++] goes to the function inherited ([Object.prototype] is taken as
    the engine makes it). *)
Definition countLabel (categories : gmap string CategoryEntry) (label : string)
    : gmap string CategoryEntry :=
  let categories' :=
    match categories !! label with
    | Some _ => categories
    | None =>
        if inherited label then categories
        else
          <[label := {| count := 0;
                        icon := match categoryIcons label with
                                | Some i => i
                                | None => "🏷️"
                                end |}]> categories
    end in
  alter (fun e => {| count := count e + 1; icon := icon e |}) label categories'.

Definition buildCategoryIndex (its : list Article) : gmap string CategoryEntry :=
  foldl (fun categories item => foldl countLabel categories (labelsOrEmpty (labels item)))
        ∅ its.

Definition knownTypes : list string := ["rss"; "youtube"; "blog"; "nitter"].

Definition filterCallback (this : FeedSieve) (now : Z) (item : Article) : bool :=
  Common.temporalStage this now item && Common.typeStage knownTypes this item
  && Common.sourceStage this item && Common.categoryStage this item
  && Common.searchStage this item.

Definition sortItems : FeedSieve -> FeedSieve := Common.sortItems.

Definition filtered (this : FeedSieve) (clock : nat -> Z) : list Article :=
  filterFrom (filterCallback this) clock 0 (items this).

(** [applyFilters], up to the call of [render]. *)
Definition applyFilters (this : FeedSieve) (clock : nat -> Z) : FeedSieve :=
  sortItems (set_filteredItems (filtered this clock) this).

End WithHost.
End App1766840000.

(** ** A reference host

    An executable [Host]: UTC as the local zone; the ISO-8601 forms
    [YYYY-MM-DD] and [YYYY-MM-DDTHH:mm:ssZ] as the dates that parse; JSON over
    the integers, without [\u] escapes. Where it accepts an input it returns
    what a browser returns. *)

Module RefHost.

Definition digit (c : ascii) : option Z :=
  let n := Z.of_N (N_of_ascii c) in
  if (48 <=? n) && (n <=? 57) then Some (n - 48) else None.

Fixpoint digits (acc : Z) (l : list ascii) : option Z :=
  match l with
  | [] => Some acc
  | c :: l' => match digit c with
               | Some d => digits (10 * acc + d) l'
               | None => None
               end
  end.

Definition number (l : list ascii) : option Z :=
  match l with [] => None | _ => digits 0 l end.

Definition isLeap (y : Z) : bool :=
  ((y mod 4 =? 0) && negb (y mod 100 =? 0)) || (y mod 400 =? 0).

Definition daysInMonth (y m : Z) : Z :=
  if m =? 2 then (if isLeap y then 29 else 28)
  else if (m =? 4) || (m =? 6) || (m =? 9) || (m =? 11) then 30 else 31.

(** Days from 1970-01-01 to the civil date [y-m-d]. *)
Definition daysFromCivil (y m d : Z) : Z :=
  let y' := if m <=? 2 then y - 1 else y in
  let era := y' / 400 in
  let yoe := y' - era * 400 in
  let doy := (153 * (if 2 <? m then m - 3 else m + 9) + 2) / 5 + d - 1 in
  let doe := yoe * 365 + yoe / 4 - yoe / 100 + doy in
  era * 146097 + doe - 719468.

Definition parseDay (l : list ascii) : option Z :=
  match l with
  | [y1; y2; y3; y4; "-"%char; m1; m2; "-"%char; d1; d2] =>
      match number [y1; y2; y3; y4], number [m1; m2], number [d1; d2] with
      | Some y, Some m, Some d =>
          if (1 <=? m) && (m <=? 12) && (1 <=? d) && (d <=? daysInMonth y m)
          then Some (daysFromCivil y m d) else None
      | _, _, _ => None
      end
  | _ => None
  end.

Definition parseClock (l : list ascii) : option Z :=
  match l with
  | [h1; h2; ":"%char; m1; m2; ":"%char; s1; s2; "Z"%char] =>
      match number [h1; h2], number [m1; m2], number [s1; s2] with
      | Some h, Some m, Some s =>
          if (h <? 24) && (m <? 60) && (s <? 60)
          then Some (((h * 60 + m) * 60 + s) * 1000) else None
      | _, _, _ => None
      end
  | _ => None
  end.

Definition parseDate (s : string) : option Z :=
  let l := list_ascii_of_string s in
  match parseDay (take 10 l), drop 10 l with
  | Some d, [] => Some (d * msPerDay)
  | Some d, "T"%char :: rest =>
      match parseClock rest with
      | Some ms => Some (d * msPerDay + ms)
      | None => None
      end
  | _, _ => None
  end.

(** *** JSON *)

Definition isWhite (c : ascii) : bool :=
  let n := N_of_ascii c in
  ((n =? 32) || (n =? 9) || (n =? 10) || (n =? 13))%N.

Fixpoint skipWhite (l : list ascii) : list ascii :=
  match l with
  | c :: l' => if isWhite c then skipWhite l' else l
  | [] => []
  end.

Definition dquote : ascii := ascii_of_N 34.

Definition unescape (e : ascii) : option ascii :=
  if Ascii.eqb e dquote then Some e
  else if Ascii.eqb e "\" then Some e
  else if Ascii.eqb e "/" then Some e
  else if Ascii.eqb e "n" then Some (ascii_of_N 10)
  else if Ascii.eqb e "t" then Some (ascii_of_N 9)
  else if Ascii.eqb e "r" then Some (ascii_of_N 13)
  else if Ascii.eqb e "b" then Some (ascii_of_N 8)
  else if Ascii.eqb e "f" then Some (ascii_of_N 12)
  else None.

(** The characters of a string literal, after its opening quote. *)
Fixpoint parseChars (l : list ascii) : option (string * list ascii) :=
  match l with
  | [] => None
  | c :: rest =>
      if Ascii.eqb c dquote then Some (EmptyString, rest)
      else if Ascii.eqb c "\" then
        match rest with
        | e :: rest1 =>
            match unescape e, parseChars rest1 with
            | Some c', Some (s, rest') => Some (String c' s, rest')
            | _, _ => None
            end
        | [] => None
        end
      else if (N_of_ascii c <? 32)%N then None
      else match parseChars rest with
           | Some (s, rest') => Some (String c s, rest')
           | None => None
           end
  end.

Fixpoint spanDigits (l : list ascii) : list ascii * list ascii :=
  match l with
  | c :: l' =>
      match digit c with
      | Some _ => let (ds, rest) := spanDigits l' in (c :: ds, rest)
      | None => ([], l)
      end
  | [] => ([], [])
  end.

(** An integer literal: no leading zero, no fraction, no exponent. *)
Definition parseInt (l : list ascii) : option (Z * list ascii) :=
  let (neg, l1) := match l with
                   | "-"%char :: l' => (true, l')
                   | _ => (false, l)
                   end in
  let (ds, rest) := spanDigits l1 in
  match ds, rest with
  | [], _ => None
  | _, "."%char :: _ | _, "e"%char :: _ | _, "E"%char :: _ => None
  | "0"%char :: _ :: _, _ => None
  | _, _ =>
      match digits 0 ds with
      | Some n => Some (if neg then - n else n, rest)
      | None => None
      end
  end.

Definition expect (word : string) (l : list ascii) : option (list ascii) :=
  let w := list_ascii_of_string word in
  if bool_decide (take (length w) l = w) then Some (drop (length w) l) else None.

Fixpoint parseValue (fuel : nat) (l : list ascii) : option (json * list ascii) :=
  match fuel with
  | O => None
  | S fuel' =>
      let parseElements :=
        fix parseElements (n : nat) (l : list ascii) : option (list json * list ascii) :=
          match n with
          | O => None
          | S n' =>
              match parseValue fuel' l with
              | Some (v, rest) =>
                  match skipWhite rest with
                  | ","%char :: rest' =>
                      match parseElements n' rest' with
                      | Some (vs, rest'') => Some (v :: vs, rest'')
                      | None => None
                      end
                  | "]"%char :: rest' => Some ([v], rest')
                  | _ => None
                  end
              | None => None
              end
          end in
      let parseMembers :=
        fix parseMembers (n : nat) (l : list ascii)
            : option (list (string * json) * list ascii) :=
          match n with
          | O => None
          | S n' =>
              match skipWhite l with
              | q :: l1 =>
                  match (if Ascii.eqb q dquote then parseChars l1 else None) with
                  | Some (k, l2) =>
                      match skipWhite l2 with
                      | ":"%char :: l3 =>
                          match parseValue fuel' l3 with
                          | Some (v, rest) =>
                              match skipWhite rest with
                              | ","%char :: rest' =>
                                  match parseMembers n' rest' with
                                  | Some (ms, rest'') => Some ((k, v) :: ms, rest'')
                                  | None => None
                                  end
                              | "}"%char :: rest' => Some ([(k, v)], rest')
                              | _ => None
                              end
                          | None => None
                          end
                      | _ => None
                      end
                  | None => None
                  end
              | [] => None
              end
          end in
      match skipWhite l with
      | "n"%char :: _ =>
          match expect "null" (skipWhite l) with
          | Some rest => Some (JNull, rest) | None => None end
      | "t"%char :: _ =>
          match expect "true" (skipWhite l) with
          | Some rest => Some (JBool true, rest) | None => None end
      | "f"%char :: _ =>
          match expect "false" (skipWhite l) with
          | Some rest => Some (JBool false, rest) | None => None end
      | "["%char :: l1 =>
          match skipWhite l1 with
          | "]"%char :: rest => Some (JArray [], rest)
          | _ => match parseElements (length l1) l1 with
                 | Some (vs, rest) => Some (JArray vs, rest)
                 | None => None
                 end
          end
      | "{"%char :: l1 =>
          match skipWhite l1 with
          | "}"%char :: rest => Some (JObject [], rest)
          | _ => match parseMembers (length l1) l1 with
                 | Some (ms, rest) => Some (JObject ms, rest)
                 | None => None
                 end
          end
      | q :: l1 =>
          if Ascii.eqb q dquote then
            match parseChars l1 with
            | Some (s, rest) => Some (JString s, rest) | None => None end
          else
            match parseInt (q :: l1) with
            | Some (n, rest) => Some (JNumber n, rest) | None => None end
      | [] => None
      end
  end.

Definition parse (s : string) : option json :=
  let l := list_ascii_of_string s in
  match parseValue (S (length l)) l with
  | Some (v, rest) => match skipWhite rest with [] => Some v | _ => None end
  | None => None
  end.

Definition hexDigit (n : N) : ascii :=
  if (n <? 10)%N then ascii_of_N (48 + n) else ascii_of_N (87 + n).

(** The escape of one character inside a string literal. *)
Definition quoteChar (c : ascii) : string :=
  let n := N_of_ascii c in
  if Ascii.eqb c dquote then String "\" (String dquote EmptyString)
  else if Ascii.eqb c "\" then String "\" (String "\" EmptyString)
  else if (n =? 8)%N then String "\" "b"
  else if (n =? 9)%N then String "\" "t"
  else if (n =? 10)%N then String "\" "n"
  else if (n =? 12)%N then String "\" "f"
  else if (n =? 13)%N then String "\" "r"
  else if (n <? 32)%N then
    String "\" (String "u" (String "0" (String "0"
      (String (hexDigit (n / 16)) (String (hexDigit (n mod 16)) EmptyString)))))
  else String c EmptyString.

Fixpoint quoteChars (s : string) : string :=
  match s with
  | EmptyString => EmptyString
  | String c s' => quoteChar c +:+ quoteChars s'
  end.

Definition quote (s : string) : string :=
  String dquote (quoteChars s +:+ String dquote EmptyString).

Definition commaJoin (l : list string) : string :=
  match l with
  | [] => EmptyString
  | x :: l' => foldl (fun acc y => acc +:+ "," +:+ y) x l'
  end.

Fixpoint stringifyValue (j : json) : string :=
  match j with
  | JNull => "null"
  | JBool true => "true"
  | JBool false => "false"
  | JNumber n => pretty n
  | JString s => quote s
  | JArray l => "[" +:+ commaJoin (map stringifyValue l) +:+ "]"
  | JObject l =>
      "{" +:+ commaJoin (map (fun kv => quote (fst kv) +:+ ":" +:+ stringifyValue (snd kv)) l)
      +:+ "}"
  end.

Definition stringify (l : list json) : string := stringifyValue (JArray l).

(** *** Beyond the ASCII range, beyond the safe integers

    The examples do not go there. This host leaves the letters beyond ASCII
    as they are, counts two code units for a code point of four bytes and
    one for any other, cuts between code points, trims the white space of
    the ASCII range, prints and reads every integer exactly, and sorts by
    insertion whatever the comparator. *)

Definition units (p : string) : nat :=
  if (4 <=? String.length p)%nat then 2%nat else 1%nat.

Definition codeUnits (s : string) : nat :=
  foldr (fun p n => (units p + n)%nat) 0%nat (codePoints s).

Fixpoint takeUnits (n : nat) (ps : list string) : string :=
  match ps with
  | p :: ps' =>
      if (units p <=? n)%nat then p +:+ takeUnits (n - units p) ps' else EmptyString
  | [] => EmptyString
  end.

Definition host : Host :=
  {| Date_parse := parseDate;
     tzOffset := fun _ => 0;
     JSON_parse := parse;
     JSON_stringify := stringify;
     String_toLowerCase := toLowerASCII;
     String_length := codeUnits;
     String_substring0 := fun n s => takeUnits n (codePoints s);
     String_trim := trimASCII;
     String_trimStart := trimStartASCII;
     Number_toString := pretty;
     Number_ofInteger := fun v => v;
     Array_sort_unspecified := fun A compare => stableSort (fun x y => Some (compare x y));
     Array_sort_unspecified_Permutation :=
       fun A compare => stableSort_Permutation (fun x y => Some (compare x y)) |}.

End RefHost.

(** ** The notions of the specification *)

Module Spec.
Section WithHost.
Context `{Host}.

(** A date or type field is present when it holds a non-empty string. *)
Definition present (v : option string) : option string :=
  match v with
  | Some s => if nonEmpty s then Some s else None
  | None => None
  end.

(** "[published_at] if present, else [processed_at] if present, else unknown" *)
Definition effective_date (a : Article) : option string :=
  match present (published_at a) with
  | Some s => Some s
  | None => present (processed_at a)
  end.

(** The instant the effective date denotes; [None] when the date is absent
    or does not parse. *)
Definition effective_time (a : Article) : option Z :=
  match effective_date a with
  | Some s => Date_parse s
  | None => None
  end.

(** The instant an article is ranked by in date order: the epoch when it has
    no effective date. *)
Definition rank_time (a : Article) : option Z :=
  match effective_date a with
  | Some s => Date_parse s
  | None => Some 0
  end.

(** The instant src/js/app.js ranks an article by: [processed_at] if
    present, else whatever [published_at] holds. *)
Definition processed_first_time (a : Article) : option Z :=
  match present (processed_at a) with
  | Some s => Date_parse s
  | None => match published_at a with
            | Some s => Date_parse s
            | None => None
            end
  end.

(** "[rating], absent treated as 0" *)
Definition rating_or_0 (a : Article) : Z :=
  match rating a with Some r => r | None => 0 end.

(** "[source_type], defaulted to rss when absent" *)
Definition source_type_or_rss (a : Article) : string :=
  match present (source_type a) with Some t => t | None => "rss" end.

(** "[labels], absent treated as empty" *)
Definition labels_of (a : Article) : list string :=
  match labels a with Some l => l | None => [] end.

(** The text the search runs on, every absent field replaced by the empty
    string, before lowercasing. *)
Definition search_text (a : Article) : string :=
  default "" (title a) +:+ " " +:+ default "" (summary a) +:+ " "
  +:+ default "" (source_name a).

(** [p] is a substring of [s]. *)
Definition substring (p s : string) : Prop :=
  exists pre suf, s = pre +:+ p +:+ suf.

(** How often a label occurs in a list of labels, and over a list of
    articles. *)
Definition occurrences (label : string) (l : list string) : Z :=
  Z.of_nat (length (List.filter (String.eqb label) l)).

Definition label_total (label : string) (its : list Article) : Z :=
  occurrences label (concat (map labels_of its)).

End WithHost.

(** A list in descending order of a key, and an output that keeps the
    elements of equal key in the order the input has them. *)
Definition descending {A : Type} (key : A -> Z) (a b : A) : Prop := key b <= key a.

Definition keeps_ties {A : Type} (key : A -> Z) (input output : list A) : Prop :=
  forall r, List.filter (fun a => key a =? r) output
            = List.filter (fun a => key a =? r) input.

End Spec.

(** The count an index holds for a label, 0 when it has no entry. *)
Definition countOf (categories : gmap string CategoryEntry) (label : string) : Z :=
  match categories !! label with Some e => count e | None => 0 end.

Definition countOfZ (categories : gmap string (option Z)) (label : string) : Z :=
  match categories !! label with Some (Some n) => n | _ => 0 end.

(** The outcome the specification asks of the rating order: the same
    articles, in descending order of rating, ties in input order. *)
Definition sorted_by_rating (input output : list Article) : Prop :=
  Permutation output input /\
  StronglySorted (Spec.descending Spec.rating_or_0) output /\
  Spec.keeps_ties Spec.rating_or_0 input output.

(** ** Sample feeds *)

Module Sample.

(** An article with nothing but an id. *)
Definition bare (n : Z) : Article :=
  {| id := IdNum n; title := None; summary := None; source_type := None;
     source_id := None; source_name := None; published_at := None;
     processed_at := None; rating := None; labels := None |}.

Definition rated (n : Z) (r : option Z) : Article :=
  {| id := IdNum n; title := Some "Weekly digest"; summary := Some "Links";
     source_type := Some "rss"; source_id := Some (IdStr "digest");
     source_name := Some "Digest"; published_at := Some "2024-03-01";
     processed_at := Some "2024-03-02"; rating := r; labels := None |}.

(** A view over [l], everything kept, in the given sort mode. *)
Definition view (sort : string) (l : list Article) : FeedSieve :=
  {| items := l; filteredItems := l; currentFilter := "all";
     currentSource := None; currentCategory := None; searchQuery := "";
     sortBy := sort; readItems := [] |}.

(** Rating mode, an article without a rating ahead of one rated 5. *)
Definition unratedFirst : FeedSieve :=
  view "rating" [rated 1 None; rated 2 (Some 5)].

(** Rating mode, a tie between the articles 1 and 3. *)
Definition tiedRatings : FeedSieve :=
  view "rating" [rated 1 (Some 5); rated 2 None; rated 3 (Some 5); rated 4 (Some 9)].

(** An article with both dates, and a view in a given filter mode. *)
Definition dated (n : Z) (published processed : option string) : Article :=
  {| id := IdNum n; title := Some "Release notes"; summary := Some "Changes";
     source_type := Some "rss"; source_id := Some (IdStr "notes");
     source_name := Some "Notes"; published_at := published;
     processed_at := processed; rating := Some 80; labels := None |}.

Definition mode (f : string) (l : list Article) : FeedSieve :=
  {| items := l; filteredItems := []; currentFilter := f;
     currentSource := None; currentCategory := None; searchQuery := "";
     sortBy := "date"; readItems := [] |}.

(** Published on 1 January and processed on the 10th; published on the 5th
    and processed on the 6th. *)
Definition slowlyProcessed : Article :=
  dated 1 (Some "2024-01-01") (Some "2024-01-10").

Definition quicklyProcessed : Article :=
  dated 2 (Some "2024-01-05") (Some "2024-01-06").

Definition byDate : FeedSieve :=
  view "date" [quicklyProcessed; slowlyProcessed].

(** An article of a given type and source. *)
Definition from (n : Z) (type : option string) (source : option ident) : Article :=
  {| id := IdNum n; title := Some "Field notes"; summary := Some "Observations";
     source_type := type; source_id := source; source_name := Some "Notes";
     published_at := Some "2024-03-02"; processed_at := None;
     rating := None; labels := None |}.

(** The source "42" of type rss is selected; an rss article and a youtube
    article both come from a source numbered 42, a third from source 7. *)
Definition source42 : FeedSieve :=
  {| items := [from 1 (Some "rss") (Some (IdNum 42));
               from 2 (Some "youtube") (Some (IdStr "42"));
               from 3 (Some "rss") (Some (IdNum 7))];
     filteredItems := []; currentFilter := "source";
     currentSource := Some {| ref_id := "42"; ref_type := "rss" |};
     currentCategory := None; searchQuery := "";
     sortBy := "date"; readItems := [] |}.

(** An article with labels. *)
Definition labelled (n : Z) (l : list string) : Article :=
  {| id := IdNum n; title := Some "Model weights"; summary := Some "A survey";
     source_type := Some "blog"; source_id := Some (IdStr "survey");
     source_name := Some "Surveys"; published_at := Some "2024-03-02";
     processed_at := None; rating := Some 91; labels := Some l |}.

(** A label listed twice. *)
Definition twiceAI : Article := labelled 1 ["AI"; "AI"; "Tech"].

(** An article that has a title and a source name, and no summary. *)
Definition unsummarised : Article :=
  {| id := IdNum 5; title := Some "Quarterly numbers"; summary := None;
     source_type := Some "rss"; source_id := Some (IdStr "ledger");
     source_name := Some "Ledger"; published_at := Some "2024-03-02";
     processed_at := None; rating := None; labels := None |}.

(** [localStorage] with a given value under the key of the read set. *)
Definition stored (payload : string) : gmap string string :=
  {[ "readItems" := payload ]}.

(** The text of the JSON string "7": a 7 between two double quotes. *)
Definition quoted7 : string :=
  String RefHost.dquote (String "7" (String RefHost.dquote EmptyString)).

(** The feed of the scenario of the specification: an rss article of today
    (2 March 2024) and a youtube article ten days old. *)
Definition scenario : list Article :=
  [from 1 (Some "rss") (Some (IdStr "a"));
   {| id := IdNum 2; title := Some "AI roundup"; summary := Some "about AI policy";
      source_type := Some "youtube"; source_id := Some (IdStr "b");
      source_name := Some "Channel"; published_at := Some "2024-02-21T08:00:00Z";
      processed_at := None; rating := Some 70; labels := None |}].

(** A clock that stands at noon UTC of 2 March 2024. *)
Definition noon (_ : nat) : Z := 1709380800000.

End Sample.

(** ** The rest of the class: indices, counters, navigation, display *)

(** *** The source index and the counters of the sidebar *)

Module Index.

(** [{ name, count }], an entry of [this.sources[type]]. *)
Record Entry : Type := { name : string; count : Z }.

Section WithHost.
Context `{Host}.

(** The body of [this.items.forEach] in [buildSourceIndex] (part_000 and the
    two later copies, the same text). [sourceId] is used as a property key,
    hence in its string form; the objects tested with [!] are truthy.

    [this.sources] and [this.sources[type]] are plain objects. Under a
    source id that names a property every object inherits, the read gives a
    function: no entry is created, and [count++] goes to that function.
    Under a type that names one, [this.sources[type]] is itself such a
    function (or [Object.prototype]): the code then writes into an object
    all objects share, or throws. The index is not followed there, and the
    result is [None]. *)
Definition indexItem (sources : gmap string (gmap string Entry)) (item : Article)
    : option (gmap string (gmap string Entry)) :=
  let type := template (JS.or (source_type item) (Some "rss")) in
  let sourceName := template (JS.or (source_name item) (Some "Unknown")) in
  let sourceId := String_ (source_id item) in
  if inherited type then None
  else
    let sources1 :=
      match sources !! type with
      | Some _ => sources
      | None => <[type := ∅]> sources
      end in
    let ofType := match sources1 !! type with Some o => o | None => ∅ end in
    let ofType1 :=
      match ofType !! sourceId with
      | Some _ => ofType
      | None =>
          if inherited sourceId then ofType
          else <[sourceId := {| name := sourceName; count := 0 |}]> ofType
      end in
    Some (<[type := alter (fun e => {| name := name e; count := count e + 1 |})
                      sourceId ofType1]> sources1).

(** [this.items.forEach], as far as the index is followed. *)
Definition step (acc : option (gmap string (gmap string Entry))) (item : Article)
    : option (gmap string (gmap string Entry)) :=
  match acc with
  | Some sources => indexItem sources item
  | None => None
  end.

Definition buildSourceIndex (its : list Article)
    : option (gmap string (gmap string Entry)) :=
  foldl step (Some ∅) its.

(** The entry the index holds for a type and a source id, as properties of
    its own: what [Object.keys] lists in [renderSourceLists]. *)
Definition entry (index : option (gmap string (gmap string Entry)))
    (type sourceId : string) : option Entry :=
  match index with
  | Some sources =>
      match sources !! type with
      | Some ofType => ofType !! sourceId
      | None => None
      end
  | None => None
  end.

(** The object literal [counts] of [updateCounts], for the type keys of the
    copy. *)
Definition initialCounts (n : Z) (types : list string) : gmap string Z :=
  foldr (fun type counts => <[type := 0]> counts)
        (<["week" := 0]> (<["today" := 0]> (<["all" := n]> ∅))) types.

(** The body of [this.items.forEach] in [updateCounts]; [isToday] and
    [isThisWeek] each read the clock. [counts[type] !== undefined] holds of
    the keys of the literal; it also holds of the names every object
    inherits, under which the code then stores a NaN that no counter of the
    page shows: the map keeps the counters, which are numbers. *)
Definition countItem (nowToday nowWeek : Z) (counts : gmap string Z) (item : Article)
    : gmap string Z :=
  let type := template (JS.or (source_type item) (Some "rss")) in
  let itemDate := JS.or (published_at item) (processed_at item) in
  let counts1 :=
    if bool_decide (is_Some (counts !! type))
    then alter (fun n => n + 1) type counts else counts in
  let counts2 :=
    if isToday nowToday itemDate
    then alter (fun n => n + 1) "today" counts1 else counts1 in
  if isThisWeek nowWeek itemDate
  then alter (fun n => n + 1) "week" counts2 else counts2.

(** [forEach] from item [i] on; item [i] reads the clock for the [2i]-th and
    the [2i+1]-th time. *)
Fixpoint countFrom (clock : nat -> Z) (i : nat) (counts : gmap string Z)
    (l : list Article) : gmap string Z :=
  match l with
  | [] => counts
  | item :: l' =>
      countFrom clock (S i)
        (countItem (clock (2 * i)%nat) (clock (2 * i + 1)%nat) counts item) l'
  end.

(** [updateCounts], up to the writing of the counters into the page. *)
Definition updateCounts (types : list string) (its : list Article) (clock : nat -> Z)
    : gmap string Z :=
  countFrom clock 0 (initialCounts (Z.of_nat (length its)) types) its.

End WithHost.

End Index.

(** *** The navigation: what each event does to the object *)

Module Nav.

(** A click on a timeline or type button, on a type heading, on a source, on
    a category; a keystroke in the search box; a change of the sort menu.
    The strings are those of the button's [dataset] or of the input. *)
Inductive Event : Type :=
| FilterClick (filter : string)
| ParentClick (filter : string)
| SourceClick (sourceId sourceType : string)
| CategoryClick (category : string)
| SearchInput (value : string)
| SortChange (value : string).

Definition set_sortBy (v : string) (this : FeedSieve) : FeedSieve :=
  {| items := items this; filteredItems := filteredItems this;
     currentFilter := currentFilter this; currentSource := currentSource this;
     currentCategory := currentCategory this; searchQuery := searchQuery this;
     sortBy := v; readItems := readItems this |}.

(** [handleParentClick] of the second document of src/site/js/app.js: it
    leaves [currentCategory] alone. *)
Definition Site_handleParentClick (filter : string) (this : FeedSieve) : FeedSieve :=
  set_currentSource None (set_currentFilter filter this).

(** [handleParentClick] of src/js/app.1766840000.js. *)
Definition App_handleParentClick (filter : string) (this : FeedSieve) : FeedSieve :=
  set_currentCategory None (set_currentSource None (set_currentFilter filter this)).

Section WithHost.
Context `{Host}.

(** The assignments of the handler of an event, before its [applyFilters]. *)
Definition App_select (e : Event) (this : FeedSieve) : FeedSieve :=
  match e with
  | FilterClick f => Common.handleFilterClick f this
  | ParentClick f => App_handleParentClick f this
  | SourceClick i t => Common.handleSourceClick i t this
  | CategoryClick c => Common.handleCategoryClick c this
  | SearchInput v => Common.handleSearchInput v this
  | SortChange v => set_sortBy v this
  end.

Definition Site_select (e : Event) (this : FeedSieve) : FeedSieve :=
  match e with
  | ParentClick f => Site_handleParentClick f this
  | _ => App_select e this
  end.

(** An event handled: the assignments, then [applyFilters]. *)
Definition App_handle (e : Event) (clock : nat -> Z) (this : FeedSieve) : FeedSieve :=
  App1766840000.applyFilters (App_select e this) clock.

Definition Site_handle (e : Event) (clock : nat -> Z) (this : FeedSieve) : FeedSieve :=
  SiteAppCat.applyFilters (Site_select e this) clock.

(** A session: the events in order, each with the clock of its time. *)
Definition App_run (es : list (Event * (nat -> Z))) (this : FeedSieve) : FeedSieve :=
  foldl (fun st ec => App_handle ec.1 ec.2 st) this es.

Definition Site_run (es : list (Event * (nat -> Z))) (this : FeedSieve) : FeedSieve :=
  foldl (fun st ec => Site_handle ec.1 ec.2 st) this es.

(** For comparison: the session of the second document of
    src/site/js/app.js with the [handleParentClick] of
    src/js/app.1766840000.js in place of its own. *)
Definition Site_run_clearing (es : list (Event * (nat -> Z))) (this : FeedSieve)
    : FeedSieve :=
  foldl (fun st ec => SiteAppCat.applyFilters (App_select ec.1 st) ec.2) this es.

End WithHost.

(** A click on a type heading whose [data-filter] is the word category. *)
Definition names_category (e : Event) : bool :=
  match e with
  | ParentClick f => String.eqb f "category"
  | _ => false
  end.

(** The selection is coherent: a source is held only in source mode, a
    category only in category mode. *)
Definition coherent (this : FeedSieve) : Prop :=
  (is_Some (currentSource this) -> currentFilter this = "source") /\
  (is_Some (currentCategory this) -> currentFilter this = "category").

(** The object with the selection its mode does not use put back to null. *)
Definition cleared (this : FeedSieve) : FeedSieve :=
  set_currentCategory
    (if String.eqb (currentFilter this) "category" then currentCategory this else None)
    (set_currentSource
       (if String.eqb (currentFilter this) "source" then currentSource this else None)
       this).

End Nav.

(** *** What the list shows of an article *)

Module Display.

Section WithHost.
Context `{Host}.

(** [truncate(str, maxLen)], called on a summary that is there:

      if (!str || str.length <= maxLen) return str;
      return str.substring(0, maxLen).trim() + '...';  *)
Definition truncate (str : string) (maxLen : nat) : string :=
  if negb (nonEmpty str) || (strLength str <=? maxLen)%nat then str
  else trim (substring0 maxLen str) +:+ "...".

End WithHost.

(** [n < k] on a number that may be NaN. *)
Definition numLt (n : option Z) (k : Z) : bool :=
  match n with Some v => v <? k | None => false end.

(** [Math.floor(n / k)] *)
Definition floorDiv (n : option Z) (k : Z) : option Z :=
  match n with Some v => Some (v / k) | None => None end.

(** [`${n}`] for a number that is not NaN where it is printed. *)
Definition numText (n : option Z) : string :=
  match n with Some v => pretty v | None => "NaN" end.

Section WithHost.
Context `{Host}.

(** [formatDate(dateStr)] of every copy but src/js/app.js; [now] is the
    reading of the clock and [toLocaleDateString] the host's short form of
    a date (its argument [None] for an Invalid Date). Nothing in the [try]
    block throws. *)
Definition formatDate (toLocaleDateString : option Z -> string) (now : Z)
    (dateStr : option string) : string :=
  if negb (truthy dateStr) then ""
  else
    let date := newDate (DStr (template dateStr)) in
    let diffMs := numSub (Some now) date in
    let diffHours := floorDiv diffMs (1000 * 60 * 60) in
    let diffDays := floorDiv diffMs (1000 * 60 * 60 * 24) in
    if numLt diffHours 1 then "Just now"
    else if numLt diffHours 24 then numText diffHours +:+ "h ago"
    else if numLt diffDays 7 then numText diffDays +:+ "d ago"
    else toLocaleDateString date.

End WithHost.

(** [parseInt(string)], without a radix: white space skipped, a sign, the
    prefix 0x or 0X for radix 16, then the longest run of digits of the
    radix; NaN when there is none. *)
Definition digitValue (radix : Z) (c : ascii) : option Z :=
  let n := Z.of_N (N_of_ascii c) in
  let v := if (48 <=? n) && (n <=? 57) then Some (n - 48)
           else if (97 <=? n) && (n <=? 122) then Some (n - 87)
           else if (65 <=? n) && (n <=? 90) then Some (n - 55)
           else None in
  match v with
  | Some d => if d <? radix then Some d else None
  | None => None
  end.

Fixpoint parseDigits (radix : Z) (acc : option Z) (s : string) : option Z :=
  match s with
  | String c s' =>
      match digitValue radix c with
      | Some d =>
          parseDigits radix
            (Some (match acc with Some a => a * radix + d | None => d end)) s'
      | None => acc
      end
  | EmptyString => acc
  end.

(** The steps after the removal of leading white space: the sign, the
    radix and the digits, to the integer they denote. *)
Definition parseSigned (S : string) : option Z :=
  let sign := match S with
              | String c _ => if Ascii.eqb c "-" then -1 else 1
              | EmptyString => 1
              end in
  let S1 := match S with
            | String c r => if Ascii.eqb c "-" || Ascii.eqb c "+" then r else S
            | EmptyString => S
            end in
  let RS := match S1 with
            | String c (String x r) =>
                if Ascii.eqb c "0" && (Ascii.eqb x "x" || Ascii.eqb x "X")
                then (16, r) else (10, S1)
            | _ => (10, S1)
            end in
  match parseDigits RS.1 None RS.2 with
  | Some mathInt => Some (sign * mathInt)
  | None => None
  end.

Section WithHost.
Context `{Host}.

Definition parseInt (string : string) : option Z :=
  match parseSigned (trimStart string) with
  | Some v => Some (toNumber v)
  | None => None
  end.

End WithHost.

(** The click on an article of the list in src/js/app.1766840000.js:
    [parseInt(article.dataset.itemId)], then
    [this.items.find(i => i.id === itemId)]. [itemId] is a number or NaN. *)
Definition strictEqualsNumber (i : ident) (itemId : option Z) : bool :=
  match i, itemId with
  | IdNum n, Some m => n =? m
  | _, _ => false
  end.

Definition findClicked (itemId : option Z) (its : list Article) : option Article :=
  List.find (fun i => strictEqualsNumber (id i) itemId) its.

Section WithHost.
Context `{Host}.

(** The handler: the article found is shown in the modal, and [showModal]
    marks it read by its own [id]. *)
Definition handleArticleClick (itemId : option Z) (w : FeedSieve * gmap string string)
    : FeedSieve * gmap string string :=
  match findClicked itemId (items w.1) with
  | Some item => App1766840000.markAsRead (id item) w
  | None => w
  end.

End WithHost.

End Display.

(** ** More sample data *)

Module Fixture.

(** An article of a source, with a name. *)
Definition post (n : Z) (type : option string) (source : option ident)
    (sourceName : option string) (published : option string) : Article :=
  {| id := IdNum n; title := Some "Post"; summary := Some "Text";
     source_type := type; source_id := source; source_name := sourceName;
     published_at := published; processed_at := None;
     rating := None; labels := None |}.

(** Two sources share the id 42: an rss one with two articles, the second
    under another name, and a youtube one. *)
Definition feed : list Article :=
  [post 1 (Some "rss") (Some (IdNum 42)) (Some "Alpha") (Some "2024-03-02T09:00:00Z");
   post 2 (Some "youtube") (Some (IdStr "42")) (Some "Beta") (Some "2024-03-01T09:00:00Z");
   post 3 None (Some (IdNum 42)) (Some "Alpha (old)") (Some "2024-02-01T09:00:00Z");
   post 4 (Some "blog") None None None].

(** The same instant at every reading of the clock: noon UTC, 2 March 2024. *)
Definition noon (_ : nat) : Z := 1709380800000.

(** A view of [l] in a mode, with a search query and a sort order. *)
Definition view (f q sort : string) (l : list Article) : FeedSieve :=
  {| items := l; filteredItems := []; currentFilter := f;
     currentSource := None; currentCategory := None; searchQuery := q;
     sortBy := sort; readItems := [] |}.

(** A session at noon: a category, a search, then a type heading. *)
Definition session : list (Nav.Event * (nat -> Z)) :=
  [(Nav.CategoryClick "AI", noon); (Nav.SearchInput "Post", noon);
   (Nav.ParentClick "rss", noon)].

End Fixture.

(** ** Notions the further properties are stated with *)

Module Notion.
Section WithHost.
Context `{Host}.

(** The instant an article is ranked by in date order, when its date parses
    (the epoch when it has no date). *)
Definition rank_instant (a : Article) : Z :=
  match Spec.rank_time a with Some t => t | None => 0 end.

(** The same articles, latest first, those of one instant as in the input. *)
Definition sorted_by_date (input output : list Article) : Prop :=
  Permutation output input /\
  StronglySorted (Spec.descending rank_instant) output /\
  Spec.keeps_ties rank_instant input output.

(** The type an article is filed under. *)
Definition type_of (a : Article) : string :=
  template (JS.or (source_type a) (Some "rss")).

(** The name an article gives its source. *)
Definition source_name_of (a : Article) : string :=
  template (JS.or (source_name a) (Some "Unknown")).

(** The articles of a source: of that type, and with that id in string form. *)
Definition of_source (type sourceId : string) (a : Article) : bool :=
  String.eqb (type_of a) type && String.eqb (String_ (source_id a)) sourceId.

(** The entry the articles of a feed make for a source: none under a source
    id that names a property every object inherits. *)
Definition source_entry (type sourceId : string) (its : list Article)
    : option Index.Entry :=
  if inherited sourceId then None
  else match List.filter (of_source type sourceId) its with
       | [] => None
       | a :: ms => Some {| Index.name := source_name_of a;
                            Index.count := Z.of_nat (length (a :: ms)) |}
       end.

End WithHost.

(** The icon of a category in src/js/app.1766840000.js. *)
Definition icon_of (label : string) : string :=
  match App1766840000.categoryIcons label with Some i => i | None => "🏷️" end.

(** What the category index of src/js/app.1766840000.js holds for a label
    that is listed [n] times over the feed: nothing under a name every
    object inherits. *)
Definition category_entry (label : string) (n : Z) : option CategoryEntry :=
  if inherited label || (n =? 0) then None
  else Some {| count := n; icon := icon_of label |}.

(** What the index of the second document of src/site/js/app.js holds for
    it, [Some None] being a NaN. Under a name every object inherits the
    first listing stores NaN and the next ones count from 1; under
    [__proto__] nothing is ever stored. *)
Definition category_count (label : string) (n : Z) : option (option Z) :=
  if n =? 0 then None
  else if inherited label then
    if String.eqb label "__proto__" then None
    else if n =? 1 then Some None
    else Some (Some (n - 1))
  else Some (Some n).

(** No element of a read set is the same value as an earlier one. *)
Definition distinct (s : list json) : Prop :=
  ForallOrdPairs (fun earlier later => sameValueZero later earlier = false) s.

End Notion.

(** ** The statistics of src/js/app.js *)

Module Stats.

(** The property key of [acc[item.source_type]]: the type, or the text
    undefined when the article has none. *)
Definition typeKey (item : Article) : string := template (source_type item).

(** [acc[item.source_type] = (acc[item.source_type] || 0) + 1]: the body of
    the [reduce] of [updateStats]. The counts are numbers, and 0 is falsy.
    Keys that an empty object inherits are outside the map. *)
Definition countType (acc : gmap string Z) (item : Article) : gmap string Z :=
  let old := match acc !! typeKey item with
             | Some v => if v =? 0 then 0 else v
             | None => 0
             end in
  <[typeKey item := old + 1]> acc.

Definition typeCounts (its : list Article) : gmap string Z :=
  foldl countType ∅ its.

(** [typeCounts.rss ? ... ${typeCounts.rss} ... : ''], for a type: the
    number printed, if one is. *)
Definition shown (counts : gmap string Z) (type : string) : option Z :=
  match counts !! type with
  | Some v => if v =? 0 then None else Some v
  | None => None
  end.

End Stats.

(** * Facts about the JavaScript primitives *)

Section StringFacts.

Lemma append_String (c : ascii) (p s : string) :
  String c p +:+ s = String c (p +:+ s).
Proof. reflexivity. Qed.

Lemma startsWith_spec (p s : string) :
  startsWith s p = true <-> exists suf, s = p +:+ suf.
Proof.
  revert s. induction p as [|c p IH]; intros s; simpl.
  - split; [intros _; exists s; reflexivity | reflexivity].
  - destruct s as [|d s]; simpl.
    + split; [discriminate | intros [suf Hs]; rewrite append_String in Hs; discriminate].
    + destruct (Ascii.eqb c d) eqn:Hcd.
      * apply Ascii.eqb_eq in Hcd. subst d. rewrite IH.
        split; intros [suf Hs]; exists suf.
        -- rewrite Hs. reflexivity.
        -- rewrite append_String in Hs. congruence.
      * apply Ascii.eqb_neq in Hcd.
        split; [discriminate | intros [suf Hs]; rewrite append_String in Hs; congruence].
Qed.

Lemma includes_spec (p s : string) :
  includes s p = true <-> Spec.substring p s.
Proof.
  unfold Spec.substring. split.
  - induction s as [|c s IH]; simpl; rewrite orb_true_iff.
    + intros [Hp | Hf]; [|discriminate].
      apply startsWith_spec in Hp. destruct Hp as [suf Hs].
      exists EmptyString, suf. exact Hs.
    + intros [Hp | Hi].
      * apply startsWith_spec in Hp. destruct Hp as [suf Hs].
        exists EmptyString, suf. exact Hs.
      * destruct (IH Hi) as (pre & suf & Hs).
        exists (String c pre), suf. rewrite append_String, Hs. reflexivity.
  - intros (pre & suf & Hs). revert s Hs.
    induction pre as [|c pre IH]; intros s Hs.
    + assert (Hp : startsWith s p = true) by (apply startsWith_spec; exists suf; exact Hs).
      destruct s; simpl in *; rewrite Hp; reflexivity.
    + rewrite append_String in Hs. subst s. simpl.
      rewrite (IH _ eq_refl). apply orb_true_r.
Qed.

End StringFacts.

(** * Facts about [filter] with a clock *)

Section FilterFacts.

Lemma filterFrom_all (cb : Z -> Article -> bool) (clock : nat -> Z) (l : list Article) :
  (forall now a, cb now a = true) ->
  forall i, filterFrom cb clock i l = l.
Proof.
  intros Hcb. induction l as [|a l IH]; intros i; simpl.
  - reflexivity.
  - rewrite Hcb, IH. reflexivity.
Qed.

(** With a callback that does not look at the clock, this is [List.filter]. *)
Lemma filterFrom_timeless (cb : Z -> Article -> bool) (f : Article -> bool)
    (clock : nat -> Z) (l : list Article) :
  (forall now a, cb now a = f a) ->
  forall i, filterFrom cb clock i l = List.filter f l.
Proof.
  intros Hcb. induction l as [|a l IH]; intros i; simpl.
  - reflexivity.
  - rewrite Hcb, IH. reflexivity.
Qed.

(** What is kept was there, at some index, and got past the callback at the
    time that index was examined. *)
Lemma filterFrom_In (cb : Z -> Article -> bool) (clock : nat -> Z) (l : list Article) :
  forall i a,
    In a (filterFrom cb clock i l) <->
    exists k, nth_error l k = Some a /\ cb (clock (i + k)%nat) a = true.
Proof.
  induction l as [|b l IH]; intros i a; simpl.
  - split; [tauto | intros (k & Hk & _); destruct k; discriminate].
  - destruct (cb (clock i) b) eqn:Hb; simpl; rewrite IH.
    + split.
      * intros [-> | (k & Hk & Hc)].
        -- exists 0%nat. rewrite Nat.add_0_r. auto.
        -- exists (S k). rewrite Nat.add_succ_r. auto.
      * intros (k & Hk & Hc). destruct k as [|k]; simpl in Hk.
        -- left. congruence.
        -- right. exists k. rewrite Nat.add_succ_r in Hc. auto.
    + split.
      * intros (k & Hk & Hc). exists (S k). rewrite Nat.add_succ_r. auto.
      * intros (k & Hk & Hc). destruct k as [|k]; simpl in Hk.
        -- rewrite Nat.add_0_r in Hc. congruence.
        -- exists k. rewrite Nat.add_succ_r in Hc. auto.
Qed.

End FilterFacts.

(** * Facts about [Array.prototype.sort] *)

Section SortFacts.
Context `{Host} {A : Type} (comparefn : A -> A -> option Z) (key : A -> Z).

(** A comparator that returns the difference of two keys is consistent. *)
Lemma by_key_consistent (l : list A) :
  by_key comparefn key l -> consistent comparefn l = true.
Proof.
  intros Hk. unfold consistent.
  apply forallb_forall. intros a Ha.
  apply andb_true_iff. split.
  - apply Z.eqb_eq. rewrite (Hk a a Ha Ha). lia.
  - apply forallb_forall. intros b Hb.
    apply andb_true_iff. split.
    + rewrite (Hk a b Ha Hb), (Hk b a Hb Ha).
      destruct (Z.eqb_spec (key b - key a) 0) as [E|E]; [|reflexivity].
      cbn [implb]. apply Z.eqb_eq. lia.
    + apply forallb_forall. intros c Hc.
      rewrite (Hk a b Ha Hb), (Hk b c Hb Hc), (Hk a c Ha Hc).
      rewrite !andb_true_iff. repeat split.
      * destruct (Z.eqb_spec (key b - key a) 0) as [E1|E1]; [|reflexivity].
        destruct (Z.eqb_spec (key c - key b) 0) as [E2|E2]; [|reflexivity].
        cbn [andb implb]. apply Z.eqb_eq. lia.
      * destruct (Z.ltb_spec (key b - key a) 0) as [E1|E1]; [|reflexivity].
        destruct (Z.ltb_spec (key c - key b) 0) as [E2|E2]; [|reflexivity].
        cbn [andb implb]. apply Z.ltb_lt. lia.
      * rewrite !Z.gtb_ltb.
        destruct (Z.ltb_spec 0 (key b - key a)) as [E1|E1]; [|reflexivity].
        destruct (Z.ltb_spec 0 (key c - key b)) as [E2|E2]; [|reflexivity].
        cbn [andb implb]. apply Z.ltb_lt. lia.
Qed.

(** Under such a comparator the sort is the stable sort. *)
Lemma Array_sort_by_key (l : list A) :
  by_key comparefn key l -> Array_sort comparefn l = stableSort comparefn l.
Proof. intros Hk. unfold Array_sort. rewrite (by_key_consistent l Hk). reflexivity. Qed.

Lemma Array_sort_Permutation (l : list A) :
  Permutation (Array_sort comparefn l) l.
Proof.
  unfold Array_sort. destruct (consistent comparefn l).
  - apply stableSort_Permutation.
  - apply Array_sort_unspecified_Permutation.
Qed.

Lemma Array_sort_In (l : list A) (x : A) :
  In x (Array_sort comparefn l) <-> In x l.
Proof.
  split; apply Permutation_in;
    [apply Array_sort_Permutation | apply Permutation_sym, Array_sort_Permutation].
Qed.

Lemma stableSort_In (l : list A) (x : A) :
  In x (stableSort comparefn l) <-> In x l.
Proof.
  split; apply Permutation_in;
    [apply stableSort_Permutation | apply Permutation_sym, stableSort_Permutation].
Qed.

Lemma sortInsert_sorted (x : A) (l : list A) :
  (forall y, In y l -> sortCompare comparefn x y = key y - key x) ->
  StronglySorted (Spec.descending key) l ->
  StronglySorted (Spec.descending key) (sortInsert comparefn x l).
Proof.
  intros Hx Hl. induction Hl as [|y l Hl IH Hy]; simpl.
  - constructor; [constructor | constructor].
  - pose proof (Hx y (or_introl eq_refl)) as Hxy.
    destruct (sortCompare comparefn x y <=? 0) eqn:Hle.
    + apply Z.leb_le in Hle.
      constructor; [constructor; assumption |].
      constructor.
      * unfold Spec.descending. lia.
      * eapply List.Forall_impl; [|exact Hy].
        unfold Spec.descending. intros z Hz. lia.
    + apply Z.leb_gt in Hle.
      constructor.
      * apply IH. intros z Hz. apply Hx. right. exact Hz.
      * apply List.Forall_forall. intros z Hz.
        apply (Permutation_in _ (sortInsert_Permutation comparefn x l)) in Hz.
        destruct Hz as [<- | Hz].
        -- unfold Spec.descending. lia.
        -- rewrite List.Forall_forall in Hy. apply Hy, Hz.
Qed.

Lemma sortInsert_ties (x : A) (l : list A) (r : Z) :
  (forall y, In y l -> sortCompare comparefn x y = key y - key x) ->
  List.filter (fun a => key a =? r) (sortInsert comparefn x l)
  = List.filter (fun a => key a =? r) (x :: l).
Proof.
  induction l as [|y l IH]; intros Hx.
  - reflexivity.
  - pose proof (Hx y (or_introl eq_refl)) as Hxy.
    cbn [sortInsert].
    destruct (sortCompare comparefn x y <=? 0) eqn:Hle; [reflexivity|].
    apply Z.leb_gt in Hle.
    cbn [List.filter]. rewrite IH by (intros z Hz; apply Hx; right; exact Hz).
    cbn [List.filter].
    destruct (key x =? r) eqn:Hkx; destruct (key y =? r) eqn:Hky; try reflexivity.
    apply Z.eqb_eq in Hkx, Hky. lia.
Qed.

Lemma by_key_tail (x : A) (l : list A) :
  by_key comparefn key (x :: l) -> by_key comparefn key l.
Proof. intros Hk y z Hy Hz. apply Hk; right; assumption. Qed.

Lemma stableSort_sorted (l : list A) :
  by_key comparefn key l -> StronglySorted (Spec.descending key) (stableSort comparefn l).
Proof.
  induction l as [|x l IH]; intros Hk; simpl.
  - constructor.
  - apply sortInsert_sorted.
    + intros y Hy. apply Hk; [left; reflexivity | right; apply stableSort_In, Hy].
    + apply IH. exact (by_key_tail x l Hk).
Qed.

Lemma stableSort_ties (l : list A) :
  by_key comparefn key l -> Spec.keeps_ties key l (stableSort comparefn l).
Proof.
  intros Hk r. induction l as [|x l IH]; simpl.
  - reflexivity.
  - rewrite sortInsert_ties.
    + cbn [List.filter]. rewrite IH by exact (by_key_tail x l Hk). reflexivity.
    + intros y Hy. apply Hk; [left; reflexivity | right; apply stableSort_In, Hy].
Qed.

Lemma Array_sort_sorted (l : list A) :
  by_key comparefn key l -> StronglySorted (Spec.descending key) (Array_sort comparefn l).
Proof. intros Hk. rewrite (Array_sort_by_key l Hk). apply stableSort_sorted, Hk. Qed.

Lemma Array_sort_ties (l : list A) :
  by_key comparefn key l -> Spec.keeps_ties key l (Array_sort comparefn l).
Proof. intros Hk. rewrite (Array_sort_by_key l Hk). apply stableSort_ties, Hk. Qed.

(** Descending order and the order of ties leave one list only: a stable
    sort returns it whatever its algorithm. *)
Lemma stable_descending_unique (l1 l2 : list A) :
  StronglySorted (Spec.descending key) l1 ->
  StronglySorted (Spec.descending key) l2 ->
  (forall r, List.filter (fun a => key a =? r) l1
             = List.filter (fun a => key a =? r) l2) ->
  l1 = l2.
Proof.
  revert l2. induction l1 as [|x l1 IH]; intros l2 H1 H2 Hf.
  - destruct l2 as [|y l2]; [reflexivity|].
    specialize (Hf (key y)). cbn [List.filter] in Hf.
    rewrite Z.eqb_refl in Hf. discriminate.
  - destruct l2 as [|y l2].
    + specialize (Hf (key x)). cbn [List.filter] in Hf.
      rewrite Z.eqb_refl in Hf. discriminate.
    + inversion H1 as [|? ? H1' Hx]; inversion H2 as [|? ? H2' Hy]; subst.
      rewrite List.Forall_forall in Hx, Hy.
      assert (Hxy : key x <= key y).
      { assert (Hin : In x (List.filter (fun a => key a =? key x) (y :: l2))).
        { rewrite <- Hf. cbn [List.filter]. rewrite Z.eqb_refl. left. reflexivity. }
        apply filter_In in Hin. destruct Hin as [[<- | Hin] _]; [lia|].
        apply Hy, Hin. }
      assert (Hyx : key y <= key x).
      { assert (Hin : In y (List.filter (fun a => key a =? key y) (x :: l1))).
        { rewrite Hf. cbn [List.filter]. rewrite Z.eqb_refl. left. reflexivity. }
        apply filter_In in Hin. destruct Hin as [[<- | Hin] _]; [lia|].
        apply Hx, Hin. }
      assert (Hk : key y = key x) by lia.
      assert (Exy : x = y).
      { specialize (Hf (key x)). cbn [List.filter] in Hf.
        rewrite Hk, Z.eqb_refl in Hf. congruence. }
      subst y. f_equal. apply IH; [assumption | assumption |].
      intros r. specialize (Hf r). cbn [List.filter] in Hf.
      destruct (key x =? r); congruence.
Qed.

End SortFacts.

(** * Sorting by rating *)

Section RatingSort.
Context `{Host}.

Lemma ratingOr0_spec (a : Article) : ratingOr0 (rating a) = Spec.rating_or_0 a.
Proof.
  unfold ratingOr0, Spec.rating_or_0. destruct (rating a) as [n|]; [|reflexivity].
  destruct (n =? 0) eqn:Hn; [|reflexivity].
  apply Z.eqb_eq in Hn. congruence.
Qed.

Lemma Common_compareItems_rating (this : FeedSieve) (l : list Article) :
  sortBy this = "rating" ->
  by_key (Common.compareItems this) Spec.rating_or_0 l.
Proof.
  intros Hs x y _ _. unfold sortCompare, Common.compareItems.
  rewrite Hs. cbn [String.eqb]. rewrite !ratingOr0_spec.
  reflexivity.
Qed.

Lemma AppJs_compareItems_rating (this : FeedSieve) (l : list Article) :
  sortBy this = "rating" ->
  Forall (fun a => is_Some (rating a)) l ->
  by_key (AppJs.compareItems this) Spec.rating_or_0 l.
Proof.
  intros Hs Hl x y Hx Hy. rewrite List.Forall_forall in Hl.
  destruct (Hl x Hx) as [rx Hrx]. destruct (Hl y Hy) as [ry Hry].
  unfold sortCompare, AppJs.compareItems, Spec.rating_or_0.
  rewrite Hs, Hrx, Hry. reflexivity.
Qed.

Lemma Array_sort_sorted_by_rating (cmp : Article -> Article -> option Z) (l : list Article) :
  by_key cmp Spec.rating_or_0 l ->
  sorted_by_rating l (Array_sort cmp l).
Proof.
  intros Hk. repeat split.
  - apply Array_sort_Permutation.
  - apply Array_sort_sorted, Hk.
  - apply Array_sort_ties, Hk.
Qed.

(** The rating order of a list is one list. *)
Lemma sorted_by_rating_unique (input out1 out2 : list Article) :
  sorted_by_rating input out1 -> sorted_by_rating input out2 -> out1 = out2.
Proof.
  intros (_ & Hs1 & Ht1) (_ & Hs2 & Ht2).
  apply (stable_descending_unique Spec.rating_or_0); [assumption | assumption |].
  intros r. rewrite (Ht1 r), (Ht2 r). reflexivity.
Qed.

End RatingSort.

(** C4, as amended. In rating mode [sortItems] returns the filtered articles
    in descending order of rating, an absent rating counting as 0, and
    articles of equal rating in the order they had (the load order, which the
    filter keeps): in every copy but src/js/app.js for every list, in
    src/js/app.js for the lists in which every article has a rating. *)
Theorem rating_sort_stable_descending `{Host} (this : FeedSieve) :
  sortBy this = "rating" ->
  sorted_by_rating (filteredItems this) (filteredItems (SiteApp.sortItems this)) /\
  sorted_by_rating (filteredItems this) (filteredItems (Part000.sortItems this)) /\
  sorted_by_rating (filteredItems this) (filteredItems (SiteAppCat.sortItems this)) /\
  sorted_by_rating (filteredItems this) (filteredItems (App1766840000.sortItems this)) /\
  (Forall (fun a => is_Some (rating a)) (filteredItems this) ->
   sorted_by_rating (filteredItems this) (filteredItems (AppJs.sortItems this))).
Proof.
  intros Hs.
  assert (Hc : sorted_by_rating (filteredItems this)
                 (filteredItems (Common.sortItems this))).
  { apply Array_sort_sorted_by_rating, Common_compareItems_rating, Hs. }
  split; [exact Hc|]. split; [exact Hc|]. split; [exact Hc|]. split; [exact Hc|].
  intros Hall.
  apply Array_sort_sorted_by_rating, AppJs_compareItems_rating; assumption.
Qed.

(** The theorem at a list with a tie and an absent rating: 9, 5, 5, none, the
    two fives as loaded. *)
Lemma rating_sort_stable_descending_witness :
  filteredItems (@App1766840000.sortItems RefHost.host Sample.tiedRatings)
  = [Sample.rated 4 (Some 9); Sample.rated 1 (Some 5); Sample.rated 3 (Some 5);
     Sample.rated 2 None]
  /\ sorted_by_rating (filteredItems Sample.tiedRatings)
       (filteredItems (@App1766840000.sortItems RefHost.host Sample.tiedRatings)).
Proof.
  split.
  - vm_compute. reflexivity.
  - apply (@rating_sort_stable_descending RefHost.host Sample.tiedRatings).
    reflexivity.
Defined.

(** C4 fails in src/js/app.js: its comparator is [b.rating - a.rating], NaN
    when a rating is absent, which the sort reads as a tie. The article
    without a rating stays ahead of the one rated 5. *)
Lemma rating_sort_absent_rating_unsorted :
  sortBy Sample.unratedFirst = "rating" /\
  filteredItems (@AppJs.sortItems RefHost.host Sample.unratedFirst)
  = [Sample.rated 1 None; Sample.rated 2 (Some 5)] /\
  ~ sorted_by_rating (filteredItems Sample.unratedFirst)
      (filteredItems (@AppJs.sortItems RefHost.host Sample.unratedFirst)).
Proof.
  split; [reflexivity|]. split; [vm_compute; reflexivity|].
  intros (_ & Hsorted & _).
  change (filteredItems (@AppJs.sortItems RefHost.host Sample.unratedFirst))
    with [Sample.rated 1 None; Sample.rated 2 (Some 5)] in Hsorted.
  inversion Hsorted as [|x l _ Hall]; subst.
  inversion Hall as [|y l' Hd _]; subst.
  unfold Spec.descending, Spec.rating_or_0 in Hd. simpl in Hd. lia.
Qed.

(** On these two articles the comparator of src/js/app.js is consistent, every
    comparison a tie: the order they are left in is that of any engine. *)
Lemma rating_sort_absent_rating_on_any_host `{Host} :
  consistent (AppJs.compareItems Sample.unratedFirst)
    (filteredItems Sample.unratedFirst) = true /\
  filteredItems (AppJs.sortItems Sample.unratedFirst)
  = [Sample.rated 1 None; Sample.rated 2 (Some 5)].
Proof. split; reflexivity. Qed.

(** * The filter with nothing selected *)

Section FilterAll.
Context `{Host}.

Lemma List_filter_all {A : Type} (f : A -> bool) (l : list A) :
  (forall a, f a = true) -> List.filter f l = l.
Proof.
  intros Hf. induction l as [|a l IH]; simpl; [reflexivity|].
  rewrite Hf, IH. reflexivity.
Qed.

Lemma searchStage_empty (this : FeedSieve) (a : Article) :
  searchQuery this = "" -> Common.searchStage this a = true.
Proof. intros Hq. unfold Common.searchStage. rewrite Hq. reflexivity. Qed.

Lemma temporalStage_other (this : FeedSieve) (now : Z) (a : Article) :
  currentFilter this <> "today" -> currentFilter this <> "week" ->
  Common.temporalStage this now a = true.
Proof.
  intros Ht Hw. unfold Common.temporalStage.
  destruct (String.eqb_spec (currentFilter this) "today") as [E|_]; [contradiction|].
  destruct (String.eqb_spec (currentFilter this) "week") as [E|_]; [contradiction|].
  reflexivity.
Qed.

Lemma typeStage_other (types : list string) (this : FeedSieve) (a : Article) :
  ~ In (currentFilter this) types -> Common.typeStage types this a = true.
Proof.
  intros Hn. unfold Common.typeStage, Array_includes.
  destruct (existsb (String.eqb (currentFilter this)) types) eqn:He; [|reflexivity].
  apply existsb_exists in He. destruct He as (t & Ht & Heq).
  apply String.eqb_eq in Heq. subst t. contradiction.
Qed.

Lemma sourceStage_other (this : FeedSieve) (a : Article) :
  currentFilter this <> "source" -> Common.sourceStage this a = true.
Proof.
  intros Hn. unfold Common.sourceStage.
  destruct (String.eqb_spec (currentFilter this) "source"); [contradiction | reflexivity].
Qed.

Lemma categoryStage_other (this : FeedSieve) (a : Article) :
  currentFilter this <> "category" -> Common.categoryStage this a = true.
Proof.
  intros Hn. unfold Common.categoryStage.
  destruct (String.eqb_spec (currentFilter this) "category"); [contradiction | reflexivity].
Qed.

End FilterAll.

(** C6. With the filter mode [all] and an empty search query, the filter of
    every copy returns the loaded articles, all of them and in load order;
    this is the list [sortItems] is then given. *)
Theorem filter_all_keeps_everything `{Host} (this : FeedSieve) (clock : nat -> Z) :
  currentFilter this = "all" ->
  searchQuery this = "" ->
  App1766840000.filtered this clock = items this /\
  Part000.filtered this clock = items this /\
  SiteAppCat.filtered this clock = items this /\
  SiteApp.filtered this = items this /\
  AppJs.filtered this = items this.
Proof.
  intros Hf Hq.
  assert (Hsearch : forall a, Common.searchStage this a = true)
    by (intros a; apply searchStage_empty, Hq).
  assert (Htemp : forall now a, Common.temporalStage this now a = true)
    by (intros; apply temporalStage_other; rewrite Hf; discriminate).
  assert (Htype : forall types a, ~ In "all" types -> Common.typeStage types this a = true)
    by (intros; apply typeStage_other; rewrite Hf; assumption).
  assert (Hsrc : forall a, Common.sourceStage this a = true)
    by (intros; apply sourceStage_other; rewrite Hf; discriminate).
  assert (Hcat : forall a, Common.categoryStage this a = true)
    by (intros; apply categoryStage_other; rewrite Hf; discriminate).
  repeat split.
  - apply filterFrom_all. intros now a. unfold App1766840000.filterCallback.
    rewrite Htemp, Htype, Hsrc, Hcat, Hsearch; [reflexivity|].
    unfold App1766840000.knownTypes. simpl. intuition discriminate.
  - apply filterFrom_all. intros now a. unfold Part000.filterCallback.
    rewrite Htemp, Htype, Hsrc, Hsearch; [reflexivity|].
    unfold Part000.knownTypes. simpl. intuition discriminate.
  - apply filterFrom_all. intros now a. unfold SiteAppCat.filterCallback.
    rewrite Htemp, Htype, Hsrc, Hcat, Hsearch; [reflexivity|].
    unfold SiteAppCat.knownTypes. simpl. intuition discriminate.
  - apply List_filter_all. intros a. unfold SiteApp.filterCallback, SiteApp.typeStage.
    rewrite Hf, Hsearch. reflexivity.
  - apply List_filter_all. intros a.
    unfold AppJs.filterCallback, AppJs.typeStage, AppJs.searchStage.
    rewrite Hf, Hq. reflexivity.
Qed.

(** The theorem at a feed of two articles, one of them without any field. *)
Lemma filter_all_keeps_everything_witness :
  @App1766840000.filtered RefHost.host
    (Sample.mode "all" [Sample.bare 1; Sample.slowlyProcessed]) Sample.noon
  = [Sample.bare 1; Sample.slowlyProcessed].
Proof.
  apply (@filter_all_keeps_everything RefHost.host
           (Sample.mode "all" [Sample.bare 1; Sample.slowlyProcessed]) Sample.noon);
    reflexivity.
Defined.

(** * The effective date *)

Section EffectiveDate.
Context `{Host}.

Lemma truthy_present (v : option string) :
  truthy v = true -> Spec.present v = v.
Proof.
  unfold truthy, Spec.present. destruct v as [s|]; [|discriminate].
  intros ->. reflexivity.
Qed.

Lemma falsy_present (v : option string) :
  truthy v = false -> Spec.present v = None.
Proof.
  unfold truthy, Spec.present. destruct v as [s|]; [|reflexivity].
  intros ->. reflexivity.
Qed.

(** [item.published_at || item.processed_at], read as a date that may be
    missing, is the effective date. *)
Lemma itemDate_effective (a : Article) :
  Spec.present (Common.itemDate a) = Spec.effective_date a.
Proof.
  unfold Common.itemDate, JS.or, Spec.effective_date.
  destruct (truthy (published_at a)) eqn:Hp.
  - rewrite (truthy_present _ Hp).
    destruct (published_at a); [reflexivity | discriminate].
  - rewrite (falsy_present _ Hp). reflexivity.
Qed.

Lemma isToday_present (now : Z) (v : option string) :
  isToday now v = isToday now (Spec.present v).
Proof.
  unfold isToday, Spec.present. destruct v as [s|]; [|reflexivity].
  destruct (nonEmpty s) eqn:Hs; simpl; [rewrite Hs|]; reflexivity.
Qed.

Lemma isThisWeek_present (now : Z) (v : option string) :
  isThisWeek now v = isThisWeek now (Spec.present v).
Proof.
  unfold isThisWeek, Spec.present. destruct v as [s|]; [|reflexivity].
  destruct (nonEmpty s) eqn:Hs; simpl; [rewrite Hs|]; reflexivity.
Qed.

Lemma isToday_spec (now : Z) (v : option string) :
  isToday now v = true <->
  exists s t, Spec.present v = Some s /\ Date_parse s = Some t /\ localDay t = localDay now.
Proof.
  unfold isToday, Spec.present. destruct v as [s|].
  - destruct (nonEmpty s) eqn:Hs; simpl.
    + destruct (Date_parse s) as [t|] eqn:Hd; simpl.
      * rewrite Z.eqb_eq. split.
        -- intros E. exists s, t. auto.
        -- intros (s' & t' & [= <-] & Ht & E). congruence.
      * split; [discriminate | intros (s' & t' & [= <-] & Ht & _); congruence].
    + split; [discriminate | intros (s' & t' & Hn & _); discriminate].
  - split; [discriminate | intros (s' & t' & Hn & _); discriminate].
Qed.

Lemma isThisWeek_spec (now : Z) (v : option string) :
  isThisWeek now v = true <->
  exists s t, Spec.present v = Some s /\ Date_parse s = Some t
              /\ now - 7 * 24 * 60 * 60 * 1000 <= t.
Proof.
  unfold isThisWeek, Spec.present. destruct v as [s|].
  - destruct (nonEmpty s) eqn:Hs; simpl.
    + destruct (Date_parse s) as [t|] eqn:Hd; simpl.
      * rewrite Z.leb_le. split.
        -- intros E. exists s, t. auto.
        -- intros (s' & t' & [= <-] & Ht & E). congruence.
      * split; [discriminate | intros (s' & t' & [= <-] & Ht & _); congruence].
    + split; [discriminate | intros (s' & t' & Hn & _); discriminate].
  - split; [discriminate | intros (s' & t' & Hn & _); discriminate].
Qed.

Lemma effective_time_Some (a : Article) (t : Z) :
  Spec.effective_time a = Some t <->
  exists s, Spec.effective_date a = Some s /\ Date_parse s = Some t.
Proof.
  unfold Spec.effective_time. destruct (Spec.effective_date a) as [s|].
  - split; [intros E; exists s; auto | intros (s' & [= <-] & E); exact E].
  - split; [discriminate | intros (s' & E & _); discriminate].
Qed.

Lemma today_stage (this : FeedSieve) (now : Z) (a : Article) :
  currentFilter this = "today" ->
  (Common.temporalStage this now a = true <->
   exists t, Spec.effective_time a = Some t /\ localDay t = localDay now).
Proof.
  intros Hf. unfold Common.temporalStage. rewrite Hf. cbn [String.eqb Ascii.eqb Bool.eqb].
  rewrite isToday_spec, itemDate_effective. split.
  - intros (s & t & Hs & Ht & E). exists t. split; [|exact E].
    apply effective_time_Some. exists s. auto.
  - intros (t & Ht & E). apply effective_time_Some in Ht.
    destruct Ht as (s & Hs & Ht). exists s, t. auto.
Qed.

Lemma week_stage (this : FeedSieve) (now : Z) (a : Article) :
  currentFilter this = "week" ->
  (Common.temporalStage this now a = true <->
   exists t, Spec.effective_time a = Some t /\ now - 7 * 24 * 60 * 60 * 1000 <= t).
Proof.
  intros Hf. unfold Common.temporalStage. rewrite Hf. cbn [String.eqb Ascii.eqb Bool.eqb].
  rewrite isThisWeek_spec, itemDate_effective. split.
  - intros (s & t & Hs & Ht & E). exists t. split; [|exact E].
    apply effective_time_Some. exists s. auto.
  - intros (t & Ht & E). apply effective_time_Some in Ht.
    destruct Ht as (s & Hs & Ht). exists s, t. auto.
Qed.

End EffectiveDate.

(** C5. The temporal stage of the filter, in the three copies that have one.
    Under [today] an article gets past it exactly when its effective date
    parses to an instant on the local calendar day of now; under [week],
    exactly when it parses to an instant no earlier than now minus 7 x 24
    hours. An article whose effective date is absent or does not parse gets
    past neither, and an article the stage stops is not in the result. *)
Theorem temporal_stage_by_effective_date `{Host}
    (this : FeedSieve) (now : Z) (a : Article) :
  (Common.temporalStage (set_currentFilter "today" this) now a = true <->
   exists t, Spec.effective_time a = Some t /\ localDay t = localDay now) /\
  (Common.temporalStage (set_currentFilter "week" this) now a = true <->
   exists t, Spec.effective_time a = Some t /\ now - 7 * 24 * 60 * 60 * 1000 <= t) /\
  (Spec.effective_time a = None ->
   Common.temporalStage (set_currentFilter "today" this) now a = false /\
   Common.temporalStage (set_currentFilter "week" this) now a = false) /\
  (Common.temporalStage this now a = false ->
   Part000.filterCallback this now a = false /\
   SiteAppCat.filterCallback this now a = false /\
   App1766840000.filterCallback this now a = false).
Proof.
  pose proof (today_stage (set_currentFilter "today" this) now a eq_refl) as Ht.
  pose proof (week_stage (set_currentFilter "week" this) now a eq_refl) as Hw.
  split; [exact Ht|]. split; [exact Hw|]. split.
  - intros Hn. split; apply not_true_is_false; intros E.
    + apply Ht in E. destruct E as (t & E & _). congruence.
    + apply Hw in E. destruct E as (t & E & _). congruence.
  - intros Hs.
    unfold Part000.filterCallback, SiteAppCat.filterCallback,
      App1766840000.filterCallback.
    rewrite Hs. auto.
Qed.

(** An article in the result under [today] was loaded, and its effective
    date fell on the day of the clock when the filter came to it. *)
Lemma today_result_on_the_day `{Host} (this : FeedSieve) (clock : nat -> Z)
    (a : Article) :
  currentFilter this = "today" ->
  In a (App1766840000.filtered this clock) ->
  exists k t, nth_error (items this) k = Some a
              /\ Spec.effective_time a = Some t
              /\ localDay t = localDay (clock k).
Proof.
  intros Hf Hin. unfold App1766840000.filtered in Hin.
  apply filterFrom_In in Hin. destruct Hin as (k & Hk & Hcb).
  unfold App1766840000.filterCallback in Hcb.
  repeat (apply andb_true_iff in Hcb; destruct Hcb as [Hcb _]).
  apply (today_stage this (clock (0 + k)%nat) a Hf) in Hcb.
  destruct Hcb as (t & Ht & Hd). exists k, t. auto.
Qed.

(** Calendar days, not a rolling window: two seconds before now but on the
    day before is not today; almost a day before now but on the same day is. *)
Lemma today_is_a_calendar_day :
  @isToday RefHost.host 1709337601000 (Some "2024-03-01T23:59:59Z") = false /\
  @isToday RefHost.host 1709423999000 (Some "2024-03-02T00:00:00Z") = true /\
  @isThisWeek RefHost.host 1709337601000 (Some "2024-03-01T23:59:59Z") = true /\
  @isThisWeek RefHost.host 1709337601000 (Some "2024-02-23T00:00:00Z") = false /\
  @isToday RefHost.host 1709337601000 (Some "yesterday") = false /\
  @isThisWeek RefHost.host 1709337601000 (Some "yesterday") = false.
Proof. vm_compute. repeat split; reflexivity. Qed.

Section DateOrder.
Context `{Host}.

Lemma sortDateArg_rank_time (a : Article) :
  newDate (Common.sortDateArg a) = Spec.rank_time a.
Proof.
  unfold Common.sortDateArg, Spec.rank_time, Spec.effective_date.
  destruct (truthy (published_at a)) eqn:Hp.
  - rewrite (truthy_present _ Hp).
    destruct (published_at a); [reflexivity | discriminate].
  - rewrite (falsy_present _ Hp).
    destruct (truthy (processed_at a)) eqn:Hq.
    + rewrite (truthy_present _ Hq).
      destruct (processed_at a); [reflexivity | discriminate].
    + rewrite (falsy_present _ Hq). reflexivity.
Qed.

Lemma AppJs_sortDateArg_time (a : Article) :
  newDate (AppJs.sortDateArg a) = Spec.processed_first_time a.
Proof.
  unfold AppJs.sortDateArg, Spec.processed_first_time.
  destruct (truthy (processed_at a)) eqn:Hq.
  - rewrite (truthy_present _ Hq).
    destruct (processed_at a); [reflexivity | discriminate].
  - rewrite (falsy_present _ Hq).
    destruct (published_at a); reflexivity.
Qed.

End DateOrder.

(** C1, as amended. A date field counts as present when it holds a non-empty
    string. The today and week filters (the three copies that have them)
    test the effective date: [published_at] if present, else [processed_at] if
    present, else none. In date mode the comparator of every copy but
    src/js/app.js ranks an article by the instant its effective date denotes,
    and by the epoch when it has none; the comparator of src/js/app.js ranks
    it by [processed_at] if present and by [published_at] otherwise. *)
Theorem effective_date_in_filter_and_sort `{Host}
    (this : FeedSieve) (now : Z) (a b : Article) :
  sortBy this <> "rating" ->
  isToday now (Common.itemDate a) = isToday now (Spec.effective_date a) /\
  isThisWeek now (Common.itemDate a) = isThisWeek now (Spec.effective_date a) /\
  Common.compareItems this a b = numSub (Spec.rank_time b) (Spec.rank_time a) /\
  AppJs.compareItems this a b
  = numSub (Spec.processed_first_time b) (Spec.processed_first_time a).
Proof.
  intros Hs.
  assert (Hm : String.eqb (sortBy this) "rating" = false)
    by (apply String.eqb_neq; exact Hs).
  split; [|split; [|split]].
  - rewrite isToday_present, itemDate_effective. reflexivity.
  - rewrite isThisWeek_present, itemDate_effective. reflexivity.
  - unfold Common.compareItems. rewrite Hm, !sortDateArg_rank_time. reflexivity.
  - unfold AppJs.compareItems. rewrite Hm, !AppJs_sortDateArg_time. reflexivity.
Qed.

(** The theorem at two articles whose dates disagree: the later copies rank
    them by publication, 4 days apart; src/js/app.js by processing. *)
Lemma effective_date_in_filter_and_sort_witness :
  @Common.compareItems RefHost.host Sample.byDate
    Sample.slowlyProcessed Sample.quicklyProcessed
  = Some (4 * msPerDay) /\
  @AppJs.compareItems RefHost.host Sample.byDate
    Sample.slowlyProcessed Sample.quicklyProcessed
  = Some (- 4 * msPerDay).
Proof.
  pose proof (@effective_date_in_filter_and_sort RefHost.host Sample.byDate 0
                Sample.slowlyProcessed Sample.quicklyProcessed) as T.
  destruct T as (_ & _ & Hc & Hj); [discriminate|].
  rewrite Hc, Hj. vm_compute. split; reflexivity.
Defined.

(** C1 fails in src/js/app.js. Of two articles, the one published later
    (5 January against 1 January) was processed earlier (6 January against
    10 January): date mode puts the one published earlier first. *)
Lemma date_sort_prefers_processed_at_in_AppJs :
  sortBy Sample.byDate = "date" /\
  Spec.effective_date Sample.slowlyProcessed = Some "2024-01-01" /\
  Spec.effective_date Sample.quicklyProcessed = Some "2024-01-05" /\
  @Spec.effective_time RefHost.host Sample.slowlyProcessed = Some 1704067200000 /\
  @Spec.effective_time RefHost.host Sample.quicklyProcessed = Some 1704412800000 /\
  filteredItems (@AppJs.sortItems RefHost.host Sample.byDate)
  = [Sample.slowlyProcessed; Sample.quicklyProcessed] /\
  filteredItems (@App1766840000.sortItems RefHost.host Sample.byDate)
  = [Sample.quicklyProcessed; Sample.slowlyProcessed].
Proof. vm_compute. repeat split; reflexivity. Qed.

(** * The type stage *)

Section TypeStage.

Lemma itemType_spec (a : Article) :
  template (JS.or (source_type a) (Some "rss")) = Spec.source_type_or_rss a.
Proof.
  unfold JS.or, Spec.source_type_or_rss, Spec.present, truthy.
  destruct (source_type a) as [t|]; [|reflexivity].
  destruct (nonEmpty t); reflexivity.
Qed.

Lemma Array_includes_In (l : list string) (x : string) :
  Array_includes l x = true <-> In x l.
Proof.
  unfold Array_includes. rewrite existsb_exists. split.
  - intros (y & Hy & E). apply String.eqb_eq in E. subst y. exact Hy.
  - intros Hx. exists x. split; [exact Hx | apply String.eqb_refl].
Qed.

Lemma typeStage_known (types : list string) (this : FeedSieve) (a : Article) :
  In (currentFilter this) types ->
  (Common.typeStage types this a = true <->
   Spec.source_type_or_rss a = currentFilter this).
Proof.
  intros Hin. unfold Common.typeStage.
  rewrite (proj2 (Array_includes_In types (currentFilter this)) Hin).
  cbv zeta. rewrite itemType_spec. apply String.eqb_eq.
Qed.

Lemma SiteApp_typeStage_spec (this : FeedSieve) (a : Article) :
  currentFilter this <> "all" ->
  (SiteApp.typeStage this a = true <->
   Spec.source_type_or_rss a = currentFilter this).
Proof.
  intros Hn. unfold SiteApp.typeStage.
  rewrite (proj2 (String.eqb_neq _ _) Hn). cbn [negb]. cbv zeta.
  rewrite itemType_spec. apply String.eqb_eq.
Qed.

Lemma AppJs_typeStage_spec (this : FeedSieve) (a : Article) :
  currentFilter this <> "all" ->
  (AppJs.typeStage this a = true <-> source_type a = Some (currentFilter this)).
Proof.
  intros Hn. unfold AppJs.typeStage.
  rewrite (proj2 (String.eqb_neq _ _) Hn). cbn [negb andb].
  destruct (source_type a) as [t|].
  - destruct (String.eqb_spec t (currentFilter this)) as [E|E]; cbn [negb].
    + split; [intros _; congruence | reflexivity].
    + split; [discriminate | intros [= E']; contradiction].
  - cbn [negb]. split; discriminate.
Qed.

End TypeStage.

(** C9, as amended. A [source_type] counts as absent when it is missing or
    the empty string. In every copy but src/js/app.js, when the filter mode
    is one of the source types the copy knows (any mode but [all] in the
    first document of src/site/js/app.js), an article gets past the type
    stage exactly when its [source_type], [rss] when absent, is the filter
    mode. In src/js/app.js nothing stands in for an absent [source_type]:
    under a mode other than [all] an article gets past exactly when it has a
    [source_type] and that is the mode. *)
Theorem type_stage_defaults_to_rss (this : FeedSieve) (a : Article) :
  (currentFilter this <> "all" ->
   (SiteApp.typeStage this a = true <->
    Spec.source_type_or_rss a = currentFilter this)) /\
  (In (currentFilter this) Part000.knownTypes ->
   (Common.typeStage Part000.knownTypes this a = true <->
    Spec.source_type_or_rss a = currentFilter this)) /\
  (In (currentFilter this) SiteAppCat.knownTypes ->
   (Common.typeStage SiteAppCat.knownTypes this a = true <->
    Spec.source_type_or_rss a = currentFilter this)) /\
  (In (currentFilter this) App1766840000.knownTypes ->
   (Common.typeStage App1766840000.knownTypes this a = true <->
    Spec.source_type_or_rss a = currentFilter this)) /\
  (source_type a = None ->
   SiteApp.typeStage (set_currentFilter "rss" this) a = true /\
   Common.typeStage Part000.knownTypes (set_currentFilter "rss" this) a = true /\
   Common.typeStage SiteAppCat.knownTypes (set_currentFilter "rss" this) a = true /\
   Common.typeStage App1766840000.knownTypes (set_currentFilter "rss" this) a = true) /\
  (currentFilter this <> "all" ->
   (AppJs.typeStage this a = true <-> source_type a = Some (currentFilter this))).
Proof.
  split; [apply SiteApp_typeStage_spec|].
  split; [apply typeStage_known|].
  split; [apply typeStage_known|].
  split; [apply typeStage_known|].
  split; [|apply AppJs_typeStage_spec].
  intros Hn.
  assert (Hd : Spec.source_type_or_rss a = "rss")
    by (unfold Spec.source_type_or_rss; rewrite Hn; reflexivity).
  split; [|split; [|split]].
  - apply SiteApp_typeStage_spec; [discriminate | exact Hd].
  - apply typeStage_known; [left; reflexivity | exact Hd].
  - apply typeStage_known; [left; reflexivity | exact Hd].
  - apply typeStage_known; [left; reflexivity | exact Hd].
Qed.

(** C9 fails in src/js/app.js: under the mode [rss], an article without a
    [source_type] does not get past [item.source_type !== this.currentFilter]
    and is not in the result, although its type defaults to [rss]. *)
Lemma type_stage_absent_type_in_AppJs :
  source_type (Sample.bare 1) = None /\
  Spec.source_type_or_rss (Sample.bare 1) = "rss" /\
  AppJs.typeStage (Sample.mode "rss" [Sample.bare 1]) (Sample.bare 1) = false /\
  @AppJs.filtered RefHost.host (Sample.mode "rss" [Sample.bare 1]) = [] /\
  @SiteApp.filtered RefHost.host (Sample.mode "rss" [Sample.bare 1]) = [Sample.bare 1].
Proof. vm_compute. repeat split; reflexivity. Qed.

(** * The source stage *)

Section SourceStage.
Context `{Host}.

Lemma filterFrom_In_timeless (cb : Z -> Article -> bool) (f : Article -> bool)
    (clock : nat -> Z) (l : list Article) (a : Article) :
  (forall now x, cb now x = f x) ->
  (In a (filterFrom cb clock 0 l) <-> In a l /\ f a = true).
Proof.
  intros Hcb. rewrite (filterFrom_timeless cb f clock l Hcb). apply filter_In.
Qed.

Lemma sourceStage_spec (this : FeedSieve) (src : SourceRef) (a : Article) :
  currentFilter this = "source" ->
  currentSource this = Some src ->
  (Common.sourceStage this a = true <-> String_ (source_id a) = ref_id src).
Proof.
  intros Hf Hs. unfold Common.sourceStage. rewrite Hf, Hs.
  cbn [String.eqb Ascii.eqb Bool.eqb]. apply String.eqb_eq.
Qed.

(** In source mode only the source stage and the search stage decide. *)
Lemma source_mode_callbacks (this : FeedSieve) (now : Z) (a : Article) :
  currentFilter this = "source" ->
  Part000.filterCallback this now a
  = Common.sourceStage this a && Common.searchStage this a /\
  SiteAppCat.filterCallback this now a
  = Common.sourceStage this a && Common.searchStage this a /\
  App1766840000.filterCallback this now a
  = Common.sourceStage this a && Common.searchStage this a.
Proof.
  intros Hf.
  assert (Htemp : Common.temporalStage this now a = true)
    by (apply temporalStage_other; rewrite Hf; discriminate).
  assert (Htype : forall types, ~ In "source" types ->
                                Common.typeStage types this a = true)
    by (intros; apply typeStage_other; rewrite Hf; assumption).
  assert (Hcat : Common.categoryStage this a = true)
    by (apply categoryStage_other; rewrite Hf; discriminate).
  unfold Part000.filterCallback, SiteAppCat.filterCallback,
    App1766840000.filterCallback.
  rewrite Htemp, Hcat.
  rewrite (Htype Part000.knownTypes), (Htype SiteAppCat.knownTypes),
    (Htype App1766840000.knownTypes);
    [ cbn [andb]; rewrite andb_true_r; auto | | | ];
    unfold Part000.knownTypes, SiteAppCat.knownTypes, App1766840000.knownTypes;
    simpl; intuition discriminate.
Qed.

End SourceStage.

(** C10. With the filter mode [source] and a source selected, an article
    gets past the source stage exactly when the string form of its
    [source_id] is the [id] of the selected source (a string already). The
    [type] of the selected source plays no part: the stage gives the same
    answer whatever it is, and the filtered list is made of the loaded
    articles with that [source_id] that get past the search stage, of
    whatever [source_type]. *)
Theorem source_stage_compares_ids_only `{Host}
    (this : FeedSieve) (src : SourceRef) (a : Article) (clock : nat -> Z) :
  currentFilter this = "source" ->
  currentSource this = Some src ->
  (Common.sourceStage this a = true <-> String_ (source_id a) = ref_id src) /\
  (forall type,
     Common.sourceStage
       (set_currentSource (Some {| ref_id := ref_id src; ref_type := type |}) this) a
     = Common.sourceStage this a) /\
  (In a (Part000.filtered this clock) <->
   In a (items this) /\ String_ (source_id a) = ref_id src
   /\ Common.searchStage this a = true) /\
  (In a (SiteAppCat.filtered this clock) <->
   In a (items this) /\ String_ (source_id a) = ref_id src
   /\ Common.searchStage this a = true) /\
  (In a (App1766840000.filtered this clock) <->
   In a (items this) /\ String_ (source_id a) = ref_id src
   /\ Common.searchStage this a = true).
Proof.
  intros Hf Hs.
  pose proof (sourceStage_spec this src a Hf Hs) as Hstage.
  assert (Hboth : Common.sourceStage this a && Common.searchStage this a = true <->
                  String_ (source_id a) = ref_id src /\ Common.searchStage this a = true)
    by (rewrite andb_true_iff, Hstage; reflexivity).
  split; [exact Hstage|]. split.
  - intros type. unfold Common.sourceStage. simpl. rewrite Hs. reflexivity.
  - split; [|split].
    + unfold Part000.filtered.
      rewrite (filterFrom_In_timeless _
                 (fun x => Common.sourceStage this x && Common.searchStage this x)).
      * rewrite Hboth. reflexivity.
      * intros now x. apply (source_mode_callbacks this now x Hf).
    + unfold SiteAppCat.filtered.
      rewrite (filterFrom_In_timeless _
                 (fun x => Common.sourceStage this x && Common.searchStage this x)).
      * rewrite Hboth. reflexivity.
      * intros now x. apply (source_mode_callbacks this now x Hf).
    + unfold App1766840000.filtered.
      rewrite (filterFrom_In_timeless _
                 (fun x => Common.sourceStage this x && Common.searchStage this x)).
      * rewrite Hboth. reflexivity.
      * intros now x. apply (source_mode_callbacks this now x Hf).
Qed.

(** The theorem at a selected rss source 42: the youtube article whose
    [source_id] is the string 42 is in the result with the rss article whose
    [source_id] is the number 42. *)
Lemma source_stage_compares_ids_only_witness :
  In (Sample.from 2 (Some "youtube") (Some (IdStr "42")))
     (@App1766840000.filtered RefHost.host Sample.source42 Sample.noon) /\
  @App1766840000.filtered RefHost.host Sample.source42 Sample.noon
  = [Sample.from 1 (Some "rss") (Some (IdNum 42));
     Sample.from 2 (Some "youtube") (Some (IdStr "42"))].
Proof.
  split.
  - apply (@source_stage_compares_ids_only RefHost.host Sample.source42
             {| ref_id := "42"; ref_type := "rss" |}
             (Sample.from 2 (Some "youtube") (Some (IdStr "42"))) Sample.noon);
      [reflexivity | reflexivity |].
    split; [right; left; reflexivity | split; reflexivity].
  - vm_compute. reflexivity.
Defined.

(** * Categories *)

Section Categories.
Context `{Host}.

Lemma categoryStage_spec (this : FeedSieve) (c : string) (a : Article) :
  currentFilter this = "category" ->
  currentCategory this = Some c ->
  nonEmpty c = true ->
  (Common.categoryStage this a = true <-> In c (Spec.labels_of a)).
Proof.
  intros Hf Hc Hne. unfold Common.categoryStage. rewrite Hf, Hc.
  cbn [String.eqb Ascii.eqb Bool.eqb truthy andb]. rewrite Hne.
  cbv zeta. cbn [template]. apply Array_includes_In.
Qed.

(** In category mode only the category stage and the search stage decide. *)
Lemma category_mode_callbacks (this : FeedSieve) (now : Z) (a : Article) :
  currentFilter this = "category" ->
  SiteAppCat.filterCallback this now a
  = Common.categoryStage this a && Common.searchStage this a /\
  App1766840000.filterCallback this now a
  = Common.categoryStage this a && Common.searchStage this a.
Proof.
  intros Hf.
  assert (Htemp : Common.temporalStage this now a = true)
    by (apply temporalStage_other; rewrite Hf; discriminate).
  assert (Htype : forall types, ~ In "category" types ->
                                Common.typeStage types this a = true)
    by (intros; apply typeStage_other; rewrite Hf; assumption).
  assert (Hsrc : Common.sourceStage this a = true)
    by (apply sourceStage_other; rewrite Hf; discriminate).
  unfold SiteAppCat.filterCallback, App1766840000.filterCallback.
  rewrite Htemp, Hsrc.
  rewrite (Htype SiteAppCat.knownTypes), (Htype App1766840000.knownTypes);
    [ cbn [andb]; auto | | ];
    unfold SiteAppCat.knownTypes, App1766840000.knownTypes;
    simpl; intuition discriminate.
Qed.

Lemma category_click_filtered (this : FeedSieve) (c : string) (a : Article)
    (clock : nat -> Z) :
  nonEmpty c = true ->
  In c (Spec.labels_of a) ->
  (In a (SiteAppCat.filtered (Common.handleCategoryClick c this) clock) <->
   In a (items this) /\ Common.searchStage this a = true) /\
  (In a (App1766840000.filtered (Common.handleCategoryClick c this) clock) <->
   In a (items this) /\ Common.searchStage this a = true).
Proof.
  intros Hne Hin.
  set (this' := Common.handleCategoryClick c this).
  assert (Hstage : Common.categoryStage this' a = true)
    by (apply (categoryStage_spec this' c a); auto).
  assert (Hboth : Common.categoryStage this' a && Common.searchStage this' a = true
                  <-> Common.searchStage this a = true)
    by (rewrite Hstage; reflexivity).
  split.
  - unfold SiteAppCat.filtered.
    rewrite (filterFrom_In_timeless _
               (fun x => Common.categoryStage this' x && Common.searchStage this' x)).
    + rewrite Hboth. reflexivity.
    + intros now x. apply (category_mode_callbacks this' now x eq_refl).
  - unfold App1766840000.filtered.
    rewrite (filterFrom_In_timeless _
               (fun x => Common.categoryStage this' x && Common.searchStage this' x)).
    + rewrite Hboth. reflexivity.
    + intros now x. apply (category_mode_callbacks this' now x eq_refl).
Qed.

(** *** Counting *)

Lemma occurrences_cons (label x : string) (l : list string) :
  Spec.occurrences label (x :: l)
  = (if String.eqb label x then 1 else 0) + Spec.occurrences label l.
Proof.
  unfold Spec.occurrences. cbn [List.filter].
  destruct (String.eqb label x); cbn [length]; lia.
Qed.

Lemma occurrences_app (label : string) (l k : list string) :
  Spec.occurrences label (l ++ k)
  = Spec.occurrences label l + Spec.occurrences label k.
Proof.
  induction l as [|x l IH].
  - unfold Spec.occurrences at 2. simpl. lia.
  - change ((x :: l) ++ k) with (x :: (l ++ k)).
    rewrite !occurrences_cons, IH. lia.
Qed.

Lemma occurrences_nonneg (label : string) (l : list string) :
  0 <= Spec.occurrences label l.
Proof. unfold Spec.occurrences. lia. Qed.

Lemma occurrences_absent (label : string) (l : list string) :
  ~ In label l -> Spec.occurrences label l = 0.
Proof.
  induction l as [|x l IH]; intros Hn; [reflexivity|].
  rewrite occurrences_cons, IH by (intros Hl; apply Hn; right; exact Hl).
  destruct (String.eqb_spec label x) as [E|_]; [|reflexivity].
  exfalso. apply Hn. left. congruence.
Qed.

Lemma occurrences_present (label : string) (l : list string) :
  In label l -> 1 <= Spec.occurrences label l.
Proof.
  induction l as [|x l IH]; intros Hin; [contradiction|].
  rewrite occurrences_cons. pose proof (occurrences_nonneg label l).
  destruct (String.eqb_spec label x) as [E|E]; [lia|].
  destruct Hin as [E'|Hin]; [congruence|]. specialize (IH Hin). lia.
Qed.

Lemma occurrences_NoDup (label : string) (l : list string) :
  List.NoDup l -> In label l -> Spec.occurrences label l = 1.
Proof.
  induction 1 as [|x l Hx _ IH]; intros Hin; [contradiction|].
  rewrite occurrences_cons.
  destruct (String.eqb_spec label x) as [E|E].
  - subst x. rewrite (occurrences_absent label l Hx). reflexivity.
  - destruct Hin as [E'|Hin]; [congruence|]. rewrite (IH Hin). reflexivity.
Qed.

Lemma foldl_concat_map {A B C : Type} (g : A -> C -> A) (h : B -> list C)
    (l : list B) (m : A) :
  foldl (fun acc x => foldl g acc (h x)) m l = foldl g m (concat (map h l)).
Proof.
  revert m. induction l as [|x l IH]; intros m; simpl; [reflexivity|].
  rewrite foldl_app. apply IH.
Qed.

Lemma App_countLabel_lookup (m : gmap string CategoryEntry) (l label : string) :
  App1766840000.countLabel m l !! label
  = if String.eqb label l
    then match m !! l with
         | Some e => Some {| count := count e + 1; icon := icon e |}
         | None => if inherited l then None
                   else Some {| count := 1; icon := Notion.icon_of l |}
         end
    else m !! label.
Proof.
  unfold App1766840000.countLabel, Notion.icon_of.
  destruct (String.eqb_spec label l) as [->|Hne].
  - rewrite lookup_alter_eq. destruct (m !! l) as [e|] eqn:Hm.
    + rewrite Hm. reflexivity.
    + destruct (inherited l).
      * rewrite Hm. reflexivity.
      * rewrite lookup_insert_eq. reflexivity.
  - rewrite lookup_alter_ne by congruence. destruct (m !! l) as [e|] eqn:Hm.
    + reflexivity.
    + destruct (inherited l); [reflexivity|].
      rewrite lookup_insert_ne by congruence. reflexivity.
Qed.

Lemma Site_countLabel_lookup (m : gmap string (option Z)) (l label : string) :
  SiteAppCat.countLabel m l !! label
  = if String.eqb label l
    then match m !! l with
         | Some (Some n) => Some (Some ((if n =? 0 then 0 else n) + 1))
         | Some None => Some (Some 1)
         | None => if inherited l
                   then (if String.eqb l "__proto__" then None else Some None)
                   else Some (Some 1)
         end
    else m !! label.
Proof.
  unfold SiteAppCat.countLabel.
  destruct (String.eqb_spec label l) as [->|Hne].
  - destruct (m !! l) as [[n|]|] eqn:Hm.
    + destruct (n =? 0) eqn:Hn.
      * rewrite lookup_insert_eq, lookup_insert_eq. reflexivity.
      * rewrite Hm, lookup_insert_eq. reflexivity.
    + rewrite lookup_insert_eq, lookup_insert_eq. reflexivity.
    + destruct (inherited l); cbn [negb].
      * rewrite Hm. destruct (String.eqb l "__proto__"); [exact Hm|].
        apply lookup_insert_eq.
      * rewrite lookup_insert_eq, lookup_insert_eq. reflexivity.
  - destruct (m !! l) as [[n|]|] eqn:Hm.
    + destruct (n =? 0) eqn:Hn.
      * rewrite lookup_insert_eq, !lookup_insert_ne by congruence. reflexivity.
      * rewrite Hm, lookup_insert_ne by congruence. reflexivity.
    + rewrite lookup_insert_eq, !lookup_insert_ne by congruence. reflexivity.
    + destruct (inherited l); cbn [negb].
      * rewrite Hm. destruct (String.eqb l "__proto__"); [reflexivity|].
        rewrite lookup_insert_ne by congruence. reflexivity.
      * rewrite lookup_insert_eq, !lookup_insert_ne by congruence. reflexivity.
Qed.

(** What the index holds after the labels [ls]. *)
Lemma App_foldl_countLabel_lookup (ls pre : list string) (m : gmap string CategoryEntry) :
  (forall label, m !! label = Notion.category_entry label (Spec.occurrences label pre)) ->
  forall label,
    foldl App1766840000.countLabel m ls !! label
    = Notion.category_entry label (Spec.occurrences label (pre ++ ls)).
Proof.
  revert pre m. induction ls as [|l ls IH]; intros pre m Hm label.
  - rewrite app_nil_r. apply Hm.
  - cbn [foldl]. change (pre ++ l :: ls) with (pre ++ [l] ++ ls).
    rewrite app_assoc. apply IH. clear label. intros label.
    rewrite App_countLabel_lookup, occurrences_app, occurrences_cons.
    rewrite !Hm. unfold Notion.category_entry.
    pose proof (occurrences_nonneg label pre) as Hp.
    pose proof (occurrences_nonneg l pre) as Hl.
    change (Spec.occurrences label []) with 0.
    destruct (String.eqb_spec label l) as [->|Hne].
    + destruct (inherited l); cbn [orb]; [reflexivity|].
      destruct (Z.eqb_spec (Spec.occurrences l pre) 0) as [H0|H0].
      * rewrite H0. reflexivity.
      * destruct (Z.eqb_spec (Spec.occurrences l pre + (1 + 0)) 0) as [H1|H1]; [lia|].
        reflexivity.
    + rewrite Z.add_0_r. reflexivity.
Qed.

Lemma Site_foldl_countLabel_lookup (ls pre : list string) (m : gmap string (option Z)) :
  (forall label, m !! label = Notion.category_count label (Spec.occurrences label pre)) ->
  forall label,
    foldl SiteAppCat.countLabel m ls !! label
    = Notion.category_count label (Spec.occurrences label (pre ++ ls)).
Proof.
  revert pre m. induction ls as [|l ls IH]; intros pre m Hm label.
  - rewrite app_nil_r. apply Hm.
  - cbn [foldl]. change (pre ++ l :: ls) with (pre ++ [l] ++ ls).
    rewrite app_assoc. apply IH. clear label. intros label.
    rewrite Site_countLabel_lookup, occurrences_app, occurrences_cons.
    rewrite !Hm. unfold Notion.category_count.
    pose proof (occurrences_nonneg label pre) as Hp.
    pose proof (occurrences_nonneg l pre) as Hl.
    change (Spec.occurrences label []) with 0.
    destruct (String.eqb_spec label l) as [->|Hne]; [|rewrite Z.add_0_r; reflexivity].
    generalize dependent (Spec.occurrences l pre). intros n _ Hn.
    destruct (inherited l); [destruct (String.eqb l "__proto__")|];
      repeat match goal with
             | |- context [Z.eqb ?a ?b] => destruct (Z.eqb_spec a b)
             end;
      try lia; try reflexivity; do 2 f_equal; lia.
Qed.

Lemma App_buildCategoryIndex_lookup (its : list Article) (label : string) :
  App1766840000.buildCategoryIndex its !! label
  = Notion.category_entry label (Spec.label_total label its).
Proof.
  unfold App1766840000.buildCategoryIndex, Spec.label_total.
  rewrite (foldl_concat_map App1766840000.countLabel
             (fun item => labelsOrEmpty (labels item))).
  apply (App_foldl_countLabel_lookup _ []). intros l.
  rewrite lookup_empty. unfold Notion.category_entry.
  change (Spec.occurrences l []) with 0. rewrite orb_true_r. reflexivity.
Qed.

Lemma Site_buildCategoryIndex_lookup (its : list Article) (label : string) :
  SiteAppCat.buildCategoryIndex its !! label
  = Notion.category_count label (Spec.label_total label its).
Proof.
  unfold SiteAppCat.buildCategoryIndex, Spec.label_total.
  rewrite (foldl_concat_map SiteAppCat.countLabel
             (fun item => labelsOrEmpty (labels item))).
  apply (Site_foldl_countLabel_lookup _ []). intros l. apply lookup_empty.
Qed.

(** Under a label that is no name every object inherits, the index holds the
    number of times the label is listed over the loaded articles. *)
Lemma App_buildCategoryIndex_count (its : list Article) (label : string) :
  inherited label = false ->
  countOf (App1766840000.buildCategoryIndex its) label = Spec.label_total label its.
Proof.
  intros Hi. unfold countOf. rewrite App_buildCategoryIndex_lookup.
  unfold Notion.category_entry. rewrite Hi. cbn [orb].
  destruct (Z.eqb_spec (Spec.label_total label its) 0) as [E|E]; [congruence | reflexivity].
Qed.

Lemma Site_buildCategoryIndex_count (its : list Article) (label : string) :
  inherited label = false ->
  countOfZ (SiteAppCat.buildCategoryIndex its) label = Spec.label_total label its.
Proof.
  intros Hi. unfold countOfZ. rewrite Site_buildCategoryIndex_lookup.
  unfold Notion.category_count. rewrite Hi.
  destruct (Z.eqb_spec (Spec.label_total label its) 0) as [E|E]; [congruence | reflexivity].
Qed.

Lemma label_total_insert (label : string) (pre post : list Article) (a : Article) :
  Spec.label_total label (pre ++ a :: post)
  = Spec.label_total label (pre ++ post) + Spec.occurrences label (Spec.labels_of a).
Proof.
  unfold Spec.label_total.
  rewrite !map_app, !concat_app. cbn [map concat].
  rewrite !occurrences_app. lia.
Qed.

End Categories.

(** C8, as amended. Take an article whose labels contain both "AI" and
    "Tech". After a click on the category AI, and likewise on Tech, the
    filtered list holds it exactly when it is loaded and gets past the
    search stage (which an empty search lets everything past). Adding it to a
    feed raises the count the category index holds for AI, and for Tech, by
    the number of times its labels list that label: at least once, and
    exactly once when its labels list no label twice. Both copies with
    categories. *)
Theorem two_labels_two_buckets `{Host}
    (this : FeedSieve) (a : Article) (clock : nat -> Z) (pre post : list Article) :
  In "AI" (Spec.labels_of a) ->
  In "Tech" (Spec.labels_of a) ->
  ((In a (App1766840000.filtered (Common.handleCategoryClick "AI" this) clock) <->
    In a (items this) /\ Common.searchStage this a = true) /\
   (In a (App1766840000.filtered (Common.handleCategoryClick "Tech" this) clock) <->
    In a (items this) /\ Common.searchStage this a = true) /\
   (In a (SiteAppCat.filtered (Common.handleCategoryClick "AI" this) clock) <->
    In a (items this) /\ Common.searchStage this a = true) /\
   (In a (SiteAppCat.filtered (Common.handleCategoryClick "Tech" this) clock) <->
    In a (items this) /\ Common.searchStage this a = true)) /\
  (forall label, label = "AI" \/ label = "Tech" ->
     countOf (App1766840000.buildCategoryIndex (pre ++ a :: post)) label
     = countOf (App1766840000.buildCategoryIndex (pre ++ post)) label
       + Spec.occurrences label (Spec.labels_of a) /\
     countOfZ (SiteAppCat.buildCategoryIndex (pre ++ a :: post)) label
     = countOfZ (SiteAppCat.buildCategoryIndex (pre ++ post)) label
       + Spec.occurrences label (Spec.labels_of a) /\
     1 <= Spec.occurrences label (Spec.labels_of a) /\
     (List.NoDup (Spec.labels_of a) -> Spec.occurrences label (Spec.labels_of a) = 1)).
Proof.
  intros Hai Htech. split.
  - destruct (category_click_filtered this "AI" a clock eq_refl Hai) as [Hs1 Ha1].
    destruct (category_click_filtered this "Tech" a clock eq_refl Htech) as [Hs2 Ha2].
    auto.
  - intros label Hl.
    assert (Hin : In label (Spec.labels_of a)) by (destruct Hl; subst; assumption).
    assert (Hown : inherited label = false) by (destruct Hl; subst label; reflexivity).
    rewrite !(App_buildCategoryIndex_count _ _ Hown),
      !(Site_buildCategoryIndex_count _ _ Hown), label_total_insert.
    split; [reflexivity|]. split; [reflexivity|]. split.
    + apply occurrences_present, Hin.
    + intros Hnd. apply occurrences_NoDup; assumption.
Qed.

(** The theorem at the article of the specification, labels AI and Tech,
    loaded after an article labelled AI alone: it is listed under both
    categories and counted once under each. *)
Lemma two_labels_two_buckets_witness :
  (In (Sample.labelled 2 ["AI"; "Tech"])
      (@App1766840000.filtered RefHost.host
         (Common.handleCategoryClick "AI"
            (Sample.mode "today" [Sample.labelled 1 ["AI"]; Sample.labelled 2 ["AI"; "Tech"]]))
         Sample.noon) /\
   In (Sample.labelled 2 ["AI"; "Tech"])
      (@App1766840000.filtered RefHost.host
         (Common.handleCategoryClick "Tech"
            (Sample.mode "today" [Sample.labelled 1 ["AI"]; Sample.labelled 2 ["AI"; "Tech"]]))
         Sample.noon)) /\
  countOf (App1766840000.buildCategoryIndex
             [Sample.labelled 1 ["AI"]; Sample.labelled 2 ["AI"; "Tech"]]) "AI" = 2 /\
  countOf (App1766840000.buildCategoryIndex
             [Sample.labelled 1 ["AI"]; Sample.labelled 2 ["AI"; "Tech"]]) "Tech" = 1.
Proof.
  pose proof (@two_labels_two_buckets RefHost.host
    (Sample.mode "today" [Sample.labelled 1 ["AI"]; Sample.labelled 2 ["AI"; "Tech"]])
    (Sample.labelled 2 ["AI"; "Tech"]) Sample.noon [Sample.labelled 1 ["AI"]] []
    (or_introl eq_refl) (or_intror (or_introl eq_refl))) as [(Hai & Htech & _) Hcount].
  split; [split|].
  - apply Hai. split; [right; left; reflexivity | reflexivity].
  - apply Htech. split; [right; left; reflexivity | reflexivity].
  - destruct (Hcount "AI" (or_introl eq_refl)) as (Ha & _ & _ & _).
    destruct (Hcount "Tech" (or_intror eq_refl)) as (Ht & _ & _ & _).
    cbn [app] in Ha, Ht. rewrite Ha, Ht. vm_compute. split; reflexivity.
Defined.

(** C8 fails as stated where an article's labels list a label twice: the
    index counts the article twice under that label. *)
Lemma label_listed_twice_counts_twice :
  In "AI" (Spec.labels_of Sample.twiceAI) /\
  In "Tech" (Spec.labels_of Sample.twiceAI) /\
  countOf (App1766840000.buildCategoryIndex [Sample.twiceAI]) "AI" = 2 /\
  countOfZ (SiteAppCat.buildCategoryIndex [Sample.twiceAI]) "AI" = 2 /\
  countOf (App1766840000.buildCategoryIndex [Sample.twiceAI]) "Tech" = 1.
Proof.
  split; [left; reflexivity|]. split; [right; right; left; reflexivity|].
  vm_compute. repeat split; reflexivity.
Qed.

(** * The search stage *)

Section Search.
Context `{Host}.

Lemma source_name_or_empty (a : Article) :
  template (JS.or (source_name a) (Some "")) = default "" (source_name a).
Proof.
  unfold JS.or, truthy. destruct (source_name a) as [s|]; [|reflexivity].
  destruct s; reflexivity.
Qed.

(** Where the title and the summary are there, the search stage is the
    substring test of the specification, on the fields joined by spaces. *)
Lemma search_stage_with_title_and_summary (this : FeedSieve) (q : string) (a : Article) :
  is_Some (title a) ->
  is_Some (summary a) ->
  nonEmpty q = true ->
  (Common.searchStage (Common.handleSearchInput q this) a = true <->
   Spec.substring (toLowerCase q) (toLowerCase (Spec.search_text a))).
Proof.
  intros [t Ht] [s Hs] Hq.
  unfold Common.searchStage, Common.handleSearchInput. cbn [searchQuery set_searchQuery].
  unfold Common.searchIn, Spec.search_text.
  rewrite source_name_or_empty, Ht, Hs. cbn [template default].
  destruct (toLowerCase q) as [|c q'] eqn:Hl; cbn [nonEmpty].
  - split; [|reflexivity]. intros _. exists EmptyString. eexists. reflexivity.
  - apply includes_spec.
Qed.

End Search.

(** C2 does not hold of the code: in [`${item.title} ${item.summary}
    ${item.source_name || ''}`] only the source name is given the empty
    string when absent; an absent title or summary is printed as
    "undefined". The article below has no summary; the query "Undefined" is
    no substring of its search text, yet the search stage lets it past, and
    the filter of every copy keeps it. *)
Lemma search_matches_absent_summary :
  summary Sample.unsummarised = None /\
  ~ Spec.substring (@toLowerCase RefHost.host "Undefined")
      (@toLowerCase RefHost.host (Spec.search_text Sample.unsummarised)) /\
  @Common.searchIn RefHost.host Sample.unsummarised
  = "quarterly numbers undefined ledger" /\
  @Common.searchStage RefHost.host
    (@Common.handleSearchInput RefHost.host "Undefined"
       (Sample.mode "all" [Sample.unsummarised]))
    Sample.unsummarised = true /\
  @App1766840000.filtered RefHost.host
    (@Common.handleSearchInput RefHost.host "Undefined"
       (Sample.mode "all" [Sample.unsummarised]))
    Sample.noon = [Sample.unsummarised] /\
  @SiteApp.filtered RefHost.host
    (@Common.handleSearchInput RefHost.host "Undefined"
       (Sample.mode "all" [Sample.unsummarised]))
  = [Sample.unsummarised] /\
  @AppJs.filtered RefHost.host
    (@Common.handleSearchInput RefHost.host "Undefined"
       (Sample.mode "all" [Sample.unsummarised]))
  = [Sample.unsummarised].
Proof.
  split; [reflexivity|]. split.
  - rewrite <- includes_spec. vm_compute. discriminate.
  - vm_compute. repeat split; reflexivity.
Qed.

(** * The read state *)

Section ReadState.
Context `{Host}.

Lemma sameValueZero_ident_refl (i : ident) :
  sameValueZero (json_of_ident i) (json_of_ident i) = true.
Proof.
  destruct i as [n|s]; simpl; [apply Z.eqb_refl | apply String.eqb_refl].
Qed.

Lemma Set_has_add (s : list json) (i : ident) :
  Set_has (Set_add s (json_of_ident i)) (json_of_ident i) = true.
Proof.
  unfold Set_add. destruct (Set_has s (json_of_ident i)) eqn:Hh; [exact Hh|].
  unfold Set_has. rewrite existsb_app. simpl.
  rewrite sameValueZero_ident_refl. apply orb_true_iff. right. reflexivity.
Qed.

Lemma Set_has_delete (s : list json) (x : json) :
  Set_has (Set_delete s x) x = false.
Proof.
  unfold Set_has, Set_delete. induction s as [|y s IH]; simpl; [reflexivity|].
  destruct (sameValueZero x y) eqn:Hxy; simpl; [exact IH|].
  rewrite Hxy. exact IH.
Qed.

Lemma Set_delete_absent (s : list json) (x : json) :
  Set_has s x = false -> Set_delete s x = s.
Proof.
  unfold Set_has, Set_delete. induction s as [|y s IH]; simpl; [reflexivity|].
  intros Hh. apply orb_false_iff in Hh. destruct Hh as [Hxy Hs].
  rewrite Hxy. simpl. rewrite (IH Hs). reflexivity.
Qed.

Lemma set_readItems_same (this : FeedSieve) :
  set_readItems (readItems this) this = this.
Proof. destruct this. reflexivity. Qed.

Lemma Site_isRead_true (itemId : ident) (localStorage : gmap string string) :
  SiteAppCat.isRead itemId localStorage = true <->
  localStorage !! ("read_" +:+ ident_toString itemId) = Some "true".
Proof. unfold SiteAppCat.isRead. apply bool_decide_eq_true. Qed.

End ReadState.

(** C7. For every identifier: once marked read it is read; once then marked
    unread it is not read; and marking unread an identifier that is not read
    leaves the read set as it is. In src/js/app.1766840000.js the read set is
    the [Set] of the object, and the object is unchanged; in the second
    document of src/site/js/app.js it is the storage keys holding "true", and
    every identifier is read after exactly when it was before (the storage
    itself unchanged when the identifier has no key). The operations are
    total functions of the state: none of them raises. *)
Theorem read_state_round_trip `{Host}
    (itemId : ident) (w : FeedSieve * gmap string string)
    (localStorage : gmap string string) :
  (App1766840000.isRead itemId (App1766840000.markAsRead itemId w).1 = true /\
   App1766840000.isRead itemId
     (App1766840000.markAsUnread itemId (App1766840000.markAsRead itemId w)).1 = false /\
   (App1766840000.isRead itemId w.1 = false ->
    (App1766840000.markAsUnread itemId w).1 = w.1)) /\
  (SiteAppCat.isRead itemId (SiteAppCat.markAsRead itemId localStorage) = true /\
   SiteAppCat.isRead itemId
     (SiteAppCat.markAsUnread itemId (SiteAppCat.markAsRead itemId localStorage)) = false /\
   (SiteAppCat.isRead itemId localStorage = false ->
    forall other,
      SiteAppCat.isRead other (SiteAppCat.markAsUnread itemId localStorage)
      = SiteAppCat.isRead other localStorage) /\
   (localStorage !! ("read_" +:+ ident_toString itemId) = None ->
    SiteAppCat.markAsUnread itemId localStorage = localStorage)).
Proof.
  split.
  - destruct w as [this ls]. cbn [fst].
    unfold App1766840000.isRead, App1766840000.markAsRead, App1766840000.markAsUnread.
    cbn [fst readItems set_readItems].
    split; [apply Set_has_add|]. split; [apply Set_has_delete|].
    intros Hn. rewrite (Set_delete_absent _ _ Hn). apply set_readItems_same.
  - unfold SiteAppCat.markAsRead, SiteAppCat.markAsUnread.
    split; [|split; [|split]].
    + apply Site_isRead_true. apply lookup_insert_eq.
    + apply not_true_is_false. rewrite Site_isRead_true, lookup_delete_eq. discriminate.
    + intros Hn other. unfold SiteAppCat.isRead in *.
      destruct (decide ("read_" +:+ ident_toString itemId
                        = "read_" +:+ ident_toString other)) as [E|E].
      * rewrite <- E, lookup_delete_eq, Hn.
        apply bool_decide_eq_false. discriminate.
      * rewrite lookup_delete_ne by exact E. reflexivity.
    + apply delete_id.
Qed.

Section Construction.
Context `{Host}.

Lemma isRead_initial_empty (itemId : ident) :
  App1766840000.isRead itemId (App1766840000.initial []) = false.
Proof. reflexivity. Qed.

Lemma sameValueZero_true (x y : json) : sameValueZero x y = true -> x = y.
Proof.
  destruct x, y; cbn; try discriminate.
  - reflexivity.
  - intros E. apply Bool.eqb_prop in E. congruence.
  - intros E. apply Z.eqb_eq in E. congruence.
  - intros E. apply String.eqb_eq in E. congruence.
Qed.

Lemma Set_has_Set_add (s : list json) (y x : json) :
  Set_has (Set_add s y) x = Set_has s x || sameValueZero x y.
Proof.
  unfold Set_add. destruct (Set_has s y) eqn:Hy.
  - destruct (sameValueZero x y) eqn:Hxy; [|rewrite orb_false_r; reflexivity].
    apply sameValueZero_true in Hxy. subst y. rewrite Hy. reflexivity.
  - unfold Set_has. rewrite existsb_app. cbn [existsb]. rewrite orb_false_r. reflexivity.
Qed.

(** The set an array makes holds the elements of the array. *)
Lemma Set_has_foldl_Set_add (l s : list json) (x : json) :
  Set_has (foldl Set_add s l) x = Set_has s x || existsb (sameValueZero x) l.
Proof.
  revert s. induction l as [|y l IH]; intros s; cbn [foldl existsb].
  - rewrite orb_false_r. reflexivity.
  - rewrite IH, Set_has_Set_add, orb_assoc. reflexivity.
Qed.

Lemma isRead_of_array (l : list json) (itemId : ident) :
  App1766840000.isRead itemId (App1766840000.initial (foldl Set_add [] l)) = true <->
  In (json_of_ident itemId) l.
Proof.
  unfold App1766840000.isRead. cbn [readItems App1766840000.initial].
  rewrite Set_has_foldl_Set_add. cbn [Set_has existsb orb].
  rewrite existsb_exists. split.
  - intros (y & Hy & E). apply sameValueZero_true in E. subst y. exact Hy.
  - intros Hin. exists (json_of_ident itemId). split; [exact Hin|].
    destruct itemId as [n|s]; cbn; [apply Z.eqb_refl | apply String.eqb_refl].
Qed.

Lemma constructor_payload (localStorage : gmap string string) (payload : string) :
  localStorage !! "readItems" = Some payload ->
  nonEmpty payload = true ->
  App1766840000.constructor localStorage
  = match JSON_parse payload with
    | None => Throw SyntaxError
    | Some j => match newSet j with
                | Normal r => Normal (App1766840000.initial r)
                | Throw e => Throw e
                end
    end.
Proof.
  intros Hl Hp. unfold App1766840000.constructor, JS.or, truthy.
  rewrite Hl, Hp. reflexivity.
Qed.

End Construction.

(** C3, as amended. The constructor of src/js/app.1766840000.js reads the
    stored payload with [JSON.parse] and [new Set] and catches nothing.
    When the payload is absent or the empty string, or is JSON for null, the
    read set starts empty, nothing is raised and no article is read. When it
    is JSON for an array, whatever the elements, nothing is raised and the
    read set is the set of the elements: an article is read exactly when its
    id is one of them. When it is not valid JSON, the constructor throws the
    SyntaxError of [JSON.parse] to its caller; when it is JSON for a number,
    a boolean or an object, it throws the TypeError of [new Set]; when it is
    JSON for a string, nothing is raised and the read set is the set of the
    code points of the string: the articles read are those whose id is a
    string of one code point that occurs in it. *)
Theorem read_state_initialization `{Host}
    (localStorage : gmap string string) (payload : string) :
  JSON_parse "[]" = Some (JArray []) ->
  (truthy (localStorage !! "readItems") = false ->
   App1766840000.constructor localStorage = Normal (App1766840000.initial []) /\
   forall itemId, App1766840000.isRead itemId (App1766840000.initial []) = false) /\
  (localStorage !! "readItems" = Some payload ->
   nonEmpty payload = true ->
   (JSON_parse payload = Some JNull ->
    App1766840000.constructor localStorage = Normal (App1766840000.initial []) /\
    forall itemId, App1766840000.isRead itemId (App1766840000.initial []) = false) /\
   (forall l, JSON_parse payload = Some (JArray l) ->
      App1766840000.constructor localStorage
      = Normal (App1766840000.initial (foldl Set_add [] l)) /\
      forall itemId,
        App1766840000.isRead itemId (App1766840000.initial (foldl Set_add [] l)) = true
        <-> In (json_of_ident itemId) l) /\
   (JSON_parse payload = None ->
    App1766840000.constructor localStorage = Throw SyntaxError) /\
   (forall j, JSON_parse payload = Some j ->
      (exists b, j = JBool b) \/ (exists n, j = JNumber n) \/ (exists l, j = JObject l) ->
      App1766840000.constructor localStorage = Throw TypeError) /\
   (forall s, JSON_parse payload = Some (JString s) ->
      App1766840000.constructor localStorage
      = Normal (App1766840000.initial (foldl Set_add [] (map JString (codePoints s)))) /\
      forall itemId,
        App1766840000.isRead itemId
          (App1766840000.initial (foldl Set_add [] (map JString (codePoints s)))) = true
        <-> exists p, itemId = IdStr p /\ In p (codePoints s))).
Proof.
  intros Hempty. split.
  - intros Hf. split; [|intros itemId; apply isRead_initial_empty].
    unfold App1766840000.constructor, JS.or. rewrite Hf. cbn [template].
    rewrite Hempty. reflexivity.
  - intros Hl Hp. rewrite (constructor_payload localStorage payload Hl Hp).
    split; [|split; [|split; [|split]]].
    + intros ->. split; [reflexivity | intros itemId; apply isRead_initial_empty].
    + intros l ->. split; [reflexivity | intros itemId; apply isRead_of_array].
    + intros ->. reflexivity.
    + intros j -> [[b ->] | [[n ->] | [l ->]]]; reflexivity.
    + intros s ->. split; [reflexivity|]. intros itemId.
      rewrite isRead_of_array, in_map_iff. split.
      * intros (p & E & Hin). destruct itemId as [n|q]; [discriminate E|].
        injection E as ->. exists q. split; [reflexivity | exact Hin].
      * intros (p & -> & Hin). exists p. split; [reflexivity | exact Hin].
Qed.

(** The theorem with nothing stored: the read set starts empty. *)
Lemma read_state_initialization_witness :
  @App1766840000.constructor RefHost.host ∅ = Normal (App1766840000.initial []).
Proof.
  destruct (@read_state_initialization RefHost.host ∅ "") as [Habsent _];
    [vm_compute; reflexivity|].
  apply Habsent. reflexivity.
Defined.

(** What is tolerated of a payload that is no array of identifiers: null,
    and an array of anything. The array below holds null, an object and the
    number 7: nothing is raised, and the article 7 is read. *)
Lemma read_state_of_null_and_arrays :
  @App1766840000.constructor RefHost.host (Sample.stored "null")
  = Normal (App1766840000.initial []) /\
  @App1766840000.constructor RefHost.host (Sample.stored "[null, {}, 7]")
  = Normal (App1766840000.initial [JNull; JObject []; JNumber 7]) /\
  App1766840000.isRead (IdNum 7)
    (App1766840000.initial [JNull; JObject []; JNumber 7]) = true /\
  App1766840000.isRead (IdNum 8)
    (App1766840000.initial [JNull; JObject []; JNumber 7]) = false.
Proof. vm_compute. repeat split; reflexivity. Qed.

(** C3 fails: the constructor catches nothing. The text [{oops] is not JSON
    and the constructor throws; the JSON number 7 is no array and the
    constructor throws; the JSON string "7" is no array and the read set
    starts as the set of its characters, so that the article whose id is the
    string 7 is read. *)
Lemma malformed_read_state_is_not_tolerated :
  @JSON_parse RefHost.host "{oops" = None /\
  @App1766840000.constructor RefHost.host (Sample.stored "{oops") = Throw SyntaxError /\
  @App1766840000.constructor RefHost.host (Sample.stored "7") = Throw TypeError /\
  @App1766840000.constructor RefHost.host (Sample.stored Sample.quoted7)
  = Normal (App1766840000.initial [JString "7"]) /\
  App1766840000.isRead (IdStr "7") (App1766840000.initial [JString "7"]) = true.
Proof. vm_compute. repeat split; reflexivity. Qed.

(** * The scenarios of the specification, run on the reference host *)

(** Under [today] the result is the article of today; under [all] both, the
    newer first; under [week] the ten-day-old article is left out. *)
Lemma scenario_today_week_all :
  map id (filteredItems
            (@App1766840000.applyFilters RefHost.host
               (Sample.mode "today" Sample.scenario) Sample.noon))
  = [IdNum 1] /\
  map id (filteredItems
            (@App1766840000.applyFilters RefHost.host
               (Sample.mode "all" Sample.scenario) Sample.noon))
  = [IdNum 1; IdNum 2] /\
  map id (filteredItems
            (@App1766840000.applyFilters RefHost.host
               (Sample.mode "week" Sample.scenario) Sample.noon))
  = [IdNum 1] /\
  map id (filteredItems
            (@App1766840000.applyFilters RefHost.host
               (Sample.mode "youtube" Sample.scenario) Sample.noon))
  = [IdNum 2].
Proof. vm_compute. repeat split; reflexivity. Qed.

(** The query "ai" finds "AI roundup" by its title, whatever the case. *)
Lemma scenario_search :
  map id (@App1766840000.filtered RefHost.host
            (@Common.handleSearchInput RefHost.host "ai" (Sample.mode "all" Sample.scenario))
            Sample.noon)
  = [IdNum 2] /\
  map id (@App1766840000.filtered RefHost.host
            (@Common.handleSearchInput RefHost.host "POLICY" (Sample.mode "all" Sample.scenario))
            Sample.noon)
  = [IdNum 2].
Proof. vm_compute. repeat split; reflexivity. Qed.

(** The read state survives a reload: what [markAsRead] stores, the
    constructor reads back. *)
Lemma scenario_read_state_reload :
  let w := @App1766840000.markAsRead RefHost.host (IdNum 7)
             (App1766840000.initial [], ∅) in
  w.2 !! "readItems" = Some "[7]" /\
  @App1766840000.constructor RefHost.host w.2
  = Normal (App1766840000.initial [JNumber 7]).
Proof. vm_compute. split; reflexivity. Qed.

(** * Further properties of the code *)

(** ** [applyFilters] as a whole *)

Section ApplyFilters.
Context `{Host}.

Lemma filterFrom_sublist_In (cb : Z -> Article -> bool) (clock : nat -> Z)
    (l : list Article) (i : nat) (a : Article) :
  In a (filterFrom cb clock i l) -> In a l.
Proof.
  intros Hin. apply filterFrom_In in Hin. destruct Hin as (k & Hk & _).
  eapply nth_error_In. exact Hk.
Qed.

Lemma filterFrom_length (cb : Z -> Article -> bool) (clock : nat -> Z)
    (l : list Article) :
  forall i, (length (filterFrom cb clock i l) <= length l)%nat.
Proof.
  induction l as [|a l IH]; intros i; simpl; [lia|].
  destruct (cb (clock i) a); simpl; specialize (IH (S i)); lia.
Qed.

Lemma filterFrom_NoDup (cb : Z -> Article -> bool) (clock : nat -> Z)
    (l : list Article) :
  List.NoDup l -> forall i, List.NoDup (filterFrom cb clock i l).
Proof.
  induction 1 as [|a l Ha _ IH]; intros i; simpl; [constructor|].
  destruct (cb (clock i) a); [|apply IH].
  constructor; [|apply IH].
  intros Hin. apply Ha. eapply filterFrom_sublist_In. exact Hin.
Qed.

End ApplyFilters.

(** X1. [applyFilters] of src/js/app.1766840000.js changes [filteredItems]
    and nothing else. The new list is a rearrangement of what the filter
    kept: every article in it is a loaded one, none is repeated unless the
    feed repeats it, and it is no longer than the feed. Run again at the same
    clock, it changes nothing. *)
Theorem applyFilters_is_a_view `{Host} (this : FeedSieve) (clock : nat -> Z) :
  Permutation (filteredItems (App1766840000.applyFilters this clock))
              (App1766840000.filtered this clock) /\
  (forall a, In a (filteredItems (App1766840000.applyFilters this clock)) ->
             In a (items this)) /\
  (List.NoDup (items this) ->
   List.NoDup (filteredItems (App1766840000.applyFilters this clock))) /\
  (length (filteredItems (App1766840000.applyFilters this clock))
   <= length (items this))%nat /\
  App1766840000.applyFilters this clock
  = set_filteredItems (filteredItems (App1766840000.applyFilters this clock)) this /\
  App1766840000.applyFilters (App1766840000.applyFilters this clock) clock
  = App1766840000.applyFilters this clock.
Proof.
  assert (Hp : Permutation (filteredItems (App1766840000.applyFilters this clock))
                           (App1766840000.filtered this clock))
    by apply Array_sort_Permutation.
  split; [exact Hp|]. split; [|split; [|split; [|split]]].
  - intros a Hin. apply (Permutation_in _ Hp) in Hin.
    eapply filterFrom_sublist_In. exact Hin.
  - intros Hnd. apply (Permutation_NoDup (Permutation_sym Hp)).
    apply filterFrom_NoDup, Hnd.
  - rewrite (Permutation_length Hp). apply filterFrom_length.
  - reflexivity.
  - reflexivity.
Qed.

(** ** Sorting by date *)

Section DateSort.
Context `{Host}.

Lemma Common_compareItems_date (this : FeedSieve) (l : list Article) :
  sortBy this <> "rating" ->
  Forall (fun a => is_Some (Spec.rank_time a)) l ->
  by_key (Common.compareItems this) Notion.rank_instant l.
Proof.
  intros Hs Hl x y Hx Hy. rewrite List.Forall_forall in Hl.
  destruct (Hl x Hx) as [tx Htx]. destruct (Hl y Hy) as [ty Hty].
  unfold sortCompare, Common.compareItems, Notion.rank_instant.
  rewrite (proj2 (String.eqb_neq _ _) Hs), !sortDateArg_rank_time, Htx, Hty.
  reflexivity.
Qed.

End DateSort.

(** X2. In any sort mode but [rating], [sortItems] of the four later copies
    puts the filtered articles latest first by effective date, an article
    with no date at the epoch, and leaves articles of the same instant in the
    order they had, provided every date that is there parses. *)
Theorem date_sort_latest_first `{Host} (this : FeedSieve) :
  sortBy this <> "rating" ->
  Forall (fun a => is_Some (Spec.rank_time a)) (filteredItems this) ->
  Notion.sorted_by_date (filteredItems this)
    (filteredItems (App1766840000.sortItems this)) /\
  App1766840000.sortItems this = SiteApp.sortItems this /\
  App1766840000.sortItems this = Part000.sortItems this /\
  App1766840000.sortItems this = SiteAppCat.sortItems this.
Proof.
  intros Hs Hl. split; [|repeat split; reflexivity].
  pose proof (Common_compareItems_date this _ Hs Hl) as Hk.
  repeat split.
  - apply Array_sort_Permutation.
  - apply Array_sort_sorted, Hk.
  - apply Array_sort_ties, Hk.
Qed.

(** The theorem at a feed of four, one of them without a date: it comes
    last. *)
Lemma date_sort_latest_first_witness :
  map id (filteredItems
            (@App1766840000.sortItems RefHost.host
               (set_filteredItems (rev Fixture.feed)
                  (Fixture.view "all" "" "date" Fixture.feed))))
  = [IdNum 1; IdNum 2; IdNum 3; IdNum 4] /\
  Notion.sorted_by_date (H := RefHost.host) (rev Fixture.feed)
    (filteredItems
       (@App1766840000.sortItems RefHost.host
          (set_filteredItems (rev Fixture.feed)
             (Fixture.view "all" "" "date" Fixture.feed)))).
Proof.
  split; [vm_compute; reflexivity|].
  apply (@date_sort_latest_first RefHost.host
           (set_filteredItems (rev Fixture.feed)
              (Fixture.view "all" "" "date" Fixture.feed))).
  - discriminate.
  - repeat constructor; eexists; vm_compute; reflexivity.
Defined.

(** ** Searching *)

Section SearchFacts.
Context `{Host}.

Lemma append_assoc' (a b c : string) : (a +:+ b) +:+ c = a +:+ (b +:+ c).
Proof.
  induction a as [|x a IH]; [reflexivity|].
  rewrite !append_String, IH. reflexivity.
Qed.

Lemma toLowerChar_idem (c : ascii) : toLowerChar (toLowerChar c) = toLowerChar c.
Proof. destruct c as [[] [] [] [] [] [] [] []]; reflexivity. Qed.

Lemma toLowerChar_ASCII (c : ascii) :
  (N_of_ascii (toLowerChar c) <? 128)%N = (N_of_ascii c <? 128)%N.
Proof. destruct c as [[] [] [] [] [] [] [] []]; reflexivity. Qed.

Lemma toLowerASCII_idem (s : string) : toLowerASCII (toLowerASCII s) = toLowerASCII s.
Proof.
  induction s as [|c s IH]; simpl; [reflexivity|].
  rewrite toLowerChar_idem, IH. reflexivity.
Qed.

Lemma toLowerASCII_app (a b : string) :
  toLowerASCII (a +:+ b) = toLowerASCII a +:+ toLowerASCII b.
Proof.
  induction a as [|x a IH]; [reflexivity|].
  rewrite append_String. simpl. rewrite IH. reflexivity.
Qed.

Lemma isASCII_toLowerASCII (s : string) : isASCII (toLowerASCII s) = isASCII s.
Proof.
  induction s as [|c s IH]; [reflexivity|].
  cbn [toLowerASCII isASCII]. rewrite toLowerChar_ASCII, IH. reflexivity.
Qed.

Lemma isASCII_app (a b : string) : isASCII (a +:+ b) = isASCII a && isASCII b.
Proof.
  induction a as [|x a IH]; [reflexivity|].
  rewrite append_String. cbn [isASCII]. rewrite IH, andb_assoc. reflexivity.
Qed.

(** On the ASCII range [toLowerCase] lowers letter by letter. *)
Lemma toLowerCase_ASCII (s : string) :
  isASCII s = true -> toLowerCase s = toLowerASCII s.
Proof. intros Hs. unfold toLowerCase. rewrite Hs. reflexivity. Qed.

Lemma substring_ASCII (p s : string) :
  Spec.substring p s -> isASCII s = true -> isASCII p = true.
Proof.
  intros (pre & suf & ->) Hs. rewrite !isASCII_app in Hs.
  apply andb_true_iff in Hs. destruct Hs as [_ Hs].
  apply andb_true_iff in Hs. apply Hs.
Qed.

Lemma substring_toLowerASCII (p s : string) :
  Spec.substring p s -> Spec.substring (toLowerASCII p) (toLowerASCII s).
Proof.
  intros (pre & suf & ->). exists (toLowerASCII pre), (toLowerASCII suf).
  rewrite !toLowerASCII_app. reflexivity.
Qed.

Lemma substring_trans (p q s : string) :
  Spec.substring p q -> Spec.substring q s -> Spec.substring p s.
Proof.
  intros (pre1 & suf1 & ->) (pre2 & suf2 & ->).
  exists (pre2 +:+ pre1), (suf1 +:+ suf2).
  rewrite !append_assoc'. reflexivity.
Qed.

Lemma substring_of_empty (p : string) :
  Spec.substring p EmptyString -> p = EmptyString.
Proof.
  intros (pre & suf & E). destruct pre; [|discriminate].
  destruct p; [reflexivity | discriminate].
Qed.

Lemma toLowerASCII_nonEmpty (s : string) : nonEmpty (toLowerASCII s) = nonEmpty s.
Proof. destruct s; reflexivity. Qed.

Lemma searchStage_narrows (this : FeedSieve) (q1 q2 : string) (a : Article) :
  isASCII q2 = true ->
  Spec.substring q1 q2 ->
  Common.searchStage (Common.handleSearchInput q2 this) a = true ->
  Common.searchStage (Common.handleSearchInput q1 this) a = true.
Proof.
  intros H2a Hsub. pose proof (substring_ASCII q1 q2 Hsub H2a) as H1a.
  unfold Common.searchStage, Common.handleSearchInput.
  cbn [searchQuery set_searchQuery].
  rewrite (toLowerCase_ASCII q1 H1a), (toLowerCase_ASCII q2 H2a).
  rewrite !toLowerASCII_nonEmpty.
  destruct (nonEmpty q1) eqn:H1; [|reflexivity].
  destruct (nonEmpty q2) eqn:H2.
  - rewrite !includes_spec. apply substring_trans, substring_toLowerASCII, Hsub.
  - destruct q2; [|discriminate]. apply substring_of_empty in Hsub.
    subst q1. discriminate.
Qed.

(** The callback, the search stage set apart (src/js/app.1766840000.js). *)
Lemma App_filterCallback_search (this : FeedSieve) (q : string) (now : Z) (a : Article) :
  App1766840000.filterCallback (Common.handleSearchInput q this) now a
  = Common.temporalStage this now a
    && Common.typeStage App1766840000.knownTypes this a
    && Common.sourceStage this a && Common.categoryStage this a
    && Common.searchStage (Common.handleSearchInput q this) a.
Proof. reflexivity. Qed.

End SearchFacts.

(** X3. Typing more never adds results, for a query of the ASCII range:
    when a query is a substring of a longer one, every article the filter
    keeps for the longer query it keeps for the shorter one, whatever the
    mode and whatever the text of the article (src/js/app.1766840000.js; the
    search stage is the same in the other copies). The case of such a query
    does not matter. Beyond ASCII the lowering of a string is the engine's
    and depends on what surrounds a letter. *)
Theorem search_narrows_results `{Host}
    (this : FeedSieve) (q1 q2 : string) (clock : nat -> Z) (a : Article) :
  isASCII q2 = true ->
  Spec.substring q1 q2 ->
  (In a (App1766840000.filtered (Common.handleSearchInput q2 this) clock) ->
   In a (App1766840000.filtered (Common.handleSearchInput q1 this) clock)) /\
  Common.handleSearchInput (toLowerCase q1) this = Common.handleSearchInput q1 this.
Proof.
  intros Hascii Hsub. split.
  - unfold App1766840000.filtered. rewrite !filterFrom_In.
    intros (k & Hk & Hcb). exists k. split; [exact Hk|].
    rewrite App_filterCallback_search in *.
    apply andb_true_iff in Hcb. destruct Hcb as [Hrest Hs].
    apply andb_true_iff. split; [exact Hrest|].
    exact (searchStage_narrows this q1 q2 a Hascii Hsub Hs).
  - pose proof (substring_ASCII q1 q2 Hsub Hascii) as H1.
    unfold Common.handleSearchInput.
    rewrite (toLowerCase_ASCII q1 H1).
    rewrite (toLowerCase_ASCII (toLowerASCII q1))
      by (rewrite isASCII_toLowerASCII; exact H1).
    rewrite toLowerASCII_idem. reflexivity.
Qed.

(** The theorem at the queries "Model" and "Model W": the article found by
    the longer one is found by the shorter one. *)
Lemma search_narrows_results_witness :
  In (Sample.labelled 2 ["AI"])
     (@App1766840000.filtered RefHost.host
        (@Common.handleSearchInput RefHost.host "Model"
           (Fixture.view "all" "" "date" [Sample.bare 1; Sample.labelled 2 ["AI"]]))
        Fixture.noon).
Proof.
  apply (@search_narrows_results RefHost.host
           (Fixture.view "all" "" "date" [Sample.bare 1; Sample.labelled 2 ["AI"]])
           "Model" "Model W" Fixture.noon (Sample.labelled 2 ["AI"])).
  - reflexivity.
  - exists "", " W". reflexivity.
  - vm_compute. left. reflexivity.
Defined.

(** ** The category index, entry by entry *)

Section CategoryIndex.

Lemma label_total_zero (label : string) (its : list Article) :
  Spec.label_total label its = 0 <->
  forall a, In a its -> ~ In label (Spec.labels_of a).
Proof.
  unfold Spec.label_total. split.
  - intros H0 a Ha Hl.
    assert (Hin : In label (concat (map Spec.labels_of its))).
    { apply in_concat. exists (Spec.labels_of a). split; [|exact Hl].
      apply in_map. exact Ha. }
    apply occurrences_present in Hin. lia.
  - intros Hn. apply occurrences_absent. intros Hin.
    apply in_concat in Hin. destruct Hin as (ls & Hls & Hl).
    apply in_map_iff in Hls. destruct Hls as (a & <- & Ha).
    exact (Hn a Ha Hl).
Qed.

End CategoryIndex.

(** X4. The category index, entry by entry, [Object.prototype] being as
    the engine makes it. In src/js/app.1766840000.js a label has an entry
    exactly when some loaded article lists it and it is no name every object
    inherits (constructor, toString, ...); the entry then counts how often
    the label is listed over the feed, at least once, and carries the icon
    of the table, or the tag icon for a label the table does not know. In
    the second document of src/site/js/app.js the index holds the same
    count under a label that is no such name; under such a name it holds
    NaN after the first listing and one less than the number of listings
    after that, and nothing at all under [__proto__]. *)
Theorem category_index_entries (its : list Article) (label : string) :
  App1766840000.buildCategoryIndex its !! label
  = Notion.category_entry label (Spec.label_total label its) /\
  SiteAppCat.buildCategoryIndex its !! label
  = Notion.category_count label (Spec.label_total label its) /\
  (inherited label = false ->
   App1766840000.buildCategoryIndex its !! label
   = (if Spec.label_total label its =? 0 then None
      else Some {| count := Spec.label_total label its;
                   icon := Notion.icon_of label |}) /\
   SiteAppCat.buildCategoryIndex its !! label
   = (if Spec.label_total label its =? 0 then None
      else Some (Some (Spec.label_total label its)))) /\
  (inherited label = true ->
   App1766840000.buildCategoryIndex its !! label = None) /\
  (Spec.label_total label its = 0 <->
   forall a, In a its -> ~ In label (Spec.labels_of a)) /\
  0 <= Spec.label_total label its.
Proof.
  rewrite App_buildCategoryIndex_lookup, Site_buildCategoryIndex_lookup.
  split; [reflexivity|]. split; [reflexivity|].
  unfold Notion.category_entry, Notion.category_count.
  split; [|split; [|split]].
  - intros ->. split; reflexivity.
  - intros ->. reflexivity.
  - apply label_total_zero.
  - apply occurrences_nonneg.
Qed.

(** A feed that lists the label constructor twice and the label AI once. *)
Lemma category_index_of_inherited_names :
  let its := [Sample.labelled 1 ["constructor"; "AI"]; Sample.labelled 2 ["constructor"]] in
  App1766840000.buildCategoryIndex its !! "constructor" = None /\
  countOf (App1766840000.buildCategoryIndex its) "AI" = 1 /\
  SiteAppCat.buildCategoryIndex its !! "constructor" = Some (Some 1) /\
  SiteAppCat.buildCategoryIndex [Sample.labelled 1 ["constructor"; "AI"]] !! "constructor"
  = Some None /\
  SiteAppCat.buildCategoryIndex its !! "AI" = Some (Some 1).
Proof. vm_compute. repeat split; reflexivity. Qed.

(** ** The source index, entry by entry *)

Section SourceIndex.
Context `{Host}.

(** The entry of a source, from the articles of the feed: those of the
    source make it, in load order; a source id that names a property every
    object inherits gets none. *)
Lemma indexItem_entry (m : gmap string (gmap string Index.Entry)) (a : Article)
    (type sourceId : string) :
  inherited (Notion.type_of a) = false ->
  is_Some (Index.indexItem m a) /\
  Index.entry (Index.indexItem m a) type sourceId
  = if Notion.of_source type sourceId a
    then match Index.entry (Some m) type sourceId with
         | Some e => Some {| Index.name := Index.name e;
                             Index.count := Index.count e + 1 |}
         | None => if inherited sourceId then None
                   else Some {| Index.name := Notion.source_name_of a;
                                Index.count := 1 |}
         end
    else Index.entry (Some m) type sourceId.
Proof.
  intros Hown. unfold Index.indexItem, Notion.of_source.
  fold (Notion.type_of a). fold (Notion.source_name_of a). rewrite Hown.
  split; [eexists; reflexivity|].
  unfold Index.entry.
  set (ta := Notion.type_of a). set (ia := String_ (source_id a)).
  destruct (String.eqb_spec ta type) as [<-|Ht].
  - rewrite lookup_insert_eq. cbn [andb].
    destruct (String.eqb_spec ia sourceId) as [<-|Hi].
    + rewrite lookup_alter_eq. destruct (m !! ta) as [ofType|] eqn:Hm.
      * rewrite Hm.
        destruct (ofType !! ia) as [e|] eqn:He.
        -- rewrite He. reflexivity.
        -- destruct (inherited ia); [rewrite He; reflexivity|].
           rewrite lookup_insert_eq. reflexivity.
      * rewrite lookup_insert_eq. rewrite lookup_empty.
        destruct (inherited ia); [rewrite lookup_empty; reflexivity|].
        rewrite lookup_insert_eq. reflexivity.
    + rewrite lookup_alter_ne by exact Hi. destruct (m !! ta) as [ofType|] eqn:Hm.
      * rewrite Hm.
        destruct (ofType !! ia) as [e|] eqn:He; [reflexivity|].
        destruct (inherited ia); [reflexivity|].
        rewrite lookup_insert_ne by exact Hi. reflexivity.
      * rewrite lookup_insert_eq. rewrite lookup_empty.
        destruct (inherited ia); [apply lookup_empty|].
        rewrite lookup_insert_ne by exact Hi. apply lookup_empty.
  - cbn [andb]. rewrite lookup_insert_ne by exact Ht.
    destruct (m !! ta) as [ofType|] eqn:Hm; [reflexivity|].
    rewrite lookup_insert_ne by exact Ht. reflexivity.
Qed.

Lemma foldl_step_None (l : list Article) : foldl Index.step None l = None.
Proof. induction l as [|b l IH]; [reflexivity | exact IH]. Qed.

Lemma foldl_indexItem_entry (l pre : list Article)
    (m : gmap string (gmap string Index.Entry)) (type sourceId : string) :
  (forall a, In a l -> inherited (Notion.type_of a) = false) ->
  Index.entry (Some m) type sourceId = Notion.source_entry type sourceId pre ->
  is_Some (foldl Index.step (Some m) l) /\
  Index.entry (foldl Index.step (Some m) l) type sourceId = Notion.source_entry type sourceId (pre ++ l).
Proof.
  revert pre m. induction l as [|b l IH]; intros pre m Hown Hm.
  - rewrite app_nil_r. split; [eexists; reflexivity | exact Hm].
  - cbn [foldl Index.step]. change (pre ++ b :: l) with (pre ++ [b] ++ l).
    rewrite app_assoc.
    destruct (indexItem_entry m b type sourceId (Hown b (or_introl eq_refl)))
      as [[m1 Hm1] He].
    rewrite Hm1 in *. apply IH; [intros a Ha; apply Hown; right; exact Ha|].
    rewrite He, Hm. unfold Notion.source_entry. rewrite List.filter_app. cbn [List.filter].
    destruct (Notion.of_source type sourceId b).
    + destruct (inherited sourceId); [reflexivity|].
      destruct (List.filter (Notion.of_source type sourceId) pre) as [|a ms].
      * reflexivity.
      * cbn [app Index.name Index.count]. do 2 f_equal.
        cbn [length]. rewrite length_app. cbn [length]. lia.
    + rewrite app_nil_r. reflexivity.
Qed.

Lemma foldl_step_inherited (l : list Article)
    (acc : option (gmap string (gmap string Index.Entry))) (a : Article) :
  In a l -> inherited (Notion.type_of a) = true -> foldl Index.step acc l = None.
Proof.
  revert acc. induction l as [|b l IH]; intros acc Hin Hi; [destruct Hin|].
  cbn [foldl]. destruct Hin as [->|Hin]; [|apply IH; assumption].
  destruct acc as [m|]; cbn [Index.step]; [|apply foldl_step_None].
  unfold Index.indexItem. fold (Notion.type_of a). rewrite Hi. apply foldl_step_None.
Qed.

(** The index is followed exactly on the feeds in which no type names a
    property every object inherits, and there it holds the entries the
    articles make. *)
Lemma buildSourceIndex_followed (its : list Article) :
  is_Some (Index.buildSourceIndex its) <->
  forall a, In a its -> inherited (Notion.type_of a) = false.
Proof.
  split.
  - intros [m Hm] a Ha. destruct (inherited (Notion.type_of a)) eqn:Hi; [|reflexivity].
    unfold Index.buildSourceIndex in Hm.
    rewrite (foldl_step_inherited its (Some ∅) a Ha Hi) in Hm. discriminate Hm.
  - intros Hown.
    apply (foldl_indexItem_entry its [] ∅ EmptyString EmptyString Hown).
    unfold Index.entry, Notion.source_entry. rewrite lookup_empty. cbn [List.filter].
    destruct (inherited EmptyString); reflexivity.
Qed.

Lemma buildSourceIndex_entry (its : list Article) (type sourceId : string) :
  (forall a, In a its -> inherited (Notion.type_of a) = false) ->
  Index.entry (Index.buildSourceIndex its) type sourceId = Notion.source_entry type sourceId its.
Proof.
  intros Hown.
  apply (foldl_indexItem_entry its [] ∅ type sourceId Hown).
  unfold Index.entry, Notion.source_entry. rewrite lookup_empty. cbn [List.filter].
  destruct (inherited sourceId); reflexivity.
Qed.

End SourceIndex.

(** X5. The source index, entry by entry (part_000 and the two later
    copies), [Object.prototype] being as the engine makes it. The index is
    followed on the feeds in which no article has a type that names a
    property every object inherits (constructor, toString, ...). On them a
    source, that is a type and an id in its string form, has an entry
    exactly when the id is no such name and some loaded article is of that
    type (rss when it has none) and has that id; the entry counts those
    articles and carries the source name of the first of them in load
    order, "Unknown" when that article has none. Later articles of the
    source do not change the name. *)
Theorem source_index_entries `{Host} (its : list Article) (type sourceId : string) :
  (is_Some (Index.buildSourceIndex its) <->
   forall a, In a its -> inherited (Notion.type_of a) = false) /\
  ((forall a, In a its -> inherited (Notion.type_of a) = false) ->
   Index.entry (Index.buildSourceIndex its) type sourceId
   = if inherited sourceId then None
     else match List.filter (Notion.of_source type sourceId) its with
          | [] => None
          | a :: ms => Some {| Index.name := Notion.source_name_of a;
                               Index.count := Z.of_nat (length (a :: ms)) |}
          end).
Proof.
  split; [apply buildSourceIndex_followed | apply buildSourceIndex_entry].
Qed.

(** The index of the sample feed: the rss source 42 has two articles, one of
    them without a type, and the name of the first; the youtube source 42
    is another entry; the article without a source id is filed under
    "undefined". A source whose id is the word constructor gets no entry,
    and a feed with an article of the type constructor is not followed. *)
Lemma source_index_of_the_sample :
  Index.entry (@Index.buildSourceIndex RefHost.host Fixture.feed) "rss" "42"
  = Some {| Index.name := "Alpha"; Index.count := 2 |} /\
  Index.entry (@Index.buildSourceIndex RefHost.host Fixture.feed) "youtube" "42"
  = Some {| Index.name := "Beta"; Index.count := 1 |} /\
  Index.entry (@Index.buildSourceIndex RefHost.host Fixture.feed) "blog" "undefined"
  = Some {| Index.name := "Unknown"; Index.count := 1 |} /\
  Index.entry (@Index.buildSourceIndex RefHost.host Fixture.feed) "rss" "7" = None /\
  Index.entry
    (@Index.buildSourceIndex RefHost.host
       [Fixture.post 1 (Some "rss") (Some (IdStr "constructor")) None None])
    "rss" "constructor" = None /\
  @Index.buildSourceIndex RefHost.host
    [Fixture.post 1 (Some "constructor") (Some (IdNum 42)) None None] = None.
Proof. vm_compute. repeat split; reflexivity. Qed.

Section SourceCount.
Context `{Host}.



End SourceCount.



(** ** The counters of the sidebar *)

Section Counters.
Context `{Host}.

Lemma bump_lookup (cond : bool) (key k : string) (c : gmap string Z) :
  (if cond then alter (fun n => n + 1) key c else c) !! k
  = (fun v => v + (if cond && String.eqb key k then 1 else 0)) <$> c !! k.
Proof.
  destruct cond; cbn [andb].
  - destruct (String.eqb_spec key k) as [->|Hne].
    + rewrite lookup_alter_eq. destruct (c !! k); reflexivity.
    + rewrite lookup_alter_ne by exact Hne.
      destruct (c !! k); cbn; [f_equal; lia | reflexivity].
  - destruct (c !! k); cbn; [f_equal; lia | reflexivity].
Qed.

Lemma bump_known_lookup (key k : string) (c : gmap string Z) :
  (if bool_decide (is_Some (c !! key)) then alter (fun n => n + 1) key c else c) !! k
  = (fun v => v + (if String.eqb key k then 1 else 0)) <$> c !! k.
Proof.
  destruct (bool_decide (is_Some (c !! key))) eqn:Hd.
  - apply (bump_lookup true).
  - apply bool_decide_eq_false in Hd.
    destruct (String.eqb_spec key k) as [->|Hne].
    + destruct (c !! k) as [v|]; [|reflexivity].
      exfalso. apply Hd. eexists. reflexivity.
    + destruct (c !! k); cbn; [f_equal; lia | reflexivity].
Qed.

(** What one article adds to the counter [k]: one as an article of type [k],
    one as an article of today when [k] is "today", one as an article of the
    week when [k] is "week". *)
Lemma countItem_lookup (nt nw : Z) (c : gmap string Z) (a : Article) (k : string) :
  Index.countItem nt nw c a !! k
  = (fun v => v + (if String.eqb (Notion.type_of a) k then 1 else 0)
               + (if isToday nt (Common.itemDate a) && String.eqb "today" k
                  then 1 else 0)
               + (if isThisWeek nw (Common.itemDate a) && String.eqb "week" k
                  then 1 else 0)) <$> c !! k.
Proof.
  unfold Index.countItem. fold (Notion.type_of a). fold (Common.itemDate a).
  cbv zeta. rewrite bump_lookup, bump_lookup, bump_known_lookup.
  destruct (c !! k); reflexivity.
Qed.

Lemma countFrom_steady (clock : nat -> Z) (now : Z) (l : list Article) :
  (forall i, clock i = now) ->
  forall i c, Index.countFrom clock i c l = foldl (Index.countItem now now) c l.
Proof.
  intros Hc. induction l as [|a l IH]; intros i c; cbn [Index.countFrom foldl].
  - reflexivity.
  - rewrite !Hc. apply IH.
Qed.

Lemma foldl_countItem_lookup (now : Z) (l : list Article) (c : gmap string Z)
    (k : string) :
  foldl (Index.countItem now now) c l !! k
  = (fun v =>
       v + Z.of_nat (length (List.filter
                               (fun a => String.eqb (Notion.type_of a) k) l))
         + Z.of_nat (length (List.filter
                               (fun a => isToday now (Common.itemDate a)
                                         && String.eqb "today" k) l))
         + Z.of_nat (length (List.filter
                               (fun a => isThisWeek now (Common.itemDate a)
                                         && String.eqb "week" k) l)))
    <$> c !! k.
Proof.
  revert c. induction l as [|a l IH]; intros c; cbn [foldl List.filter].
  - destruct (c !! k); cbn; [f_equal; lia | reflexivity].
  - rewrite IH, countItem_lookup.
    destruct (c !! k) as [v|]; [|reflexivity]. cbn [fmap option_fmap option_map].
    f_equal.
    destruct (String.eqb (Notion.type_of a) k);
      destruct (isToday now (Common.itemDate a) && String.eqb "today" k);
      destruct (isThisWeek now (Common.itemDate a) && String.eqb "week" k);
      cbn [length]; lia.
Qed.

Lemma initialCounts_lookup (n : Z) (types : list string) (k : string) :
  Index.initialCounts n types !! k
  = if existsb (String.eqb k) types then Some 0
    else if String.eqb k "week" then Some 0
    else if String.eqb k "today" then Some 0
    else if String.eqb k "all" then Some n
    else None.
Proof.
  unfold Index.initialCounts. induction types as [|t types IH]; cbn [foldr existsb].
  - destruct (String.eqb_spec k "week") as [->|Hw]; [apply lookup_insert_eq|].
    rewrite lookup_insert_ne by congruence.
    destruct (String.eqb_spec k "today") as [->|Ht]; [apply lookup_insert_eq|].
    rewrite lookup_insert_ne by congruence.
    destruct (String.eqb_spec k "all") as [->|Ha]; [apply lookup_insert_eq|].
    rewrite lookup_insert_ne by congruence. apply lookup_empty.
  - destruct (String.eqb_spec k t) as [->|Hne]; cbn [orb].
    + apply lookup_insert_eq.
    + rewrite lookup_insert_ne by congruence. exact IH.
Qed.

Lemma filterFrom_steady (cb : Z -> Article -> bool) (clock : nat -> Z) (now : Z)
    (l : list Article) :
  (forall i, clock i = now) ->
  forall i, filterFrom cb clock i l = List.filter (cb now) l.
Proof.
  intros Hc. induction l as [|a l IH]; intros i; cbn [filterFrom List.filter].
  - reflexivity.
  - rewrite Hc, IH. reflexivity.
Qed.

Lemma filter_false_length {A : Type} (f : A -> bool) (l : list A) :
  (forall a, f a = false) -> length (List.filter f l) = 0%nat.
Proof.
  intros Hf. induction l as [|a l IH]; cbn [List.filter]; [reflexivity|].
  rewrite Hf. exact IH.
Qed.

(** The callback under a mode, with the search box empty. *)
Lemma App_callback_in_mode (this : FeedSieve) (f : string) (now : Z) (a : Article) :
  App1766840000.filterCallback
    (set_searchQuery "" (Common.handleFilterClick f this)) now a
  = (if String.eqb f "today" then isToday now (Common.itemDate a)
     else if String.eqb f "week" then isThisWeek now (Common.itemDate a)
     else true)
    && (if Array_includes App1766840000.knownTypes f
        then String.eqb (Notion.type_of a) f else true).
Proof.
  unfold App1766840000.filterCallback, Common.temporalStage, Common.typeStage,
    Common.sourceStage, Common.categoryStage, Common.searchStage.
  cbn [currentFilter currentSource currentCategory searchQuery set_searchQuery
       Common.handleFilterClick set_currentCategory set_currentSource
       set_currentFilter truthy nonEmpty].
  rewrite andb_false_r.
  destruct (String.eqb f "source"); rewrite !andb_true_r; reflexivity.
Qed.

End Counters.

(** X7. The counters of the sidebar against the lists (src/js/app.1766840000.js,
    the clock read as one instant, the search box empty). The counter of a
    type is the length of the list a click on that type gives. The counters
    of today and of the week are the lengths of those lists, plus the number
    of articles whose [source_type] is the word "today", or "week": the
    counter of an article's type is raised whenever the counters have a key
    of that name. The counter of all is the length of the feed, plus the
    number of articles whose [source_type] is "all". *)
Theorem sidebar_counters `{Host} (this : FeedSieve) (clock : nat -> Z) (now : Z) :
  (forall i, clock i = now) ->
  (forall t, In t App1766840000.knownTypes ->
     Index.updateCounts App1766840000.knownTypes (items this) clock !! t
     = Some (Z.of_nat (length (App1766840000.filtered
                                 (set_searchQuery "" (Common.handleFilterClick t this))
                                 clock)))) /\
  Index.updateCounts App1766840000.knownTypes (items this) clock !! "today"
  = Some (Z.of_nat (length (App1766840000.filtered
                              (set_searchQuery "" (Common.handleFilterClick "today" this))
                              clock))
          + Z.of_nat (length (List.filter
                                (fun a => String.eqb (Notion.type_of a) "today")
                                (items this)))) /\
  Index.updateCounts App1766840000.knownTypes (items this) clock !! "week"
  = Some (Z.of_nat (length (App1766840000.filtered
                              (set_searchQuery "" (Common.handleFilterClick "week" this))
                              clock))
          + Z.of_nat (length (List.filter
                                (fun a => String.eqb (Notion.type_of a) "week")
                                (items this)))) /\
  Index.updateCounts App1766840000.knownTypes (items this) clock !! "all"
  = Some (Z.of_nat (length (items this))
          + Z.of_nat (length (List.filter
                                (fun a => String.eqb (Notion.type_of a) "all")
                                (items this)))).
Proof.
  intros Hc.
  assert (Hlist : forall f,
            App1766840000.filtered
              (set_searchQuery "" (Common.handleFilterClick f this)) clock
            = List.filter
                (fun a =>
                   (if String.eqb f "today" then isToday now (Common.itemDate a)
                    else if String.eqb f "week" then isThisWeek now (Common.itemDate a)
                    else true)
                   && (if Array_includes App1766840000.knownTypes f
                       then String.eqb (Notion.type_of a) f else true))
                (items this)).
  { intros f. unfold App1766840000.filtered.
    rewrite (filterFrom_steady _ clock now _ Hc).
    apply List.filter_ext. intros a. apply App_callback_in_mode. }
  assert (Hcount : forall k,
            Index.updateCounts App1766840000.knownTypes (items this) clock !! k
            = (fun v =>
                 v + Z.of_nat (length (List.filter
                                         (fun a => String.eqb (Notion.type_of a) k)
                                         (items this)))
                   + Z.of_nat (length (List.filter
                                         (fun a => isToday now (Common.itemDate a)
                                                   && String.eqb "today" k)
                                         (items this)))
                   + Z.of_nat (length (List.filter
                                         (fun a => isThisWeek now (Common.itemDate a)
                                                   && String.eqb "week" k)
                                         (items this))))
              <$> Index.initialCounts (Z.of_nat (length (items this)))
                    App1766840000.knownTypes !! k).
  { intros k. unfold Index.updateCounts.
    rewrite (countFrom_steady clock now _ Hc). apply foldl_countItem_lookup. }
  split; [|split; [|split]].
  - intros t Ht. rewrite Hcount, initialCounts_lookup, Hlist.
    unfold App1766840000.knownTypes in Ht. cbn [In] in Ht.
    destruct Ht as [<- | [<- | [<- | [<- | []]]]];
      cbn [existsb App1766840000.knownTypes Array_includes String.eqb Ascii.eqb
           Bool.eqb orb andb fmap option_fmap option_map];
      rewrite (filter_false_length
                 (fun a => isToday now (Common.itemDate a) && false))
        by (intros a; apply andb_false_r);
      rewrite (filter_false_length
                 (fun a => isThisWeek now (Common.itemDate a) && false))
        by (intros a; apply andb_false_r);
      f_equal; lia.
  - rewrite Hcount, initialCounts_lookup, Hlist.
    cbn [existsb App1766840000.knownTypes Array_includes String.eqb Ascii.eqb
         Bool.eqb orb andb fmap option_fmap option_map].
    rewrite (filter_false_length
               (fun a => isThisWeek now (Common.itemDate a) && false))
      by (intros a; apply andb_false_r).
    f_equal. lia.
  - rewrite Hcount, initialCounts_lookup, Hlist.
    cbn [existsb App1766840000.knownTypes Array_includes String.eqb Ascii.eqb
         Bool.eqb orb andb fmap option_fmap option_map].
    rewrite (filter_false_length
               (fun a => isToday now (Common.itemDate a) && false))
      by (intros a; apply andb_false_r).
    f_equal. lia.
  - rewrite Hcount, initialCounts_lookup.
    cbn [existsb App1766840000.knownTypes String.eqb Ascii.eqb
         Bool.eqb orb andb fmap option_fmap option_map].
    rewrite (filter_false_length
               (fun a => isToday now (Common.itemDate a) && false))
      by (intros a; apply andb_false_r).
    rewrite (filter_false_length
               (fun a => isThisWeek now (Common.itemDate a) && false))
      by (intros a; apply andb_false_r).
    f_equal. lia.
Qed.

(** The theorem at the sample feed at noon of 2 March 2024: one article of
    today, two rss articles, one of them without a type. *)
Lemma sidebar_counters_witness :
  @Index.updateCounts RefHost.host App1766840000.knownTypes
    (items (Fixture.view "today" "" "date" Fixture.feed)) Fixture.noon !! "today"
  = Some (Z.of_nat (length (@App1766840000.filtered RefHost.host
                              (set_searchQuery ""
                                 (Common.handleFilterClick "today"
                                    (Fixture.view "today" "" "date" Fixture.feed)))
                              Fixture.noon))
          + Z.of_nat (length (List.filter
                                (fun a => String.eqb (Notion.type_of a) "today")
                                (items (Fixture.view "today" "" "date" Fixture.feed))))) /\
  @Index.updateCounts RefHost.host App1766840000.knownTypes Fixture.feed Fixture.noon
    !! "today" = Some 1 /\
  @Index.updateCounts RefHost.host App1766840000.knownTypes Fixture.feed Fixture.noon
    !! "week" = Some 2 /\
  @Index.updateCounts RefHost.host App1766840000.knownTypes Fixture.feed Fixture.noon
    !! "rss" = Some 2 /\
  @Index.updateCounts RefHost.host App1766840000.knownTypes Fixture.feed Fixture.noon
    !! "all" = Some 4.
Proof.
  split.
  - apply (@sidebar_counters RefHost.host (Fixture.view "today" "" "date" Fixture.feed)
             Fixture.noon 1709380800000).
    intros i. reflexivity.
  - vm_compute. repeat split; reflexivity.
Defined.

(** An article whose [source_type] is the word "today" raises the counter
    of today, whatever its date: the counter says 1 and the list is empty. *)
Lemma counter_of_today_counts_the_type_today :
  @Index.updateCounts RefHost.host App1766840000.knownTypes
    [Fixture.post 1 (Some "today") None None (Some "2020-01-01")] Fixture.noon
    !! "today" = Some 1 /\
  @App1766840000.filtered RefHost.host
    (Fixture.view "today" "" "date"
       [Fixture.post 1 (Some "today") None None (Some "2020-01-01")])
    Fixture.noon = [].
Proof. vm_compute. split; reflexivity. Qed.

(** ** Today and the week *)

Section TodayWeek.
Context `{Host}.

Lemma same_day_within_three_days (t now : Z) :
  (forall x, - msPerDay <= tzOffset x <= msPerDay) ->
  localDay t = localDay now ->
  now - 3 * msPerDay < t < now + 3 * msPerDay.
Proof.
  intros Hb. unfold localDay. intros Hq.
  pose proof (Hb t) as Ht. pose proof (Hb now) as Hn.
  assert (Hd : 0 < msPerDay) by reflexivity.
  pose proof (Z.mul_div_le (t + tzOffset t) msPerDay Hd) as H1.
  pose proof (Z.mul_succ_div_gt (t + tzOffset t) msPerDay Hd) as H2.
  pose proof (Z.mul_div_le (now + tzOffset now) msPerDay Hd) as H3.
  pose proof (Z.mul_succ_div_gt (now + tzOffset now) msPerDay Hd) as H4.
  rewrite Hq in H1, H2.
  set (q := (now + tzOffset now) / msPerDay) in *.
  lia.
Qed.

Lemma isToday_isThisWeek (now : Z) (v : option string) :
  (forall x, - msPerDay <= tzOffset x <= msPerDay) ->
  isToday now v = true -> isThisWeek now v = true.
Proof.
  intros Hb Ht. apply isToday_spec in Ht. destruct Ht as (s & t & Hs & Hp & Hd).
  apply isThisWeek_spec. exists s, t. split; [exact Hs|]. split; [exact Hp|].
  pose proof (same_day_within_three_days t now Hb Hd) as Hr.
  unfold msPerDay in Hr. lia.
Qed.

End TodayWeek.

(** X8. Where the local time is within a day of UTC, as it is in every time
    zone, an article listed under Today is listed under This Week (same
    clock, same search), in the three copies with these lists. *)
Theorem today_is_within_the_week `{Host}
    (this : FeedSieve) (clock : nat -> Z) (a : Article) :
  (forall x, - msPerDay <= tzOffset x <= msPerDay) ->
  (In a (App1766840000.filtered (set_currentFilter "today" this) clock) ->
   In a (App1766840000.filtered (set_currentFilter "week" this) clock)) /\
  (In a (SiteAppCat.filtered (set_currentFilter "today" this) clock) ->
   In a (SiteAppCat.filtered (set_currentFilter "week" this) clock)) /\
  (In a (Part000.filtered (set_currentFilter "today" this) clock) ->
   In a (Part000.filtered (set_currentFilter "week" this) clock)).
Proof.
  intros Hb.
  assert (Hstage : forall now x,
            Common.temporalStage (set_currentFilter "today" this) now x = true ->
            Common.temporalStage (set_currentFilter "week" this) now x = true).
  { intros now x. unfold Common.temporalStage.
    cbn [currentFilter set_currentFilter String.eqb Ascii.eqb Bool.eqb].
    apply isToday_isThisWeek, Hb. }
  assert (Htype : forall types x,
            ~ In "today" types -> ~ In "week" types ->
            Common.typeStage types (set_currentFilter "today" this) x
            = Common.typeStage types (set_currentFilter "week" this) x).
  { intros types x Ht Hw.
    rewrite !typeStage_other; [reflexivity | exact Hw | exact Ht]. }
  unfold App1766840000.filtered, SiteAppCat.filtered, Part000.filtered.
  rewrite !filterFrom_In.
  split; [|split]; intros (k & Hk & Hcb); exists k; (split; [exact Hk|]).
  - unfold App1766840000.filterCallback in *.
    rewrite !andb_true_iff in Hcb. destruct Hcb as ((((H1 & H2) & H3) & H4) & H5).
    rewrite (Hstage _ _ H1).
    rewrite <- (Htype App1766840000.knownTypes a), H2
      by (cbn; intuition discriminate).
    exact H5.
  - unfold SiteAppCat.filterCallback in *.
    rewrite !andb_true_iff in Hcb. destruct Hcb as ((((H1 & H2) & H3) & H4) & H5).
    rewrite (Hstage _ _ H1).
    rewrite <- (Htype SiteAppCat.knownTypes a), H2
      by (cbn; intuition discriminate).
    exact H5.
  - unfold Part000.filterCallback in *.
    rewrite !andb_true_iff in Hcb. destruct Hcb as (((H1 & H2) & H3) & H5).
    rewrite (Hstage _ _ H1).
    rewrite <- (Htype Part000.knownTypes a), H2
      by (cbn; intuition discriminate).
    exact H5.
Qed.

(** The theorem on the reference host, whose local time is UTC: the article
    of today in the sample feed is in the list of the week. *)
Lemma today_is_within_the_week_witness :
  In (Fixture.post 1 (Some "rss") (Some (IdNum 42)) (Some "Alpha")
        (Some "2024-03-02T09:00:00Z"))
     (@App1766840000.filtered RefHost.host
        (set_currentFilter "week" (Fixture.view "all" "" "date" Fixture.feed))
        Fixture.noon).
Proof.
  apply (@today_is_within_the_week RefHost.host
           (Fixture.view "all" "" "date" Fixture.feed) Fixture.noon).
  - intros x. vm_compute. split; discriminate.
  - vm_compute. left. reflexivity.
Defined.

(** ** The read set: what the operations leave alone *)

Section ReadSetFrame.
Context `{Host}.

Lemma sameValueZero_ident_eq (i : ident) (z : json) :
  sameValueZero (json_of_ident i) z = true -> z = json_of_ident i.
Proof.
  destruct i as [n|s]; destruct z; cbn; try discriminate.
  - intros E. apply Z.eqb_eq in E. congruence.
  - intros E. apply String.eqb_eq in E. congruence.
Qed.

Lemma sameValueZero_ident_ne (i j : ident) :
  i <> j -> sameValueZero (json_of_ident j) (json_of_ident i) = false.
Proof.
  intros Hne. apply not_true_is_false. intros E.
  apply sameValueZero_ident_eq in E. apply Hne.
  destruct i, j; cbn in E; congruence.
Qed.

Lemma Set_has_add_other (s : list json) (i j : ident) :
  i <> j ->
  Set_has (Set_add s (json_of_ident i)) (json_of_ident j) = Set_has s (json_of_ident j).
Proof.
  intros Hne. unfold Set_add. destruct (Set_has s (json_of_ident i)); [reflexivity|].
  unfold Set_has. rewrite existsb_app. cbn [existsb].
  rewrite (sameValueZero_ident_ne i j Hne). rewrite !orb_false_r. reflexivity.
Qed.

Lemma Set_has_delete_other (s : list json) (i j : ident) :
  i <> j ->
  Set_has (Set_delete s (json_of_ident i)) (json_of_ident j)
  = Set_has s (json_of_ident j).
Proof.
  intros Hne. unfold Set_has, Set_delete.
  induction s as [|z s IH]; cbn [List.filter existsb]; [reflexivity|].
  destruct (sameValueZero (json_of_ident i) z) eqn:Hz; cbn [negb existsb].
  - apply sameValueZero_ident_eq in Hz. subst z.
    rewrite (sameValueZero_ident_ne i j Hne). exact IH.
  - rewrite IH. reflexivity.
Qed.

Lemma Set_add_again (s : list json) (i : ident) :
  Set_add (Set_add s (json_of_ident i)) (json_of_ident i)
  = Set_add s (json_of_ident i).
Proof.
  unfold Set_add at 1. rewrite Set_has_add. reflexivity.
Qed.

End ReadSetFrame.

(** X9. In src/js/app.1766840000.js, marking an identifier read or unread
    changes the read state of no other identifier, the number 7 and the
    string "7" being two identifiers; it changes no other field of the
    object and no other key of the storage; and marking read twice is
    marking read once. *)
Theorem read_state_of_the_others `{Host}
    (i j : ident) (w : FeedSieve * gmap string string) (key : string) :
  i <> j ->
  key <> "readItems" ->
  App1766840000.isRead j (App1766840000.markAsRead i w).1
  = App1766840000.isRead j w.1 /\
  App1766840000.isRead j (App1766840000.markAsUnread i w).1
  = App1766840000.isRead j w.1 /\
  (App1766840000.markAsRead i w).1
  = set_readItems (readItems (App1766840000.markAsRead i w).1) w.1 /\
  (App1766840000.markAsUnread i w).1
  = set_readItems (readItems (App1766840000.markAsUnread i w).1) w.1 /\
  (App1766840000.markAsRead i w).2 !! key = w.2 !! key /\
  (App1766840000.markAsUnread i w).2 !! key = w.2 !! key /\
  App1766840000.markAsRead i (App1766840000.markAsRead i w)
  = App1766840000.markAsRead i w.
Proof.
  intros Hne Hkey. destruct w as [this ls].
  unfold App1766840000.isRead, App1766840000.markAsRead, App1766840000.markAsUnread.
  cbn [fst snd readItems set_readItems].
  split; [apply Set_has_add_other, Hne|].
  split; [apply Set_has_delete_other, Hne|].
  split; [reflexivity|]. split; [reflexivity|].
  split; [apply lookup_insert_ne; congruence|].
  split; [apply lookup_insert_ne; congruence|].
  rewrite Set_add_again. f_equal. apply insert_insert_eq.
Qed.

(** The theorem at the number 7 and the string "7": marking the one read
    leaves the other unread. *)
Lemma read_state_of_the_others_witness :
  App1766840000.isRead (IdStr "7")
    (@App1766840000.markAsRead RefHost.host (IdNum 7) (App1766840000.initial [], ∅)).1
  = false.
Proof.
  rewrite (proj1 (@read_state_of_the_others RefHost.host (IdNum 7) (IdStr "7")
                    (App1766840000.initial [], ∅) "theme"
                    ltac:(discriminate) ltac:(discriminate))).
  reflexivity.
Defined.

(** ** The read set across a reload *)

Section Reload.
Context `{Host}.

Lemma Set_has_false (s : list json) (x : json) :
  Set_has s x = false <-> Forall (fun y => sameValueZero x y = false) s.
Proof.
  unfold Set_has. induction s as [|y s IH]; cbn [existsb].
  - split; [constructor | reflexivity].
  - rewrite orb_false_iff, IH. split.
    + intros [Hy Hs]. constructor; assumption.
    + intros Hall. inversion Hall; subst. split; assumption.
Qed.

Lemma distinct_snoc (s : list json) (x : json) :
  Notion.distinct s -> Set_has s x = false -> Notion.distinct (s ++ [x]).
Proof.
  unfold Notion.distinct. intros Hd. induction Hd as [|a l Ha Hl IH]; intros Hx.
  - cbn. constructor; [constructor | constructor].
  - apply Set_has_false in Hx. inversion Hx as [|? ? Hxa Hxl]; subst.
    cbn [app]. constructor.
    + apply List.Forall_app. split; [exact Ha|]. constructor; [exact Hxa | constructor].
    + apply IH. apply Set_has_false. exact Hxl.
Qed.

Lemma distinct_filter (f : json -> bool) (s : list json) :
  Notion.distinct s -> Notion.distinct (List.filter f s).
Proof.
  unfold Notion.distinct. induction 1 as [|a l Ha Hl IH]; cbn [List.filter].
  - constructor.
  - destruct (f a); [|exact IH]. constructor; [|exact IH].
    rewrite List.Forall_forall in *. intros y Hy. apply Ha.
    apply filter_In in Hy. apply Hy.
Qed.

Lemma distinct_Set_add (s : list json) (x : json) :
  Notion.distinct s -> Notion.distinct (Set_add s x).
Proof.
  intros Hd. unfold Set_add. destruct (Set_has s x) eqn:Hx; [exact Hd|].
  apply distinct_snoc; assumption.
Qed.

Lemma distinct_foldl_Set_add (l acc : list json) :
  Notion.distinct acc -> Notion.distinct (foldl Set_add acc l).
Proof.
  revert acc. induction l as [|x l IH]; intros acc Hd; cbn [foldl]; [exact Hd|].
  apply IH, distinct_Set_add, Hd.
Qed.

Lemma distinct_before (acc s : list json) (x : json) :
  Notion.distinct (acc ++ x :: s) -> Set_has acc x = false.
Proof.
  unfold Notion.distinct. induction acc as [|a acc IH]; cbn [app]; intros Hd.
  - reflexivity.
  - inversion Hd as [|? ? Ha Hrest]; subst.
    unfold Set_has. cbn [existsb]. apply orb_false_iff. split.
    + rewrite List.Forall_forall in Ha. apply Ha. apply in_elt.
    + apply IH, Hrest.
Qed.

(** [new Set] of an array without repetition is that array. *)
Lemma foldl_Set_add_distinct (s acc : list json) :
  Notion.distinct (acc ++ s) -> foldl Set_add acc s = acc ++ s.
Proof.
  revert acc. induction s as [|x s IH]; intros acc Hd; cbn [foldl].
  - rewrite app_nil_r. reflexivity.
  - unfold Set_add at 2. rewrite (distinct_before acc s x Hd).
    rewrite IH; rewrite <- app_assoc; [reflexivity | exact Hd].
Qed.

(** The read set the constructor builds has no repetition. *)
Lemma constructor_distinct (localStorage : gmap string string) (this : FeedSieve) :
  App1766840000.constructor localStorage = Normal this ->
  Notion.distinct (readItems this).
Proof.
  unfold App1766840000.constructor.
  destruct (JSON_parse _) as [j|]; [|discriminate].
  destruct j; cbn [newSet]; try discriminate; intros [= <-]; cbn [readItems
    App1766840000.initial]; try apply distinct_foldl_Set_add; constructor.
Qed.

End Reload.

(** X10. The read set survives a reload (src/js/app.1766840000.js). Take a
    read set without repetition, as the constructor builds them, and mark an
    identifier read or unread. If [JSON.parse] gives back the array that
    [JSON.stringify] wrote, the constructor run on the storage as it then is
    rebuilds exactly the read set of the page that was open: the same
    elements in the same order. The read set stays without repetition. *)
Theorem read_set_survives_reload `{Host}
    (i : ident) (w w' : FeedSieve * gmap string string) :
  Notion.distinct (readItems w.1) ->
  w' = App1766840000.markAsRead i w \/ w' = App1766840000.markAsUnread i w ->
  JSON_parse (JSON_stringify (readItems w'.1)) = Some (JArray (readItems w'.1)) ->
  nonEmpty (JSON_stringify (readItems w'.1)) = true ->
  App1766840000.constructor w'.2 = Normal (App1766840000.initial (readItems w'.1)) /\
  Notion.distinct (readItems w'.1).
Proof.
  intros Hd Hop Hparse Hne. destruct w as [this ls].
  assert (Hd' : Notion.distinct (readItems w'.1)).
  { destruct Hop as [-> | ->]; cbn [App1766840000.markAsRead
      App1766840000.markAsUnread fst readItems set_readItems].
    - apply distinct_Set_add, Hd.
    - apply distinct_filter, Hd. }
  split; [|exact Hd'].
  assert (Hstored : w'.2 !! "readItems" = Some (JSON_stringify (readItems w'.1))).
  { destruct Hop as [-> | ->]; cbn [App1766840000.markAsRead
      App1766840000.markAsUnread fst snd readItems set_readItems];
      apply lookup_insert_eq. }
  rewrite (constructor_payload w'.2 _ Hstored Hne), Hparse. cbn [newSet].
  rewrite (foldl_Set_add_distinct (readItems w'.1) []); [reflexivity | exact Hd'].
Qed.

(** The theorem on the reference host: 3 was read, 7 is marked read, the
    storage holds the text [3,7], and the constructor reads back 3 and 7. *)
Lemma read_set_survives_reload_witness :
  @App1766840000.constructor RefHost.host
    (@App1766840000.markAsRead RefHost.host (IdNum 7)
       (App1766840000.initial [JNumber 3], ∅)).2
  = Normal (App1766840000.initial [JNumber 3; JNumber 7]).
Proof.
  apply (@read_set_survives_reload RefHost.host (IdNum 7)
           (App1766840000.initial [JNumber 3], ∅)
           (@App1766840000.markAsRead RefHost.host (IdNum 7)
              (App1766840000.initial [JNumber 3], ∅))).
  - repeat constructor.
  - left. reflexivity.
  - vm_compute. reflexivity.
  - vm_compute. reflexivity.
Defined.

(** ** The read state kept key by key *)

Section ReadKeys.

Lemma read_key_inj (a b : string) : "read_" +:+ a = "read_" +:+ b -> a = b.
Proof. intros E. rewrite !append_String in E. injection E as E. exact E. Qed.

End ReadKeys.

(** X11. In the second document of src/site/js/app.js the read state is kept
    under the key "read_" followed by the identifier in string form. So an
    identifier is read after another is marked read exactly when the two
    have the same string form or it was read before, and after another is
    marked unread exactly when the string forms differ and it was read
    before: the number 7 that the click handler passes and the string "7"
    that the list passes name the same article. *)
Theorem read_state_by_string_form `{Host}
    (i j : ident) (localStorage : gmap string string) :
  (SiteAppCat.isRead j (SiteAppCat.markAsRead i localStorage) = true <->
   ident_toString j = ident_toString i \/ SiteAppCat.isRead j localStorage = true) /\
  (SiteAppCat.isRead j (SiteAppCat.markAsUnread i localStorage) = true <->
   ident_toString j <> ident_toString i /\ SiteAppCat.isRead j localStorage = true) /\
  SiteAppCat.isRead (IdStr (ident_toString i)) (SiteAppCat.markAsRead i localStorage)
  = true.
Proof.
  unfold SiteAppCat.markAsRead, SiteAppCat.markAsUnread.
  rewrite !Site_isRead_true.
  destruct (decide (ident_toString j = ident_toString i)) as [E|E].
  - rewrite E, lookup_insert_eq, lookup_delete_eq.
    split; [|split]; [ | | apply lookup_insert_eq].
    + split; [intros _; left; reflexivity | reflexivity].
    + split; [discriminate | intros [Hn _]; contradiction].
  - assert (Hk : "read_" +:+ ident_toString i <> "read_" +:+ ident_toString j)
      by (intros Hk; apply read_key_inj in Hk; congruence).
    rewrite lookup_insert_ne, lookup_delete_ne by exact Hk.
    split; [|split]; [ | | apply lookup_insert_eq].
    + split; [intros Hr; right; exact Hr | intros [Hc | Hr]; [contradiction | exact Hr]].
    + split; [intros Hr; split; assumption | intros [_ Hr]; exact Hr].
Qed.

(** The number 7 marked read, the string "7" is read; in
    src/js/app.1766840000.js it is not. *)
Lemma read_state_number_and_string :
  @SiteAppCat.isRead RefHost.host (IdStr "7")
    (@SiteAppCat.markAsRead RefHost.host (IdNum 7) ∅) = true /\
  App1766840000.isRead (IdStr "7")
    (@App1766840000.markAsRead RefHost.host (IdNum 7) (App1766840000.initial [], ∅)).1
  = false.
Proof. vm_compute. split; reflexivity. Qed.

(** ** The age shown beside an article *)

Section Ages.
Context `{Host}.

Lemma floor_bounds (d k : Z) :
  0 < k -> k * (d / k) <= d < k * (d / k) + k.
Proof.
  intros Hk. pose proof (Z.mul_div_le d k Hk).
  pose proof (Z.mul_succ_div_gt d k Hk). lia.
Qed.

Lemma formatDate_parsed (toLocaleDateString : option Z -> string) (now t : Z)
    (s : string) :
  nonEmpty s = true ->
  Date_parse s = Some t ->
  Display.formatDate toLocaleDateString now (Some s)
  = if (now - t) / 3600000 <? 1 then "Just now"
    else if (now - t) / 3600000 <? 24 then pretty ((now - t) / 3600000) +:+ "h ago"
    else if (now - t) / 86400000 <? 7 then pretty ((now - t) / 86400000) +:+ "d ago"
    else toLocaleDateString (Some t).
Proof.
  intros Hs Hp. unfold Display.formatDate. cbn [truthy template newDate].
  rewrite Hs, Hp. reflexivity.
Qed.

Lemma formatDate_by_age_parts (toLocaleDateString : option Z -> string) (now t : Z)
    (s : string) :
  nonEmpty s = true ->
  Date_parse s = Some t ->
  now - t < 3600000 ->
  Display.formatDate toLocaleDateString now (Some s) = "Just now".
Proof.
  intros Hs Hp Hr. rewrite (formatDate_parsed _ now t s Hs Hp).
  pose proof (floor_bounds (now - t) 3600000 eq_refl) as Hh.
  destruct ((now - t) / 3600000 <? 1) eqn:E1; [reflexivity|].
  apply Z.ltb_ge in E1. lia.
Qed.

End Ages.

(** X12. [formatDate] (every copy but src/js/app.js) by the age of the
    date, now minus the instant it parses to. Less than an hour, and that
    includes every date in the future: "Just now". From an hour to less than
    a day: the whole hours, 1 to 23, and "h ago". From a day to less than
    seven: the whole days, 1 to 6, and "d ago". Seven days or more: the
    host's short date. A date that does not parse is handed to the host's
    short date as an Invalid Date, and no date gives the empty string. *)
Theorem formatDate_by_age `{Host}
    (toLocaleDateString : option Z -> string) (now : Z) (dateStr : option string) :
  (truthy dateStr = false ->
   Display.formatDate toLocaleDateString now dateStr = "") /\
  (forall s, dateStr = Some s -> nonEmpty s = true -> Date_parse s = None ->
     Display.formatDate toLocaleDateString now dateStr = toLocaleDateString None) /\
  (forall s t, dateStr = Some s -> nonEmpty s = true -> Date_parse s = Some t ->
     (now - t < 3600000 ->
      Display.formatDate toLocaleDateString now dateStr = "Just now") /\
     (3600000 <= now - t < 86400000 ->
      Display.formatDate toLocaleDateString now dateStr
      = pretty ((now - t) / 3600000) +:+ "h ago"
      /\ 1 <= (now - t) / 3600000 <= 23) /\
     (86400000 <= now - t < 604800000 ->
      Display.formatDate toLocaleDateString now dateStr
      = pretty ((now - t) / 86400000) +:+ "d ago"
      /\ 1 <= (now - t) / 86400000 <= 6) /\
     (604800000 <= now - t ->
      Display.formatDate toLocaleDateString now dateStr
      = toLocaleDateString (Some t))).
Proof.
  split; [|split].
  - intros Hf. unfold Display.formatDate. rewrite Hf. reflexivity.
  - intros s -> Hs Hp. unfold Display.formatDate. cbn [truthy template newDate].
    rewrite Hs, Hp. reflexivity.
  - intros s t -> Hs Hp. rewrite (formatDate_parsed _ now t s Hs Hp).
    pose proof (floor_bounds (now - t) 3600000 eq_refl) as Hh.
    pose proof (floor_bounds (now - t) 86400000 eq_refl) as Hd.
    split; [|split; [|split]]; intros Hr.
    + destruct ((now - t) / 3600000 <? 1) eqn:E1; [reflexivity|].
      apply Z.ltb_ge in E1. lia.
    + destruct ((now - t) / 3600000 <? 1) eqn:E1; [apply Z.ltb_lt in E1; lia|].
      destruct ((now - t) / 3600000 <? 24) eqn:E2; [|apply Z.ltb_ge in E2; lia].
      apply Z.ltb_ge in E1. apply Z.ltb_lt in E2. split; [reflexivity | lia].
    + destruct ((now - t) / 3600000 <? 1) eqn:E1; [apply Z.ltb_lt in E1; lia|].
      destruct ((now - t) / 3600000 <? 24) eqn:E2; [apply Z.ltb_lt in E2; lia|].
      destruct ((now - t) / 86400000 <? 7) eqn:E3; [|apply Z.ltb_ge in E3; lia].
      apply Z.ltb_lt in E3. split; [reflexivity | lia].
    + destruct ((now - t) / 3600000 <? 1) eqn:E1; [apply Z.ltb_lt in E1; lia|].
      destruct ((now - t) / 3600000 <? 24) eqn:E2; [apply Z.ltb_lt in E2; lia|].
      destruct ((now - t) / 86400000 <? 7) eqn:E3; [apply Z.ltb_lt in E3; lia|].
      reflexivity.
Qed.

(** Ages on the reference host, read at noon of 2 March 2024: three hours, a
    day and three hours, a month, tomorrow, and a date that does not
    parse. *)
Lemma formatDate_of_the_sample :
  @Display.formatDate RefHost.host (fun _ => "Feb 1") 1709380800000
    (Some "2024-03-02T09:00:00Z") = "3h ago" /\
  @Display.formatDate RefHost.host (fun _ => "Feb 1") 1709380800000
    (Some "2024-03-01T09:00:00Z") = "1d ago" /\
  @Display.formatDate RefHost.host (fun _ => "Feb 1") 1709380800000
    (Some "2024-02-01T09:00:00Z") = "Feb 1" /\
  @Display.formatDate RefHost.host (fun _ => "Feb 1") 1709380800000
    (Some "2024-03-03T09:00:00Z") = "Just now" /\
  @Display.formatDate RefHost.host
    (fun d => match d with Some _ => "Feb 1" | None => "Invalid Date" end)
    1709380800000 (Some "soon") = "Invalid Date" /\
  @Display.formatDate RefHost.host (fun _ => "Feb 1") 1709380800000 None = "".
Proof. vm_compute. repeat split; reflexivity. Qed.

(** X13. An article dated in the future (its date parses to an instant that
    is not before now) is listed under This Week, which has no upper bound,
    and its age is shown as "Just now". *)
Theorem future_dated_article `{Host}
    (toLocaleDateString : option Z -> string) (now t : Z) (s : string) :
  nonEmpty s = true ->
  Date_parse s = Some t ->
  now <= t ->
  isThisWeek now (Some s) = true /\
  Display.formatDate toLocaleDateString now (Some s) = "Just now".
Proof.
  intros Hs Hp Hle. split.
  - apply isThisWeek_spec. exists s, t.
    unfold Spec.present. rewrite Hs. split; [reflexivity|]. split; [exact Hp | lia].
  - apply (formatDate_by_age_parts toLocaleDateString now t s Hs Hp). lia.
Qed.

(** The theorem on the reference host: an article dated tomorrow, seen at
    noon of 2 March 2024. *)
Lemma future_dated_article_witness :
  @isThisWeek RefHost.host 1709380800000 (Some "2024-03-03T09:00:00Z") = true /\
  @Display.formatDate RefHost.host (fun _ => "Mar 3") 1709380800000
    (Some "2024-03-03T09:00:00Z") = "Just now".
Proof.
  apply (@future_dated_article RefHost.host (fun _ => "Mar 3") 1709380800000
           1709456400000 "2024-03-03T09:00:00Z");
    [reflexivity | vm_compute; reflexivity | discriminate].
Defined.

(** ** The preview of a summary *)

Section Truncate.
Context `{Host}.

Lemma length_append (a b : string) :
  String.length (a +:+ b) = (String.length a + String.length b)%nat.
Proof.
  induction a as [|c a IH]; [reflexivity|].
  rewrite append_String. cbn [String.length]. rewrite IH. reflexivity.
Qed.

Lemma substring0ASCII_length (n : nat) (s : string) :
  String.length (substring0ASCII n s) = Nat.min n (String.length s).
Proof.
  revert s. induction n as [|n IH]; intros s; [reflexivity|].
  destruct s as [|c s]; [reflexivity|].
  cbn [substring0ASCII String.length Nat.min]. rewrite IH. reflexivity.
Qed.

Lemma substring0ASCII_isASCII (n : nat) (s : string) :
  isASCII s = true -> isASCII (substring0ASCII n s) = true.
Proof.
  revert s. induction n as [|n IH]; intros s Hs; [reflexivity|].
  destruct s as [|c s]; [reflexivity|].
  cbn [substring0ASCII isASCII] in *. apply andb_true_iff in Hs.
  destruct Hs as [Hc Hs]. rewrite Hc, (IH s Hs). reflexivity.
Qed.

Lemma trimStartASCII_length (s : string) :
  (String.length (trimStartASCII s) <= String.length s)%nat.
Proof.
  induction s as [|c s IH]; cbn [trimStartASCII]; [lia|].
  destruct (isSpace c); cbn [String.length]; lia.
Qed.

Lemma trimEndASCII_length (s : string) :
  (String.length (trimEndASCII s) <= String.length s)%nat.
Proof.
  induction s as [|c s IH]; cbn [trimEndASCII]; [lia|].
  destruct (trimEndASCII s) as [|d t].
  - destruct (isSpace c); cbn [String.length]; lia.
  - cbn [String.length] in *. lia.
Qed.

Lemma trimASCII_length (s : string) :
  (String.length (trimASCII s) <= String.length s)%nat.
Proof.
  unfold trimASCII. pose proof (trimEndASCII_length (trimStartASCII s)).
  pose proof (trimStartASCII_length s). lia.
Qed.

(** Without white space there is nothing to trim. *)
Lemma trimEndASCII_no_space (s : string) :
  forallb (fun c => negb (isSpace c)) (list_ascii_of_string s) = true ->
  trimEndASCII s = s.
Proof.
  induction s as [|c s IH]; cbn [list_ascii_of_string forallb trimEndASCII];
    [reflexivity|].
  intros Hall. apply andb_true_iff in Hall. destruct Hall as [Hc Hs].
  rewrite (IH Hs). apply negb_true_iff in Hc. rewrite Hc.
  destruct s; reflexivity.
Qed.

Lemma trimASCII_no_space (s : string) :
  forallb (fun c => negb (isSpace c)) (list_ascii_of_string s) = true ->
  trimASCII s = s.
Proof.
  intros Hall. unfold trimASCII.
  assert (Hs : trimStartASCII s = s).
  { destruct s as [|c s]; [reflexivity|]. cbn [trimStartASCII].
    cbn [list_ascii_of_string forallb] in Hall.
    apply andb_true_iff in Hall. destruct Hall as [Hc _].
    apply negb_true_iff in Hc. rewrite Hc. reflexivity. }
  rewrite Hs. apply trimEndASCII_no_space, Hall.
Qed.

(** On a string of the ASCII range the cut and the trimming are those of
    its characters. *)
Lemma truncate_ASCII (str : string) (maxLen : nat) :
  isASCII str = true ->
  Display.truncate str maxLen
  = if negb (nonEmpty str) || (String.length str <=? maxLen)%nat then str
    else trimASCII (substring0ASCII maxLen str) +:+ "...".
Proof.
  intros Hs. unfold Display.truncate, strLength, substring0, trim.
  rewrite Hs, (substring0ASCII_isASCII maxLen str Hs). reflexivity.
Qed.

End Truncate.

(** X14. [truncate] (the two copies with previews). A string of at most
    [maxLen] code units comes back as it is. For a string of the ASCII
    range, where a code unit is a character: a longer one comes back as its
    first [maxLen] characters, trimmed of white space at both ends, followed
    by three dots; that is at most [maxLen + 3] characters, and exactly that
    many when the cut part has no white space, so that a string one or two
    characters over the limit comes back longer than it was. *)
Theorem truncate_length `{Host} (str : string) (maxLen : nat) :
  ((strLength str <= maxLen)%nat -> Display.truncate str maxLen = str) /\
  (isASCII str = true ->
   strLength str = String.length str /\
   ((maxLen < String.length str)%nat ->
    Display.truncate str maxLen
    = trimASCII (substring0ASCII maxLen str) +:+ "..." /\
    (String.length (Display.truncate str maxLen) <= maxLen + 3)%nat /\
    (forallb (fun c => negb (isSpace c))
       (list_ascii_of_string (substring0ASCII maxLen str)) = true ->
     String.length (Display.truncate str maxLen) = (maxLen + 3)%nat))).
Proof.
  split.
  - intros Hle. unfold Display.truncate. apply Nat.leb_le in Hle.
    rewrite Hle, orb_true_r. reflexivity.
  - intros Hs. split; [unfold strLength; rewrite Hs; reflexivity|].
    intros Hlt. rewrite (truncate_ASCII str maxLen Hs).
    assert (Hne : nonEmpty str = true) by (destruct str; [cbn in Hlt; lia | reflexivity]).
    apply Nat.leb_gt in Hlt as Hb. rewrite Hne, Hb. cbn [negb orb].
    split; [reflexivity|]. rewrite length_append. cbn [String.length].
    pose proof (trimASCII_length (substring0ASCII maxLen str)) as Ht.
    pose proof (substring0ASCII_length maxLen str) as Hl.
    split; [lia|].
    intros Hall. rewrite (trimASCII_no_space _ Hall). lia.
Qed.

(** A string one over the limit comes back two longer; white space at the
    cut is dropped; a short string and the empty string are left alone. *)
Lemma truncate_of_the_sample :
  @Display.truncate RefHost.host "abcd" 3 = "abc..." /\
  @Display.truncate RefHost.host "ab  cd" 4 = "ab..." /\
  @Display.truncate RefHost.host "   abcd" 3 = "..." /\
  @Display.truncate RefHost.host "abc" 3 = "abc" /\
  @Display.truncate RefHost.host "" 0 = "".
Proof. vm_compute. repeat split; reflexivity. Qed.

(** ** The selection over a session *)

Section Sessions.
Context `{Host}.

Lemma App_handle_coherent (e : Nav.Event) (clock : nat -> Z) (this : FeedSieve) :
  Nav.coherent this -> Nav.coherent (Nav.App_handle e clock this).
Proof.
  intros [Hs Hc]. destruct e; split; cbn; intros Hsome;
    try (exact (Hs Hsome)); try (exact (Hc Hsome)); try reflexivity;
    destruct Hsome as [x Hx]; discriminate Hx.
Qed.

Lemma App_handle_frame (e : Nav.Event) (clock : nat -> Z) (this : FeedSieve) :
  items (Nav.App_handle e clock this) = items this /\
  readItems (Nav.App_handle e clock this) = readItems this.
Proof. destruct e; split; reflexivity. Qed.

Lemma App_handle_shown (e : Nav.Event) (clock : nat -> Z) (this : FeedSieve)
    (a : Article) :
  In a (filteredItems (Nav.App_handle e clock this)) -> In a (items this).
Proof.
  intros Hin. unfold Nav.App_handle, App1766840000.applyFilters,
    App1766840000.sortItems, Common.sortItems in Hin. cbn [filteredItems set_filteredItems] in Hin.
  apply Array_sort_In in Hin. unfold App1766840000.filtered in Hin.
  apply filterFrom_sublist_In in Hin.
  destruct e; exact Hin.
Qed.

Lemma App_run_snoc (es : list (Nav.Event * (nat -> Z))) (e : Nav.Event)
    (clock : nat -> Z) (this : FeedSieve) :
  Nav.App_run (es ++ [(e, clock)]) this
  = Nav.App_handle e clock (Nav.App_run es this).
Proof. unfold Nav.App_run. rewrite foldl_app. reflexivity. Qed.

End Sessions.

(** X15. Over any session of src/js/app.1766840000.js (clicks on buttons,
    headings, sources and categories, typing in the search box, changes of
    the sort menu, in any order) that starts from a coherent selection, the
    selection stays coherent: a source is held only in source mode and a
    category only in category mode. The session never changes the loaded
    articles nor the read set, and what is shown is made of loaded
    articles. *)
Theorem session_keeps_the_selection_coherent `{Host}
    (es : list (Nav.Event * (nat -> Z))) (this : FeedSieve) :
  Nav.coherent this ->
  (forall a, In a (filteredItems this) -> In a (items this)) ->
  Nav.coherent (Nav.App_run es this) /\
  items (Nav.App_run es this) = items this /\
  readItems (Nav.App_run es this) = readItems this /\
  (forall a, In a (filteredItems (Nav.App_run es this)) -> In a (items this)).
Proof.
  intros Hcoh Hshown. induction es as [|[e clock] es IH] using rev_ind.
  - repeat split; [apply Hcoh | apply Hcoh | exact Hshown].
  - rewrite App_run_snoc. destruct IH as (IHc & IHi & IHr & _).
    destruct (App_handle_frame e clock (Nav.App_run es this)) as [Hi Hr].
    repeat split.
    + apply (App_handle_coherent e clock _ IHc).
    + apply (App_handle_coherent e clock _ IHc).
    + rewrite Hi. exact IHi.
    + rewrite Hr. exact IHr.
    + intros a Hin. rewrite <- IHi. exact (App_handle_shown e clock _ a Hin).
Qed.

Lemma session_keeps_the_selection_coherent_witness :
  Nav.coherent
    (@Nav.App_run RefHost.host Fixture.session
       (Fixture.view "today" "" "date" Fixture.feed)) /\
  items (@Nav.App_run RefHost.host Fixture.session
           (Fixture.view "today" "" "date" Fixture.feed)) = Fixture.feed /\
  readItems (@Nav.App_run RefHost.host Fixture.session
               (Fixture.view "today" "" "date" Fixture.feed)) = [] /\
  (forall a,
     In a (filteredItems (@Nav.App_run RefHost.host Fixture.session
                            (Fixture.view "today" "" "date" Fixture.feed))) ->
     In a Fixture.feed).
Proof.
  apply (@session_keeps_the_selection_coherent RefHost.host Fixture.session
           (Fixture.view "today" "" "date" Fixture.feed)).
  - split; cbn; intros [x Hx]; discriminate Hx.
  - cbn. intros a Ha. destruct Ha.
Defined.

(** ** The category a type heading leaves behind *)

Section StaleCategory.
Context `{Host}.

Lemma filterFrom_ext (cb1 cb2 : Z -> Article -> bool) (clock : nat -> Z)
    (l : list Article) :
  (forall now a, cb1 now a = cb2 now a) ->
  forall i, filterFrom cb1 clock i l = filterFrom cb2 clock i l.
Proof.
  intros Hext. induction l as [|a l IH]; intros i; simpl; [reflexivity|].
  rewrite Hext, IH. reflexivity.
Qed.

(** The filter reads the source in source mode only, and the category in
    category mode only. *)
Lemma Site_filterCallback_cleared (this : FeedSieve) (now : Z) (a : Article) :
  SiteAppCat.filterCallback (Nav.cleared this) now a
  = SiteAppCat.filterCallback this now a.
Proof.
  unfold SiteAppCat.filterCallback, Common.temporalStage, Common.typeStage,
    Common.sourceStage, Common.categoryStage, Common.searchStage, Nav.cleared.
  cbn [currentFilter currentSource currentCategory searchQuery
       set_currentCategory set_currentSource].
  destruct (String.eqb (currentFilter this) "source");
    destruct (String.eqb (currentFilter this) "category"); reflexivity.
Qed.

Lemma Site_applyFilters_cleared (this : FeedSieve) (clock : nat -> Z) :
  Nav.cleared (SiteAppCat.applyFilters this clock)
  = SiteAppCat.applyFilters (Nav.cleared this) clock.
Proof.
  unfold SiteAppCat.applyFilters, SiteAppCat.sortItems, Common.sortItems,
    SiteAppCat.filtered.
  rewrite (filterFrom_ext _ _ clock (items (Nav.cleared this))
             (Site_filterCallback_cleared this)).
  destruct this. reflexivity.
Qed.

Lemma cleared_filteredItems (s1 s2 : FeedSieve) :
  Nav.cleared s1 = Nav.cleared s2 -> filteredItems s1 = filteredItems s2.
Proof. intros Heq. apply (f_equal filteredItems) in Heq. exact Heq. Qed.

Lemma select_cleared (e : Nav.Event) (s1 s2 : FeedSieve) :
  Nav.names_category e = false ->
  Nav.cleared s1 = Nav.cleared s2 ->
  Nav.cleared (Nav.Site_select e s1) = Nav.cleared (Nav.App_select e s2).
Proof.
  intros He Heq. destruct s1, s2. unfold Nav.cleared in Heq.
  cbn in Heq. injection Heq as Hi Hf Hcf Hcs Hcc Hq Hsb Hr. subst.
  destruct e; unfold Nav.cleared; cbn in *.
  - reflexivity.
  - rewrite He. reflexivity.
  - reflexivity.
  - reflexivity.
  - rewrite Hcs, Hcc. reflexivity.
  - rewrite Hcs, Hcc. reflexivity.
Qed.

End StaleCategory.

(** X16. The second document of src/site/js/app.js does not put
    [currentCategory] back to null in [handleParentClick], as
    src/js/app.1766840000.js does. As long as no type heading carries the
    filter name category, the category left behind is never read: over any
    session the list shown, and the whole object apart from the selection
    its mode does not use, are what they would be had the handler cleared
    the category. *)
Theorem stale_category_is_never_shown `{Host}
    (es : list (Nav.Event * (nat -> Z))) (this : FeedSieve) :
  List.Forall (fun ec => Nav.names_category ec.1 = false) es ->
  Nav.cleared (Nav.Site_run es this) = Nav.cleared (Nav.Site_run_clearing es this) /\
  filteredItems (Nav.Site_run es this)
  = filteredItems (Nav.Site_run_clearing es this).
Proof.
  intros Hes.
  assert (Hsim : forall s1 s2, Nav.cleared s1 = Nav.cleared s2 ->
            Nav.cleared (Nav.Site_run es s1)
            = Nav.cleared (Nav.Site_run_clearing es s2)).
  { induction Hes as [|[e clock] es He _ IH]; intros s1 s2 Heq; [exact Heq|].
    unfold Nav.Site_run, Nav.Site_run_clearing. cbn [foldl fst snd].
    apply IH. unfold Nav.Site_handle.
    rewrite !Site_applyFilters_cleared.
    rewrite (select_cleared e s1 s2 He Heq). reflexivity. }
  split; [|apply cleared_filteredItems]; apply Hsim; reflexivity.
Qed.

Lemma stale_category_is_never_shown_witness :
  Nav.cleared (@Nav.Site_run RefHost.host Fixture.session
                 (Fixture.view "today" "" "date" Fixture.feed))
  = Nav.cleared (@Nav.Site_run_clearing RefHost.host Fixture.session
                   (Fixture.view "today" "" "date" Fixture.feed)) /\
  filteredItems (@Nav.Site_run RefHost.host Fixture.session
                   (Fixture.view "today" "" "date" Fixture.feed))
  = filteredItems (@Nav.Site_run_clearing RefHost.host Fixture.session
                     (Fixture.view "today" "" "date" Fixture.feed)).
Proof.
  apply (@stale_category_is_never_shown RefHost.host Fixture.session
           (Fixture.view "today" "" "date" Fixture.feed)).
  repeat constructor.
Defined.

(** After the session of the fixture the object of the second document
    still holds the category AI under the filter rss, and shows the two rss
    articles all the same. A heading that carried the filter name category
    would bring the category back: the list would be filtered by it. *)
Lemma stale_category_of_the_sample :
  let st := @Nav.Site_run RefHost.host Fixture.session
              (Fixture.view "today" "" "date" Fixture.feed) in
  currentFilter st = "rss" /\ currentCategory st = Some "AI" /\
  map id (filteredItems st) = [IdNum 1; IdNum 3] /\
  let es := [(Nav.CategoryClick "AI", Fixture.noon);
             (Nav.ParentClick "category", Fixture.noon)] in
  filteredItems (@Nav.Site_run RefHost.host es
                   (Fixture.view "today" "" "date" Fixture.feed)) = [] /\
  map id (filteredItems (@Nav.Site_run_clearing RefHost.host es
                           (Fixture.view "today" "" "date" Fixture.feed)))
  = [IdNum 1; IdNum 2; IdNum 3; IdNum 4].
Proof. vm_compute. repeat split; reflexivity. Qed.

(** ** The click on an article *)

Section Clicks.

Lemma digitValue_pretty (d : N) :
  (d < 10)%N -> Display.digitValue 10 (pretty_N_char d) = Some (Z.of_N d).
Proof.
  intros Hd.
  assert (Hcases : d = 0%N \/ d = 1%N \/ d = 2%N \/ d = 3%N \/ d = 4%N \/ d = 5%N
                   \/ d = 6%N \/ d = 7%N \/ d = 8%N \/ d = 9%N) by lia.
  repeat (destruct Hcases as [-> | Hcases]; [reflexivity|]).
  subst d. reflexivity.
Qed.

(** The digits of a positive number read back to it. *)
Lemma parseDigits_pretty_go (x : N) :
  (0 < x)%N -> forall s,
  Display.parseDigits 10 None (pretty_N_go x s)
  = Display.parseDigits 10 (Some (Z.of_N x)) s.
Proof.
  induction (N.lt_wf_0 x) as [x _ IH]. intros Hx s.
  rewrite pretty_N_go_step by exact Hx.
  assert (Hm : (x mod 10 < 10)%N) by (apply N.mod_lt; lia).
  assert (Hdm : x = (10 * (x / 10) + x mod 10)%N) by (apply N.div_mod; lia).
  destruct (N.eq_dec (x / 10)%N 0%N) as [H0 | H0].
  - rewrite H0, pretty_N_go_0. cbn [Display.parseDigits].
    rewrite (digitValue_pretty _ Hm). do 2 f_equal. lia.
  - rewrite IH; [| apply N.div_lt; lia | lia].
    cbn [Display.parseDigits]. rewrite (digitValue_pretty _ Hm).
    do 2 f_equal. lia.
Qed.

(** They start with a digit from 1 to 9. *)
Lemma pretty_go_head (x : N) :
  (0 < x)%N -> forall s,
  exists k r, (1 <= k <= 9)%N /\ pretty_N_go x s = String (pretty_N_char k) r.
Proof.
  induction (N.lt_wf_0 x) as [x _ IH]. intros Hx s.
  rewrite pretty_N_go_step by exact Hx.
  assert (Hm : (x mod 10 < 10)%N) by (apply N.mod_lt; lia).
  assert (Hdm : x = (10 * (x / 10) + x mod 10)%N) by (apply N.div_mod; lia).
  destruct (N.eq_dec (x / 10)%N 0%N) as [H0 | H0].
  - rewrite H0, pretty_N_go_0. exists (x mod 10)%N, s. split; [lia | reflexivity].
  - apply IH; [apply N.div_lt; lia | lia].
Qed.

(** Before a digit from 1 to 9 there is nothing to skip, and no prefix. *)
Lemma parseSigned_head (k : N) (r : string) :
  (1 <= k <= 9)%N ->
  trimStartASCII (String (pretty_N_char k) r) = String (pretty_N_char k) r /\
  Display.parseSigned (String (pretty_N_char k) r)
  = option_map (Z.mul 1) (Display.parseDigits 10 None (String (pretty_N_char k) r)) /\
  Display.parseSigned (String "-" (String (pretty_N_char k) r))
  = option_map (Z.mul (-1))
      (Display.parseDigits 10 None (String (pretty_N_char k) r)).
Proof.
  intros Hk.
  assert (Hcases : k = 1%N \/ k = 2%N \/ k = 3%N \/ k = 4%N \/ k = 5%N
                   \/ k = 6%N \/ k = 7%N \/ k = 8%N \/ k = 9%N) by lia.
  destruct Hcases as [-> | [-> | [-> | [-> | [-> | [-> | [-> | [-> | ->]]]]]]]];
    destruct r as [|x r]; repeat split; reflexivity.
Qed.

(** The decimal form of a number is of the ASCII range. *)
Lemma isASCII_pretty_go (x : N) (s : string) :
  isASCII s = true -> isASCII (pretty_N_go x s) = true.
Proof.
  revert s. induction (N.lt_wf_0 x) as [x _ IH]. intros s Hs.
  destruct (N.eq_dec x 0%N) as [->|Hx]; [rewrite pretty_N_go_0; exact Hs|].
  rewrite pretty_N_go_step by lia.
  apply IH; [apply N.div_lt; lia|].
  cbn [isASCII]. rewrite Hs, andb_true_r.
  assert (Hm : (x mod 10 < 10)%N) by (apply N.mod_lt; lia).
  generalize dependent (x mod 10)%N. intros d Hd.
  assert (Hcases : d = 0%N \/ d = 1%N \/ d = 2%N \/ d = 3%N \/ d = 4%N \/ d = 5%N
                   \/ d = 6%N \/ d = 7%N \/ d = 8%N \/ d = 9%N) by lia.
  destruct Hcases as [-> | [-> | [-> | [-> | [-> | [-> | [-> | [-> | [-> | ->]]]]]]]]];
    reflexivity.
Qed.

Lemma parseSigned_positive (p : positive) :
  isASCII (pretty (N.pos p)) = true /\
  trimStartASCII (pretty (N.pos p)) = pretty (N.pos p) /\
  Display.parseSigned (pretty (N.pos p)) = Some (Z.pos p) /\
  Display.parseSigned ("-" +:+ pretty (N.pos p)) = Some (Z.neg p).
Proof.
  unfold pretty, pretty_N. destruct (decide (N.pos p = 0%N)) as [E|_]; [discriminate E|].
  split; [apply isASCII_pretty_go; reflexivity|].
  pose proof (parseDigits_pretty_go (N.pos p) eq_refl "") as Hd.
  destruct (pretty_go_head (N.pos p) eq_refl "") as (k & r & Hk & Hs).
  change ("-" +:+ pretty_N_go (N.pos p) "") with (String "-" (pretty_N_go (N.pos p) "")).
  rewrite Hs in *. destruct (parseSigned_head k r Hk) as (Ht & Hp & Hn).
  rewrite Ht, Hp, Hn, Hd. repeat split; reflexivity.
Qed.

Section ParseInt.
Context `{Host}.

(** [parseInt] reads the decimal form of a safe integer back to the
    integer. *)
Lemma parseInt_pretty (n : Z) :
  isSafeInteger n = true -> Display.parseInt (Number_String n) = Some n.
Proof.
  intros Hn. unfold Number_String, Display.parseInt, trimStart, toNumber. rewrite Hn.
  destruct n as [|p|p].
  - reflexivity.
  - destruct (parseSigned_positive p) as (Ha & Ht & Hp & _).
    change (pretty (Z.pos p)) with (pretty (N.pos p)).
    rewrite Ha, Ht, Hp, Hn. reflexivity.
  - destruct (parseSigned_positive p) as (Ha & Ht & _ & Hm).
    change (pretty (Z.neg p)) with ("-" +:+ pretty (N.pos p)).
    change ("-" +:+ pretty (N.pos p)) with (String "-" (pretty (N.pos p))) in *.
    cbn [isASCII trimStartASCII]. rewrite Ha.
    change ((N_of_ascii "-" <? 128)%N && true) with true.
    change (isSpace "-") with false. cbn iota. rewrite Hm, Hn. reflexivity.
Qed.

End ParseInt.

Lemma findClicked_Some (itemId : option Z) (its : list Article) (b : Article) :
  Display.findClicked itemId its = Some b ->
  In b its /\ exists n, id b = IdNum n /\ itemId = Some n.
Proof.
  unfold Display.findClicked. intros Hf. apply find_some in Hf.
  destruct Hf as [Hin Hb]. split; [exact Hin|].
  unfold Display.strictEqualsNumber in Hb.
  destruct (id b) as [n|s]; [|discriminate Hb].
  destruct itemId as [m|]; [|discriminate Hb].
  apply Z.eqb_eq in Hb. subst m. exists n. split; reflexivity.
Qed.

Lemma findClicked_In (n : Z) (its : list Article) (a : Article) :
  In a its -> id a = IdNum n ->
  exists b, Display.findClicked (Some n) its = Some b.
Proof.
  intros Hin Hid. unfold Display.findClicked.
  destruct (List.find _ its) as [b|] eqn:Hf; [exists b; reflexivity|].
  exfalso. pose proof (find_none _ _ Hf a Hin) as Hn. cbn beta in Hn.
  rewrite Hid in Hn. cbn in Hn. rewrite Z.eqb_refl in Hn. discriminate Hn.
Qed.

Lemma NoDup_map_id_eq (its : list Article) (a b : Article) :
  List.NoDup (map id its) -> In a its -> In b its -> id a = id b -> a = b.
Proof.
  induction its as [|c its IH]; intros Hnd Ha Hb Hid; [destruct Ha|].
  cbn [map] in Hnd. inversion Hnd as [|x l Hnotin Hnd']; subst.
  destruct Ha as [-> | Ha], Hb as [-> | Hb].
  - reflexivity.
  - exfalso. apply Hnotin. rewrite Hid. apply in_map. exact Hb.
  - exfalso. apply Hnotin. rewrite <- Hid. apply in_map. exact Ha.
  - apply IH; assumption.
Qed.

End Clicks.

(** X17. The click on an article of the list in src/js/app.1766840000.js.
    For a loaded article whose [id] is a safe integer [n], the element
    carries the decimal form of [n], [parseInt] reads it back, and the click
    opens a loaded article of that [id] and marks [n] read; it is the
    article clicked when no two loaded articles share an [id]. Whatever the
    element carries, an article whose [id] is a string is never the one
    opened. *)
Theorem click_opens_the_article `{Host} (a : Article) (n : Z)
    (w : FeedSieve * gmap string string) :
  id a = IdNum n -> isSafeInteger n = true -> In a (items w.1) ->
  ident_toString (id a) = pretty n /\
  (exists b,
     Display.findClicked (Display.parseInt (ident_toString (id a))) (items w.1) = Some b /\
     In b (items w.1) /\ id b = id a /\
     (List.NoDup (map id (items w.1)) -> b = a)) /\
  App1766840000.isRead (id a)
    (Display.handleArticleClick (Display.parseInt (ident_toString (id a))) w).1 = true /\
  (forall itemId b s, id b = IdStr s ->
     Display.findClicked itemId (items w.1) <> Some b).
Proof.
  intros Hid Hsafe Hin. rewrite Hid. cbn [ident_toString].
  split; [unfold Number_String; rewrite Hsafe; reflexivity|].
  rewrite (parseInt_pretty n Hsafe).
  destruct (findClicked_In n (items w.1) a Hin Hid) as [b Hb].
  destruct (findClicked_Some _ _ _ Hb) as (Hbin & m & Hbid & Hm).
  injection Hm as <-.
  split; [|split].
  - exists b. repeat split; [exact Hb | exact Hbin | exact Hbid |].
    intros Hnd. apply (NoDup_map_id_eq (items w.1)); [exact Hnd | exact Hbin | exact Hin |].
    rewrite Hbid, Hid. reflexivity.
  - unfold Display.handleArticleClick. rewrite Hb, Hbid. destruct w as [this st].
    unfold App1766840000.markAsRead, App1766840000.isRead.
    cbn [fst readItems set_readItems]. apply Set_has_add.
  - intros itemId c s Hs Hf. apply findClicked_Some in Hf.
    destruct Hf as (_ & m & Hc & _). rewrite Hs in Hc. discriminate Hc.
Qed.

Lemma click_opens_the_article_witness :
  @ident_toString RefHost.host (id (Fixture.post 3 None (Some (IdNum 42))
     (Some "Alpha (old)") (Some "2024-02-01T09:00:00Z"))) = pretty 3 /\
  (exists b,
     Display.findClicked
       (@Display.parseInt RefHost.host
          (@ident_toString RefHost.host (id (Fixture.post 3 None (Some (IdNum 42))
             (Some "Alpha (old)") (Some "2024-02-01T09:00:00Z")))))
       (items (Fixture.view "all" "" "date" Fixture.feed, ∅ : gmap string string).1)
     = Some b /\
     In b (items (Fixture.view "all" "" "date" Fixture.feed, ∅ : gmap string string).1) /\
     id b = id (Fixture.post 3 None (Some (IdNum 42))
                  (Some "Alpha (old)") (Some "2024-02-01T09:00:00Z")) /\
     (List.NoDup (map id
        (items (Fixture.view "all" "" "date" Fixture.feed, ∅ : gmap string string).1)) ->
      b = Fixture.post 3 None (Some (IdNum 42))
            (Some "Alpha (old)") (Some "2024-02-01T09:00:00Z"))) /\
  App1766840000.isRead
    (id (Fixture.post 3 None (Some (IdNum 42))
           (Some "Alpha (old)") (Some "2024-02-01T09:00:00Z")))
    (@Display.handleArticleClick RefHost.host
       (@Display.parseInt RefHost.host
          (@ident_toString RefHost.host (id (Fixture.post 3 None (Some (IdNum 42))
             (Some "Alpha (old)") (Some "2024-02-01T09:00:00Z")))))
       (Fixture.view "all" "" "date" Fixture.feed, ∅)).1 = true /\
  (forall itemId b s, id b = IdStr s ->
     Display.findClicked itemId
       (items (Fixture.view "all" "" "date" Fixture.feed, ∅ : gmap string string).1)
     <> Some b).
Proof.
  apply (@click_opens_the_article RefHost.host
           (Fixture.post 3 None (Some (IdNum 42))
              (Some "Alpha (old)") (Some "2024-02-01T09:00:00Z"))
           3 (Fixture.view "all" "" "date" Fixture.feed, ∅)).
  - reflexivity.
  - reflexivity.
  - cbn. right. right. left. reflexivity.
Defined.

(** What [parseInt] makes of other texts: a string identifier that looks
    like a number opens the article that has the number; hexadecimal,
    leading white space and trailing text; no digit, no number. *)
Lemma parseInt_of_the_sample :
  @Display.parseInt RefHost.host "42" = Some 42 /\ @Display.parseInt RefHost.host "-7" = Some (-7) /\
  @Display.parseInt RefHost.host "  12px" = Some 12 /\ @Display.parseInt RefHost.host "0x1F" = Some 31 /\
  @Display.parseInt RefHost.host "+5" = Some 5 /\ @Display.parseInt RefHost.host "1.5" = Some 1 /\
  @Display.parseInt RefHost.host "undefined" = None /\ @Display.parseInt RefHost.host "" = None /\
  @Display.parseInt RefHost.host "-" = None /\ @Display.parseInt RefHost.host "0x" = None /\
  @Display.parseInt RefHost.host "a1" = None.
Proof. vm_compute. repeat split; reflexivity. Qed.

(** ** The statistics of the earliest copy *)

Section Statistics.
Context `{Host}.

Lemma typeCounts_lookup (its : list Article) (k : string) :
  Stats.typeCounts its !! k
  = (let n := Z.of_nat (length (List.filter
                                  (fun a => String.eqb (Stats.typeKey a) k) its)) in
     if n =? 0 then None else Some n).
Proof.
  induction its as [|a its IH] using rev_ind.
  - apply lookup_empty.
  - unfold Stats.typeCounts in *. rewrite foldl_app. cbn [foldl].
    rewrite List.filter_app, length_app. cbn [List.filter].
    cbv zeta in *. unfold Stats.countType at 1.
    destruct (String.eqb_spec (Stats.typeKey a) k) as [E|E].
    + subst k. rewrite lookup_insert_eq, IH. cbn [length].
      set (n := length (List.filter _ its)).
      destruct (Z.eqb_spec (Z.of_nat n) 0) as [E0|E0];
        destruct (Z.eqb_spec (Z.of_nat (n + 1)) 0) as [E1|E1]; try lia.
      * f_equal. lia.
      * destruct (Z.eqb_spec (Z.of_nat n) 0); [lia|]. f_equal. lia.
    + rewrite lookup_insert_ne by exact E. rewrite IH. cbn [length].
      rewrite Nat.add_0_r. reflexivity.
Qed.

Lemma AppJs_filter_by_type (this : FeedSieve) (t : string) :
  searchQuery this = "" -> t <> "all" -> t <> "undefined" ->
  AppJs.filtered (set_currentFilter t this)
  = List.filter (fun a => String.eqb (Stats.typeKey a) t) (items this).
Proof.
  intros Hq Ht Hu. unfold AppJs.filtered. cbn [items set_currentFilter].
  apply List.filter_ext. intros a.
  unfold AppJs.filterCallback, AppJs.searchStage, AppJs.typeStage, Stats.typeKey.
  cbn [searchQuery currentFilter set_currentFilter]. rewrite Hq. cbn [nonEmpty].
  rewrite andb_true_r. rewrite (proj2 (String.eqb_neq _ _) Ht). cbn [negb andb].
  destruct (source_type a) as [s|]; cbn [template].
  - destruct (String.eqb s t); reflexivity.
  - symmetry. apply String.eqb_neq. intros E. apply Hu. symmetry. exact E.
Qed.

End Statistics.

(** X18. The statistics bar of src/js/app.js against its filter. With an
    empty search, the number shown for a type is the length of the list the
    filter on that type gives, and the number is left out exactly when that
    list is empty: this copy gives an absent [source_type] no default in
    either place. Articles without a [source_type] are counted under the key
    undefined, together with those whose type is that word. *)
Theorem stats_count_the_filtered_list `{Host} (this : FeedSieve) (t : string) :
  searchQuery this = "" -> t <> "all" -> t <> "undefined" ->
  Stats.shown (Stats.typeCounts (items this)) t
  = (let n := Z.of_nat (length (AppJs.filtered (set_currentFilter t this))) in
     if n =? 0 then None else Some n) /\
  Stats.shown (Stats.typeCounts (items this)) "undefined"
  = (let n := Z.of_nat (length (List.filter
               (fun a => match source_type a with
                         | Some s => String.eqb s "undefined"
                         | None => true
                         end) (items this))) in
     if n =? 0 then None else Some n).
Proof.
  intros Hq Ht Hu. unfold Stats.shown. rewrite !typeCounts_lookup.
  rewrite (AppJs_filter_by_type this t Hq Ht Hu). cbv zeta. split.
  - destruct (Z.eqb_spec (Z.of_nat (length (List.filter
        (fun a => String.eqb (Stats.typeKey a) t) (items this)))) 0) as [E|E];
      [reflexivity|].
    rewrite (proj2 (Z.eqb_neq _ _) E). reflexivity.
  - rewrite (List.filter_ext
               (fun a => String.eqb (Stats.typeKey a) "undefined")
               (fun a => match source_type a with
                         | Some s => String.eqb s "undefined"
                         | None => true
                         end)) by (intros a; unfold Stats.typeKey;
                                   destruct (source_type a); reflexivity).
    destruct (Z.eqb_spec (Z.of_nat (length (List.filter
        (fun a => match source_type a with
                  | Some s => String.eqb s "undefined"
                  | None => true
                  end) (items this)))) 0) as [E|E]; [reflexivity|].
    rewrite (proj2 (Z.eqb_neq _ _) E). reflexivity.
Qed.

Lemma stats_count_the_filtered_list_witness :
  Stats.shown (Stats.typeCounts (items (Fixture.view "all" "" "date" Fixture.feed))) "rss"
  = (let n := Z.of_nat (length (@AppJs.filtered RefHost.host
                 (set_currentFilter "rss" (Fixture.view "all" "" "date" Fixture.feed)))) in
     if n =? 0 then None else Some n) /\
  Stats.shown (Stats.typeCounts (items (Fixture.view "all" "" "date" Fixture.feed)))
    "undefined"
  = (let n := Z.of_nat (length (List.filter
               (fun a => match source_type a with
                         | Some s => String.eqb s "undefined"
                         | None => true
                         end) (items (Fixture.view "all" "" "date" Fixture.feed)))) in
     if n =? 0 then None else Some n).
Proof.
  apply (@stats_count_the_filtered_list RefHost.host (Fixture.view "all" "" "date" Fixture.feed) "rss");
    [reflexivity | discriminate | discriminate].
Defined.

(** In the feed of the fixture the article without a type is counted under
    undefined and not under rss, where the later copies list it. *)
Lemma stats_of_the_sample :
  Stats.shown (Stats.typeCounts Fixture.feed) "rss" = Some 1 /\
  Stats.shown (Stats.typeCounts Fixture.feed) "undefined" = Some 1 /\
  Stats.shown (Stats.typeCounts Fixture.feed) "nitter" = None /\
  map id (@AppJs.filtered RefHost.host (Fixture.view "rss" "" "date" Fixture.feed)) = [IdNum 1] /\
  map id (@App1766840000.filtered RefHost.host
            (Fixture.view "rss" "" "date" Fixture.feed) Fixture.noon)
  = [IdNum 1; IdNum 3].
Proof. vm_compute. repeat split; reflexivity. Qed.
